(** * TiKV start script (startscript/v2): rendering model and properties

    The development embeds [RenderTiKVStartScript] of
    [pkg/manager/member/startscript/v2/tikv_start_script.go] together with
    the parts of the Go libraries it runs on: [fmt.Sprintf], [strings],
    [slices], [path/filepath] and the subset of [text/template] that the
    script fragments of the package use.  The polling loop that the script
    holds is read and run by a model of the shell subset it is written
    in, and the call is given a second time with the state of the process
    it runs in. *)

From Stdlib Require Import ZArith String Ascii List Bool Lia DecimalString DecimalZ Permutation.
Import ListNotations.
Open Scope string_scope.

(** ** Text

    Go strings are byte strings; they are modelled by [string]. *)

(** The double quote. *)
Definition dquote : ascii := "034"%char.

(** The line feed. *)
Definition LF : ascii := "010"%char.

(** The fragments of the package are Go raw strings (written between
    backquotes), so they cannot contain a backquote.  The literals below
    write a backquote where the source has a double quote; [raw] puts the
    double quotes back. *)
Fixpoint raw (s : string) : string :=
  match s with
  | EmptyString => EmptyString
  | String c s' => String (if Ascii.eqb c "`" then dquote else c) (raw s')
  end.

(** [starts p s]: [s] begins with [p] ([strings.HasPrefix s p]). *)
Fixpoint starts (p s : string) : bool :=
  match p with
  | EmptyString => true
  | String a p' =>
      match s with
      | EmptyString => false
      | String b s' => Ascii.eqb a b && starts p' s'
      end
  end.

(** [occ p s]: the number of positions of [s] at which [p] occurs
    (occurrences may overlap). *)
Fixpoint occ (p s : string) : nat :=
  match s with
  | EmptyString => 0
  | String _ s' => (if starts p s then 1 else 0) + occ p s'
  end.

(** [proper_prefix u p]: [u] is a prefix of [p] and is not all of [p]. *)
Definition proper_prefix (u p : string) : bool :=
  starts u p && negb (starts p u).

(** [border p s]: some non-empty suffix of [s] is a proper prefix of [p],
    so that an occurrence of [p] could begin in [s] and end after it. *)
Fixpoint border (p s : string) : bool :=
  match s with
  | EmptyString => false
  | String _ s' => proper_prefix s p || border p s'
  end.

(** [free p s]: no occurrence of [p] begins in [s], whatever follows. *)
Definition free (p s : string) : bool :=
  Nat.eqb (occ p s) 0 && negb (border p s).

(** ** fmt *)
Module fmt.

(** The operands of the verbs. *)
Inductive arg : Type :=
| str (s : string)
| int (z : Z).

(** Decimal rendering of an integer ([%d], and [Fprint] of an int). *)
Definition itoa (z : Z) : string := NilZero.string_of_int (Z.to_int z).

(** [Sprintf] for formats made of text and the verbs [%s] and [%d], each
    applied to an operand of its kind (the only uses in the package).  A
    verb with no operand prints as [%!v(MISSING)], as in Go; any other
    verb or operand kind is outside the modelled subset and ends the
    output. *)
Fixpoint Sprintf (format : string) (args : list arg) : string :=
  match format with
  | EmptyString => EmptyString
  | String c rest =>
      if Ascii.eqb c "%" then
        match rest with
        | String v rest' =>
            match args with
            | a :: args' =>
                match a with
                | str s =>
                    if Ascii.eqb v "s" then s ++ Sprintf rest' args'
                    else EmptyString
                | int z =>
                    if Ascii.eqb v "d" then itoa z ++ Sprintf rest' args'
                    else EmptyString
                end
            | [] => "%!" ++ String v "(MISSING)" ++ Sprintf rest' []
            end
        | EmptyString => "%!(NOVERB)"
        end
      else String c (Sprintf rest args)
  end.

End fmt.

(** ** strings and slices *)
Module strings.

(** [Join]. *)
Definition Join (elems : list string) (sep : string) : string :=
  String.concat sep elems.

(** Replacement of the non-overlapping occurrences of a non-empty [old],
    leftmost first; [skip] counts the bytes of a matched occurrence still
    to be passed over. *)
Fixpoint replaceFrom (old new : string) (skip : nat) (s : string) : string :=
  match s with
  | EmptyString => EmptyString
  | String c s' =>
      match skip with
      | S k => replaceFrom old new k s'
      | O =>
          if starts old s
          then new ++ replaceFrom old new (Nat.pred (String.length old)) s'
          else String c (replaceFrom old new 0 s')
      end
  end.

(** An empty [old] matches at the beginning of the string and after each
    character (each byte here: the model is exact on ASCII text). *)
Fixpoint intersperse (new s : string) : string :=
  match s with
  | EmptyString => EmptyString
  | String c s' => String c (new ++ intersperse new s')
  end.

(** [ReplaceAll]. *)
Definition ReplaceAll (s old new : string) : string :=
  match old with
  | EmptyString => new ++ intersperse new s
  | String _ _ => replaceFrom old new 0 s
  end.

(** [TrimRight s cutset], for a cutset given as a predicate: the result is
    computed from the right. *)
Fixpoint TrimRight (cut : ascii -> bool) (s : string) : string :=
  match s with
  | EmptyString => EmptyString
  | String c s' =>
      match TrimRight cut s' with
      | EmptyString => if cut c then EmptyString else String c EmptyString
      | t => String c t
      end
  end.

(** [Split s sep] for a one-byte separator. *)
Fixpoint splitOn (sep : ascii) (cur : string) (s : string) : list string :=
  match s with
  | EmptyString => [cur]
  | String c s' =>
      if Ascii.eqb c sep then cur :: splitOn sep EmptyString s'
      else splitOn sep (cur ++ String c EmptyString) s'
  end.

End strings.

Module slices.

(** [Contains] on a slice of strings. *)
Definition Contains (s : list string) (v : string) : bool :=
  existsb (String.eqb v) s.

End slices.

(** ** path/filepath (Unix) *)
Module filepath.

(** One step of [Clean] over the elements of a path: empty and [.]
    elements vanish, [..] removes the element before it, stays when the
    path is relative and nothing can be removed, and vanishes at the root.
    [out] holds the elements kept so far, last first. *)
Definition cleanStep (rooted : bool) (out : list string) (e : string) : list string :=
  if String.eqb e "" || String.eqb e "." then out
  else if String.eqb e ".." then
    match out with
    | top :: below => if String.eqb top ".." then e :: out else below
    | [] => if rooted then [] else [e]
    end
  else e :: out.

(** [Clean]. *)
Definition Clean (path : string) : string :=
  match path with
  | EmptyString => "."
  | String c _ =>
      let rooted := Ascii.eqb c "/" in
      let kept := rev (fold_left (cleanStep rooted) (strings.splitOn "/" EmptyString path) []) in
      if rooted then "/" ++ String.concat "/" kept
      else match kept with
           | [] => "."
           | _ => String.concat "/" kept
           end
  end.

(** [Join]: the non-empty elements joined by the separator, cleaned; the
    empty string when every element is empty. *)
Definition Join (elem : list string) : string :=
  match filter (fun e => negb (String.eqb e "")) elem with
  | [] => EmptyString
  | es => Clean (String.concat "/" es)
  end.

End filepath.

(** ** text/template

    The subset of the template language that the fragments of the package
    use: text, the actions [{{ .Field.Chain }}], [{{ if pipeline }}],
    [{{ end }}], [{{ define "name" }}] and [{{ template "name" pipeline }}],
    and the trim markers [{{- ] and [ -}}].  Any other action is reported
    as [Unsupported]. *)
Module template.

(** Parse and execution errors. *)
Inductive error : Type :=
| UnclosedAction
| UnterminatedQuote
| UnexpectedEnd
| UnexpectedEOF
| UnexpectedDefine
| MultipleDefinition (name : string)
| Unsupported (action : string)
| NilPointer (field : string)
| CannotEvaluateField (field : string)
| NotDefined (name : string)
| ExceededMaxDepth
| IncompleteTemplate (name : string)
| Unprintable.

(** The result of a fallible library call. *)
Inductive result (A : Type) : Type :=
| Ok (a : A)
| Err (e : error).
Arguments Ok {A} a.
Arguments Err {A} e.

Definition bind {A B : Type} (r : result A) (k : A -> result B) : result B :=
  match r with
  | Ok a => k a
  | Err e => Err e
  end.

Notation "x <- r ;; k" := (bind r (fun x => k))
  (at level 61, r at next level, right associativity).

(** *** Lexer *)

(** The space characters of the lexer: space, tab, carriage return and
    line feed. *)
Definition isSpace (c : ascii) : bool :=
  Ascii.eqb c " " || Ascii.eqb c "009" || Ascii.eqb c "013" || Ascii.eqb c LF.

(** A text run, with the flag telling that the delimiter closing it carries
    a left trim marker ([{{- ]), or the text between two delimiters. *)
Inductive item : Type :=
| itemText (text : string) (trimRight : bool)
| itemAction (body : string).

Inductive mode : Type :=
| inText
| skipSpace
| inAction (body : string)
| inQuote (body : string)
| inQuoteEsc (body : string).

Definition consText (c : ascii) (r : result (list item)) : result (list item) :=
  match r with
  | Ok (itemText t tr :: l) => Ok (itemText (String c t) tr :: l)
  | other => other
  end.

Definition consItem (i : item) (r : result (list item)) : result (list item) :=
  l <- r ;; Ok (i :: l).

Definition snoc (s : string) (c : ascii) : string := s ++ String c EmptyString.

(** The body of an action whose right delimiter carries a trim marker ends
    with a space and a minus sign. *)
Fixpoint rightTrimMarker (body : string) : option string :=
  match body with
  | EmptyString => None
  | String c rest =>
      match rest with
      | String d EmptyString =>
          if isSpace c && Ascii.eqb d "-" then Some EmptyString else None
      | _ => option_map (String c) (rightTrimMarker rest)
      end
  end.

Definition closeAction (body : string) (lexRest : mode -> result (list item))
  : result (list item) :=
  match rightTrimMarker body with
  | Some body' => consItem (itemAction body') (lexRest skipSpace)
  | None => consItem (itemAction body) (lexRest inText)
  end.

(** The lexer.  In text it looks for the left delimiter; a text run always
    yields an [itemText] (possibly empty). *)
Fixpoint lex (m : mode) (s : string) : result (list item) :=
  match s with
  | EmptyString =>
      match m with
      | inText | skipSpace => Ok [itemText EmptyString false]
      | inAction _ => Err UnclosedAction
      | inQuote _ | inQuoteEsc _ => Err UnterminatedQuote
      end
  | String c s' =>
      let text (_ : unit) :=
        if Ascii.eqb c "{" then
          match s' with
          | String c1 s1 =>
              if Ascii.eqb c1 "{" then
                match s1 with
                | String c2 (String c3 s3) =>
                    if Ascii.eqb c2 "-" && isSpace c3
                    then consItem (itemText EmptyString true) (lex (inAction EmptyString) s3)
                    else consItem (itemText EmptyString false) (lex (inAction EmptyString) s1)
                | _ => consItem (itemText EmptyString false) (lex (inAction EmptyString) s1)
                end
              else consText c (lex inText s')
          | EmptyString => consText c (lex inText s')
          end
        else consText c (lex inText s') in
      match m with
      | inText => text tt
      | skipSpace => if isSpace c then lex skipSpace s' else text tt
      | inAction body =>
          if Ascii.eqb c "}" then
            match s' with
            | String c1 s1 =>
                if Ascii.eqb c1 "}"
                then closeAction body (fun m' => lex m' s1)
                else lex (inAction (snoc body c)) s'
            | EmptyString => lex (inAction (snoc body c)) s'
            end
          else if Ascii.eqb c dquote then lex (inQuote (snoc body c)) s'
          else lex (inAction (snoc body c)) s'
      | inQuote body =>
          if Ascii.eqb c "\" then lex (inQuoteEsc (snoc body c)) s'
          else if Ascii.eqb c dquote then lex (inAction (snoc body c)) s'
          else if Ascii.eqb c LF then Err UnterminatedQuote
          else lex (inQuote (snoc body c)) s'
      | inQuoteEsc body => lex (inQuote (snoc body c)) s'
      end
  end.

(** *** Actions *)

(** A pipeline of the subset: the dot followed by a chain of field names
    (the empty chain is the dot itself). *)
Definition pipeline : Type := list string.

Inductive action : Type :=
| actDefine (name : string)
| actIf (p : pipeline)
| actEnd
| actTemplate (name : string) (p : option pipeline)
| actPrint (p : pipeline).

(** The words of an action: the maximal runs without space characters. *)
Fixpoint words (cur : string) (s : string) : list string :=
  match s with
  | EmptyString => match cur with EmptyString => [] | _ => [cur] end
  | String c s' =>
      if isSpace c
      then match cur with EmptyString => words EmptyString s' | _ => cur :: words EmptyString s' end
      else words (snoc cur c) s'
  end.

Definition isAlnum (c : ascii) : bool :=
  let n := nat_of_ascii c in
  (Nat.leb 48 n && Nat.leb n 57) || (Nat.leb 65 n && Nat.leb n 90)
  || (Nat.leb 97 n && Nat.leb n 122) || Ascii.eqb c "_".

Fixpoint allChars (f : ascii -> bool) (s : string) : bool :=
  match s with
  | EmptyString => true
  | String c s' => f c && allChars f s'
  end.

Definition isIdent (s : string) : bool :=
  negb (String.eqb s EmptyString) && allChars isAlnum s.

(** [.], [.A], [.A.B], ... *)
Definition parsePipeline (w : string) : option pipeline :=
  match w with
  | String "." EmptyString => Some []
  | String "." rest =>
      let fields := strings.splitOn "." EmptyString rest in
      if forallb isIdent fields then Some fields else None
  | _ => None
  end.

(** A template name between double quotes, without escapes. *)
Definition parseQuoted (w : string) : option string :=
  match w with
  | String q rest =>
      if Ascii.eqb q dquote then
        match strings.splitOn dquote EmptyString rest with
        | [name; EmptyString] =>
            if allChars (fun c => negb (Ascii.eqb c "\")) name then Some name else None
        | _ => None
        end
      else None
  | EmptyString => None
  end.

Definition parseAction (body : string) : result action :=
  let unsupported := Err (Unsupported body) in
  match words EmptyString body with
  | [w] =>
      if String.eqb w "end" then Ok actEnd
      else match parsePipeline w with
           | Some p => Ok (actPrint p)
           | None => unsupported
           end
  | [k; w] =>
      if String.eqb k "define" then
        match parseQuoted w with Some n => Ok (actDefine n) | None => unsupported end
      else if String.eqb k "if" then
        match parsePipeline w with Some p => Ok (actIf p) | None => unsupported end
      else if String.eqb k "template" then
        match parseQuoted w with Some n => Ok (actTemplate n None) | None => unsupported end
      else unsupported
  | [k; w; a] =>
      if String.eqb k "template" then
        match parseQuoted w, parsePipeline a with
        | Some n, Some p => Ok (actTemplate n (Some p))
        | _, _ => unsupported
        end
      else unsupported
  | _ => unsupported
  end.

(** *** Trees *)

#[warnings="-register-all"]
Inductive node : Type :=
| TextNode (text : string)
| ActionNode (p : pipeline)
| IfNode (p : pipeline) (body : list node)
| TemplateNode (name : string) (p : option pipeline).

Definition tree : Type := list node.
Definition treeSet : Type := list (string * tree).

Fixpoint lookup {A : Type} (name : string) (l : list (string * A)) : option A :=
  match l with
  | [] => None
  | (k, v) :: l' => if String.eqb k name then Some v else lookup name l'
  end.

Fixpoint store {A : Type} (name : string) (v : A) (l : list (string * A)) : list (string * A) :=
  match l with
  | [] => [(name, v)]
  | (k, w) :: l' => if String.eqb k name then (k, v) :: l' else (k, w) :: store name v l'
  end.

(** [parse.IsEmptyTree]: a tree is empty when it holds nothing but space. *)
Definition isEmptyNode (n : node) : bool :=
  match n with
  | TextNode t => String.eqb (strings.TrimRight isSpace t) EmptyString
  | _ => false
  end.

Definition IsEmptyTree (t : tree) : bool := forallb isEmptyNode t.

(** [Tree.add]: a tree takes the place of an absent or empty one of its
    name; two non-empty trees of one name are an error. *)
Definition add (name : string) (t : tree) (set : treeSet) : result treeSet :=
  match lookup name set with
  | None => Ok (store name t set)
  | Some old =>
      if IsEmptyTree old then Ok (store name t set)
      else if IsEmptyTree t then Ok set
      else Err (MultipleDefinition name)
  end.

(** The blocks being parsed, innermost first. *)
Inductive block : Type :=
| blockDefine (name : string)
| blockIf (p : pipeline).

Record parser : Type := mkParser {
  top : list node;                       (* the nodes of the main tree, last first *)
  open : list (block * list node);       (* the open blocks, each with its nodes, last first *)
  defined : treeSet
}.

Definition emit (n : node) (ps : parser) : parser :=
  match open ps with
  | (b, ns) :: rest => mkParser (top ps) ((b, n :: ns) :: rest) (defined ps)
  | [] => mkParser (n :: top ps) [] (defined ps)
  end.

(** One item of the lexer.  The text before a [{{- ] loses its trailing
    space; an empty text makes no node. *)
Definition parseItem (ps : parser) (i : item) : result parser :=
  match i with
  | itemText t tr =>
      let t' := if tr then strings.TrimRight isSpace t else t in
      match t' with
      | EmptyString => Ok ps
      | _ => Ok (emit (TextNode t') ps)
      end
  | itemAction body =>
      a <- parseAction body ;;
      match a with
      | actPrint p => Ok (emit (ActionNode p) ps)
      | actTemplate n p => Ok (emit (TemplateNode n p) ps)
      | actIf p => Ok (mkParser (top ps) ((blockIf p, []) :: open ps) (defined ps))
      | actDefine n =>
          match open ps with
          | [] => Ok (mkParser (top ps) [(blockDefine n, [])] (defined ps))
          | _ => Err UnexpectedDefine
          end
      | actEnd =>
          match open ps with
          | [] => Err UnexpectedEnd
          | (blockIf p, ns) :: rest =>
              Ok (emit (IfNode p (rev ns)) (mkParser (top ps) rest (defined ps)))
          | (blockDefine n, ns) :: rest =>
              d <- add n (rev ns) (defined ps) ;;
              Ok (mkParser (top ps) rest d)
          end
      end
  end.

Fixpoint parseItems (ps : parser) (l : list item) : result parser :=
  match l with
  | [] => Ok ps
  | i :: l' => ps' <- parseItem ps i ;; parseItems ps' l'
  end.

(** [parse.Parse]: the trees defined by a text, the main tree under
    [name]. *)
Definition parseText (name text : string) : result treeSet :=
  l <- lex inText text ;;
  ps <- parseItems (mkParser [] [] []) l ;;
  match open ps with
  | [] => add name (rev (top ps)) (defined ps)
  | _ => Err UnexpectedEOF
  end.

(** *** Templates *)

(** A template: its name and the name space it shares with the templates
    associated with it.  Its own tree is the one stored under its name. *)
Record Template : Type := mkTemplate {
  name : string;
  tmpl : treeSet
}.

Definition New (name : string) : Template := mkTemplate name [].

(** [associate]: a tree of the parsed text is installed under its name,
    unless it is empty and the name is already taken. *)
Definition associate (set : treeSet) (nt : string * tree) : treeSet :=
  match lookup (fst nt) set with
  | Some _ => if IsEmptyTree (snd nt) then set else store (fst nt) (snd nt) set
  | None => store (fst nt) (snd nt) set
  end.

(** [Parse], the method of a template. *)
Definition Parse (t : Template) (text : string) : result Template :=
  trees <- parseText (name t) text ;;
  Ok (mkTemplate (name t) (fold_left associate trees (tmpl t))).

(** *** Execution *)

(** The data a template is executed on, as reflection sees it.  A pointer
    to a struct is the struct itself, or [VNil]. *)
#[warnings="-register-all"]
Inductive value : Type :=
| VString (s : string)
| VInt (z : Z)
| VNil
| VStruct (fields : list (string * value)).

(** The values the model passes to a template. *)
Class Reflect (A : Type) : Type := reflect : A -> value.

(** Field selection. *)
Definition evalField (v : value) (field : string) : result value :=
  match v with
  | VStruct fields =>
      match lookup field fields with
      | Some w => Ok w
      | None => Err (CannotEvaluateField field)
      end
  | VNil => Err (NilPointer field)
  | _ => Err (CannotEvaluateField field)
  end.

Fixpoint evalPipeline (dot : value) (p : pipeline) : result value :=
  match p with
  | [] => Ok dot
  | f :: p' => v <- evalField dot f ;; evalPipeline v p'
  end.

(** [isTrue]. *)
Definition truth (v : value) : bool :=
  match v with
  | VString s => negb (String.eqb s EmptyString)
  | VInt z => negb (Z.eqb z 0)
  | VNil => false
  | VStruct _ => true
  end.

(** [printValue]: strings print as they are, integers in decimal. *)
Definition printValue (v : value) : result string :=
  match v with
  | VString s => Ok s
  | VInt z => Ok (fmt.itoa z)
  | _ => Err Unprintable
  end.

(** The writes an execution has made to its buffer, in their order, and
    the error that stopped it. *)
Definition written : Type := (list string * option error)%type.

Definition failed (e : error) : written := ([], Some e).

Definition andThen (w : written) (k : written) : written :=
  match w with
  | (l, Some e) => (l, Some e)
  | (l, None) => ((l ++ fst k)%list, snd k)
  end.

Section Walk.

(** The execution of a named template, one level deeper. *)
Variable call : string -> value -> written.

Fixpoint walk (dot : value) (n : node) : written :=
  match n with
  | TextNode t => ([t], None)
  | ActionNode p =>
      match v <- evalPipeline dot p ;; printValue v with
      | Ok s => ([s], None)
      | Err e => failed e
      end
  | IfNode p body =>
      match evalPipeline dot p with
      | Ok v =>
          if truth v
          then (fix walkList (l : list node) : written :=
                  match l with
                  | [] => ([], None)
                  | n' :: l' => andThen (walk dot n') (walkList l')
                  end) body
          else ([], None)
      | Err e => failed e
      end
  | TemplateNode name p =>
      match p with
      | None => call name VNil
      | Some p' =>
          match evalPipeline dot p' with
          | Ok v => call name v
          | Err e => failed e
          end
      end
  end.

Fixpoint walkList (dot : value) (l : list node) : written :=
  match l with
  | [] => ([], None)
  | n :: l' => andThen (walk dot n) (walkList dot l')
  end.

End Walk.

(** The bound on nested template calls. *)
#[warnings="-abstract-large-number"]
Definition maxExecDepth : nat := 100000.

(** The execution of the template [name] with [depth] nested calls left. *)
Fixpoint execTemplate (set : treeSet) (depth : nat) (name : string) (dot : value)
  : written :=
  match lookup name set with
  | None => failed (NotDefined name)
  | Some body =>
      walkList
        (match depth with
         | O => fun _ _ => failed ExceededMaxDepth
         | S d => execTemplate set d
         end) dot body
  end.

(** [Execute]: the writes to the buffer, and the error if any. *)
Definition Execute (t : Template) (data : value) : written :=
  match lookup (name t) (tmpl t) with
  | None => failed (IncompleteTemplate (name t))
  | Some _ => execTemplate (tmpl t) maxExecDepth (name t) data
  end.

End template.

(** ** Panics *)

(** A call returns, or panics with the error handed to [panic]. *)
Inductive go (A : Type) : Type :=
| returns (a : A)
| panics (e : template.error).
Arguments returns {A} a.
Arguments panics {A} e.

Definition go_bind {A B : Type} (g : go A) (k : A -> go B) : go B :=
  match g with
  | returns a => k a
  | panics e => panics e
  end.

(** [template.Must]. *)
Definition Must {A : Type} (r : template.result A) : go A :=
  match r with
  | template.Ok a => returns a
  | template.Err e => panics e
  end.

(** ** The API types and the declarations of other files *)
Module v1alpha1.

Module TidbClusterRef.
(** The cluster a heterogeneous cluster refers to ([tc.Spec.Cluster]). *)
Record t : Type := mk { Name : string }.
End TidbClusterRef.

(** [tc.Spec.TiKV]. *)
Record TiKVSpec : Type := mkTiKVSpec { DataSubDir : string }.

(** [tc.Spec]: the fields the renderer reads.  A [*bool] is an [option]. *)
Record TidbClusterSpec : Type := mkSpec {
  PreferIPv6 : bool;
  ClusterDomain : string;
  TiKV : TiKVSpec;
  Cluster : TidbClusterRef.t;
  EnableDynamicConfiguration : option bool;
  StartScriptV2FeatureFlags : list string
}.

(** Modelled from the spec: the type [TidbCluster] and its methods
    [AcrossK8s], [Heterogeneous], [WithoutLocalPD] and [PDStartTimeout] are
    declared in the API package, in other files of the repository.
    The configuration of the spec carries "heterogeneous/cross-cluster
    flags", whether the cluster is "lacking a local coordinator" and "a
    startup-timeout value"; the record holds what each method returns, and
    the call [tc.AcrossK8s()] is the projection [AcrossK8s tc].  The values
    [tc], [tc.Spec.TiKV] and [tc.Spec.Cluster] are taken to be present. *)
Record TidbCluster : Type := mkTidbCluster {
  Name : string;
  Namespace : string;
  Spec : TidbClusterSpec;
  AcrossK8s : bool;
  Heterogeneous : bool;
  WithoutLocalPD : bool;
  PDStartTimeout : Z
}.

End v1alpha1.

(** The declarations of the repository that the renderer uses and that
    live in other files: the member names of package [controller], the
    ports and the feature flag of the API package, the mount path of
    package [constants] and the shared script fragments of the package
    itself.  They are parameters of the model. *)
Record Externals : Type := mkExternals {
  PDMemberName : string -> string;
  TiKVPeerMemberName : string -> string;
  DefaultPDClientPort : Z;
  DefaultTiKVServerPort : Z;
  DefaultTiKVStatusPort : Z;
  StartScriptV2FeatureFlagWaitForDnsNameIpMatch : string;
  TiKVDataVolumeMountPath : string;
  componentCommonScript : string;
  dnsAwaitPart : string;
  componentCommonWaitForDnsIpMatchScript : string
}.

(** ** Package v2 *)

Module AcrossK8sScriptModel.
(** The fields the renderer sets in an [AcrossK8sScriptModel]. *)
Record t : Type := mk {
  PDAddr : string;
  DiscoveryAddr : string
}.
End AcrossK8sScriptModel.

Module TiKVStartScriptModel.
(** [TiKVStartScriptModel] contains the fields for rendering the TiKV start
    script. *)
Record t : Type := mk {
  PDAddr : string;
  Addr : string;
  StatusAddr : string;
  AdvertiseHost : string;
  AdvertiseAddr : string;
  DataDir : string;
  Capacity : string;
  ExtraArgs : string;
  KVStartTimeout : Z;
  AcrossK8s : option AcrossK8sScriptModel.t
}.
End TiKVStartScriptModel.

#[export] Instance reflectAcrossK8s : template.Reflect AcrossK8sScriptModel.t :=
  fun a =>
    template.VStruct
      [("PDAddr", template.VString (AcrossK8sScriptModel.PDAddr a));
       ("DiscoveryAddr", template.VString (AcrossK8sScriptModel.DiscoveryAddr a))].

#[export] Instance reflectModel : template.Reflect TiKVStartScriptModel.t :=
  fun m =>
    template.VStruct
      [("PDAddr", template.VString (TiKVStartScriptModel.PDAddr m));
       ("Addr", template.VString (TiKVStartScriptModel.Addr m));
       ("StatusAddr", template.VString (TiKVStartScriptModel.StatusAddr m));
       ("AdvertiseHost", template.VString (TiKVStartScriptModel.AdvertiseHost m));
       ("AdvertiseAddr", template.VString (TiKVStartScriptModel.AdvertiseAddr m));
       ("DataDir", template.VString (TiKVStartScriptModel.DataDir m));
       ("Capacity", template.VString (TiKVStartScriptModel.Capacity m));
       ("ExtraArgs", template.VString (TiKVStartScriptModel.ExtraArgs m));
       ("KVStartTimeout", template.VInt (TiKVStartScriptModel.KVStartTimeout m));
       ("AcrossK8s",
        match TiKVStartScriptModel.AcrossK8s m with
        | Some a => template.reflect a
        | None => template.VNil
        end)].

(** Modelled from the spec: [renderTemplateFunc] is declared in another
    file of the package.  The composer "substitutes values" and returns the
    "final script string"; a composition failure "is surfaced verbatim to
    the caller" with no "partial result".  So the template is executed on
    the model, and an error comes back with the empty string. *)
Definition renderTemplateFunc {A : Type} `{template.Reflect A}
  (tpl : template.Template) (model : A) : string * option template.error :=
  match template.Execute tpl (template.reflect model) with
  | (buff, None) => (String.concat "" buff, None)
  | (_, Some err) => (EmptyString, Some err)
  end.

(** [tikvStartSubScript] contains optional subscripts used in start
    script. *)
Definition tikvStartSubScript : string := raw
"
{{ define `AcrossK8sSubscript` }}
pd_url={{ .AcrossK8s.PDAddr }}
encoded_domain_url=$(echo $pd_url | base64 | tr `\n` ` ` | sed `s/ //g`)
discovery_url={{ .AcrossK8s.DiscoveryAddr }}
until result=$(wget -qO- -T 3 http://${discovery_url}/verify/${encoded_domain_url} 2>/dev/null | sed 's/http:\/\///g'); do
    echo `waiting for the verification of PD endpoints ...`
    sleep $((RANDOM % 5))
done
{{- end }}
".

(** The part of [tikvWaitForDnsIpMatchSubScript] written in this file. *)
Definition tikvWaitForDnsIpMatchHead : string := raw
"
componentDomain={{ .AdvertiseHost }}
waitThreshold={{ .KVStartTimeout }}
nsLookupCmd=`getent ahosts $componentDomain | sed -n 's/ *STREAM.*//p'`
".

(** It is empty for backward compatibility. *)
Definition tikvWaitForDnsOnlySubScript : string := EmptyString.

(** The two parts of [tikvStartScript] around [dnsAwaitPart]. *)
Definition tikvStartScriptHead : string := raw
"
TIKV_POD_NAME=${POD_NAME:-$HOSTNAME}".

Definition tikvStartScriptTail : string := raw
"
{{- if .AcrossK8s -}} {{ template `AcrossK8sSubscript` . }} {{- end }}

ARGS=`--pd={{ .PDAddr }} \
--advertise-addr={{ .AdvertiseAddr }} \
--addr={{ .Addr }} \
--status-addr={{ .StatusAddr }} \
--data-dir={{ .DataDir }} \
--capacity={{ .Capacity }} \
--config=/etc/tikv/tikv.toml`
{{- if .ExtraArgs }}
ARGS=`${ARGS} {{ .ExtraArgs }}`
{{- end }}

if [ ! -z `${STORE_LABELS:-}` ]; then
  LABELS=`--labels ${STORE_LABELS} `
  ARGS=`${ARGS}${LABELS}`
fi

echo `starting tikv-server ...`
echo `/tikv-server ${ARGS}`
exec /tikv-server ${ARGS}
".

Section Package.

Context (E : Externals).

Definition tikvWaitForDnsIpMatchSubScript : string :=
  tikvWaitForDnsIpMatchHead ++ componentCommonWaitForDnsIpMatchScript E.

(** [tikvStartScript] is the template of start script. *)
Definition tikvStartScript : string :=
  tikvStartScriptHead ++ dnsAwaitPart E ++ tikvStartScriptTail.

Definition replaceTikvStartScriptDnsAwaitPart (startScript : string)
  (withLocalIpMatch : bool) : string :=
  if withLocalIpMatch
  then strings.ReplaceAll startScript (dnsAwaitPart E) tikvWaitForDnsIpMatchSubScript
  else strings.ReplaceAll startScript (dnsAwaitPart E) tikvWaitForDnsOnlySubScript.

(** The model [m] that [RenderTiKVStartScript] fills in before it builds
    the template: the assignments of the function, in their order. *)
Definition tikvStartScriptModel (tc : v1alpha1.TidbCluster) : TiKVStartScriptModel.t :=
  let tcName := v1alpha1.Name tc in
  let tcNS := v1alpha1.Namespace tc in
  let peerServiceName := TiKVPeerMemberName E tcName in
  let PDAddr :=
    fmt.Sprintf "%s:%d" [fmt.str (PDMemberName E tcName); fmt.int (DefaultPDClientPort E)] in
  let '(AcrossK8s, PDAddr) :=
    if v1alpha1.AcrossK8s tc then
      (Some (AcrossK8sScriptModel.mk
               (fmt.Sprintf "%s:%d"
                  [fmt.str (PDMemberName E tcName); fmt.int (DefaultPDClientPort E)])
               (fmt.Sprintf "%s-discovery.%s:10261" [fmt.str tcName; fmt.str tcNS])),
       "${result}")
    else if v1alpha1.Heterogeneous tc && v1alpha1.WithoutLocalPD tc then
      (None,
       fmt.Sprintf "%s:%d"
         [fmt.str (PDMemberName E
                     (v1alpha1.TidbClusterRef.Name (v1alpha1.Cluster (v1alpha1.Spec tc))));
          fmt.int (DefaultPDClientPort E)])
    else (None, PDAddr) in
  let listenHost := if v1alpha1.PreferIPv6 (v1alpha1.Spec tc) then "[::]" else "0.0.0.0" in
  let Addr := fmt.Sprintf "%s:%d" [fmt.str listenHost; fmt.int (DefaultTiKVServerPort E)] in
  let StatusAddr :=
    fmt.Sprintf "%s:%d" [fmt.str listenHost; fmt.int (DefaultTiKVStatusPort E)] in
  let advertiseHost :=
    fmt.Sprintf "${TIKV_POD_NAME}.%s.%s.svc" [fmt.str peerServiceName; fmt.str tcNS] in
  let advertiseHost :=
    if negb (String.eqb (v1alpha1.ClusterDomain (v1alpha1.Spec tc)) "")
    then advertiseHost ++ "." ++ v1alpha1.ClusterDomain (v1alpha1.Spec tc)
    else advertiseHost in
  let AdvertiseAddr :=
    fmt.Sprintf "%s:%d" [fmt.str advertiseHost; fmt.int (DefaultTiKVServerPort E)] in
  let DataDir :=
    filepath.Join [TiKVDataVolumeMountPath E;
                   v1alpha1.DataSubDir (v1alpha1.TiKV (v1alpha1.Spec tc))] in
  let Capacity := "${CAPACITY}" in
  let KVStartTimeout := v1alpha1.PDStartTimeout tc in
  let extraArgs : list string := [] in
  let extraArgs : list string :=
    match v1alpha1.EnableDynamicConfiguration (v1alpha1.Spec tc) with
    | Some true =>
        let advertiseStatusAddr :=
          fmt.Sprintf "${TIKV_POD_NAME}.%s.%s.svc" [fmt.str peerServiceName; fmt.str tcNS] in
        let advertiseStatusAddr :=
          if negb (String.eqb (v1alpha1.ClusterDomain (v1alpha1.Spec tc)) "")
          then advertiseStatusAddr ++ "." ++ v1alpha1.ClusterDomain (v1alpha1.Spec tc)
          else advertiseStatusAddr in
        (extraArgs
         ++ [fmt.Sprintf "--advertise-status-addr=%s:%d"
               [fmt.str advertiseStatusAddr; fmt.int (DefaultTiKVStatusPort E)]])%list
    | _ => extraArgs
    end in
  let ExtraArgs :=
    if Nat.ltb 0 (List.length extraArgs) then strings.Join extraArgs " " else EmptyString in
  TiKVStartScriptModel.mk PDAddr Addr StatusAddr advertiseHost AdvertiseAddr DataDir
    Capacity ExtraArgs KVStartTimeout AcrossK8s.

(** [RenderTiKVStartScript] renders TiKV start script from TidbCluster. *)
Definition RenderTiKVStartScript (tc : v1alpha1.TidbCluster)
  : go (string * option template.error) :=
  let m := tikvStartScriptModel tc in
  let waitForDnsNameIpMatchOnStartup :=
    slices.Contains (v1alpha1.StartScriptV2FeatureFlags (v1alpha1.Spec tc))
      (StartScriptV2FeatureFlagWaitForDnsNameIpMatch E) in
  go_bind
    (Must (template.Parse (template.New "tikv-start-script") tikvStartSubScript))
    (fun t =>
       go_bind
         (Must (template.Parse t
                  (componentCommonScript E
                   ++ replaceTikvStartScriptDnsAwaitPart tikvStartScript
                        waitForDnsNameIpMatchOnStartup)))
         (fun tikvStartScriptTpl => returns (renderTemplateFunc tikvStartScriptTpl m))).

End Package.

(** ** Well-formed declarations and the expected script

    The script is stated here a second time, directly as text: the
    fragments in their order, with the values of the model between the
    literal texts.  [render_script] below proves that this is what the
    template of the package renders. *)

(** [plain s]: [s] holds no left delimiter and does not end with a brace
    that could begin one. *)
Fixpoint plain (s : string) : bool :=
  match s with
  | EmptyString => true
  | String c s' =>
      if Ascii.eqb c "{" then
        match s' with
        | EmptyString => false
        | String c1 _ => negb (Ascii.eqb c1 "{") && plain s'
        end
      else plain s'
  end.

(** [prependText x r]: [x] put before the first text of a lexer result. *)
Definition prependText (x : string) (r : template.result (list template.item))
  : template.result (list template.item) :=
  match r with
  | template.Ok (template.itemText t tr :: l) =>
      template.Ok (template.itemText (x ++ t) tr :: l)
  | other => other
  end.

(** The declarations are well formed when the placeholder [dnsAwaitPart]
    is not empty and stands in [tikvStartScript] only where the script puts
    it, and the two shared fragments are text without template actions. *)
Definition wellFormed (E : Externals) : bool :=
  negb (String.eqb (dnsAwaitPart E) "")
  && Nat.eqb (occ (dnsAwaitPart E) (tikvStartScript E)) 1
  && plain (componentCommonScript E)
  && plain (componentCommonWaitForDnsIpMatchScript E).

(** The last line of the DNS fragment written in this file. *)
Definition nsLookupLine : string := raw "
nsLookupCmd=`getent ahosts $componentDomain | sed -n 's/ *STREAM.*//p'`
".

(** The literal texts of the fragments, between the values. *)
Definition litComponentDomain : string := "
componentDomain=".
Definition litWaitThreshold : string := "
waitThreshold=".
Definition litPdUrl : string := "
pd_url=".
Definition litEncodedUrl : string := raw "
encoded_domain_url=$(echo $pd_url | base64 | tr `\n` ` ` | sed `s/ //g`)
discovery_url=".
Definition litArgsPd : string := raw "

ARGS=`--pd=".
Definition litAdvertiseAddr : string := " \
--advertise-addr=".
Definition litAddr : string := " \
--addr=".
Definition litStatusAddr : string := " \
--status-addr=".
Definition litDataDir : string := " \
--data-dir=".
Definition litCapacity : string := " \
--capacity=".
Definition litConfig : string := raw " \
--config=/etc/tikv/tikv.toml`".
Definition litExtraArgs : string := raw "
ARGS=`${ARGS} ".
Definition litQuote : string := raw "`".

(** The text the DNS fragment renders to: nothing when the script does not
    wait. *)
Definition dnsAwaitText (E : Externals) (m : TiKVStartScriptModel.t) (wait : bool) : string :=
  if wait then
    litComponentDomain ++ TiKVStartScriptModel.AdvertiseHost m
    ++ litWaitThreshold ++ fmt.itoa (TiKVStartScriptModel.KVStartTimeout m)
    ++ strings.TrimRight template.isSpace
         (nsLookupLine ++ componentCommonWaitForDnsIpMatchScript E ++ String LF "")
  else "".

(** The polling loop of the discovery subscript. *)
Definition discoveryLoop : string := raw "
until result=$(wget -qO- -T 3 http://${discovery_url}/verify/${encoded_domain_url} 2>/dev/null | sed 's/http:\/\///g'); do
    echo `waiting for the verification of PD endpoints ...`
    sleep $((RANDOM % 5))
done".

(** The text the discovery subscript renders to. *)
Definition acrossK8sText (a : AcrossK8sScriptModel.t) : string :=
  litPdUrl ++ AcrossK8sScriptModel.PDAddr a
  ++ litEncodedUrl ++ AcrossK8sScriptModel.DiscoveryAddr a ++ discoveryLoop.

(** The base flags after the PD endpoint. *)
Definition otherFlagsText (m : TiKVStartScriptModel.t) : string :=
  litAdvertiseAddr ++ TiKVStartScriptModel.AdvertiseAddr m
  ++ litAddr ++ TiKVStartScriptModel.Addr m
  ++ litStatusAddr ++ TiKVStartScriptModel.StatusAddr m
  ++ litDataDir ++ TiKVStartScriptModel.DataDir m
  ++ litCapacity ++ TiKVStartScriptModel.Capacity m
  ++ litConfig.

(** The base flags. *)
Definition baseArgsText (m : TiKVStartScriptModel.t) : string :=
  litArgsPd ++ TiKVStartScriptModel.PDAddr m ++ otherFlagsText m.

(** The line that appends the extra arguments, when there are some. *)
Definition extraArgsText (m : TiKVStartScriptModel.t) : string :=
  match TiKVStartScriptModel.ExtraArgs m with
  | EmptyString => EmptyString
  | extra => litExtraArgs ++ extra ++ litQuote
  end.

(** The end of the script. *)
Definition launchText : string := raw "

if [ ! -z `${STORE_LABELS:-}` ]; then
  LABELS=`--labels ${STORE_LABELS} `
  ARGS=`${ARGS}${LABELS}`
fi

echo `starting tikv-server ...`
echo `/tikv-server ${ARGS}`
exec /tikv-server ${ARGS}
".

(** The discovery subscript, for a cluster across Kubernetes clusters. *)
Definition discoveryText (m : TiKVStartScriptModel.t) : string :=
  match TiKVStartScriptModel.AcrossK8s m with
  | Some a => acrossK8sText a
  | None => EmptyString
  end.

(** The script, fragment after fragment. *)
Definition scriptText (E : Externals) (m : TiKVStartScriptModel.t) (wait : bool) : string :=
  componentCommonScript E ++ tikvStartScriptHead ++ dnsAwaitText E m wait
  ++ discoveryText m ++ baseArgsText m ++ extraArgsText m ++ launchText.

(** The templates defined by [tikvStartSubScript]. *)
Definition subScriptTemplate : template.result template.Template :=
  template.Parse (template.New "tikv-start-script") tikvStartSubScript.

(** The items of [tikvStartScriptTail] after its first line feed. *)
Definition tailItems : list template.item :=
  match template.lex template.inText tikvStartScriptTail with
  | template.Ok (_ :: l) => l
  | _ => []
  end.

(** The parser before the first item. *)
Definition newParser : template.parser := template.mkParser [] [] [].

(** The nodes [tikvStartScriptTail] parses to. *)
Definition tailTree : template.tree :=
  match template.parseItems newParser tailItems with
  | template.Ok ps => rev (template.top ps)
  | template.Err _ => []
  end.

(** The nodes of the DNS fragment after its first text; [u] is its last
    text. *)
Definition dnsAwaitNodes (wait : bool) (u : string) : template.tree :=
  if wait then
    [template.ActionNode ["AdvertiseHost"];
     template.TextNode "
waitThreshold=";
     template.ActionNode ["KVStartTimeout"];
     template.TextNode u]
  else [].

(** The tree of the start script; [t] is its first text. *)
Definition mainTree (t : string) (wait : bool) (u : string) : template.tree :=
  template.TextNode t :: (dnsAwaitNodes wait u ++ tailTree)%list.

(** The name space after the subscripts have been parsed. *)
Definition subTmpl : template.treeSet :=
  match subScriptTemplate with
  | template.Ok t => template.tmpl t
  | template.Err _ => []
  end.

(** ** Occurrences in the script *)

(** The strings of the script that come from the declarations and from the
    cluster, without the extra arguments. *)
Definition baseInputs (E : Externals) (m : TiKVStartScriptModel.t) (wait : bool)
  : list string :=
  (componentCommonScript E
   :: (if wait
       then [TiKVStartScriptModel.AdvertiseHost m;
             fmt.itoa (TiKVStartScriptModel.KVStartTimeout m);
             strings.TrimRight template.isSpace
               (nsLookupLine ++ componentCommonWaitForDnsIpMatchScript E ++ String LF "")]
       else [])
   ++ match TiKVStartScriptModel.AcrossK8s m with
      | Some a => [AcrossK8sScriptModel.PDAddr a; AcrossK8sScriptModel.DiscoveryAddr a]
      | None => []
      end
   ++ [TiKVStartScriptModel.PDAddr m;
       TiKVStartScriptModel.AdvertiseAddr m;
       TiKVStartScriptModel.Addr m;
       TiKVStartScriptModel.StatusAddr m;
       TiKVStartScriptModel.DataDir m;
       TiKVStartScriptModel.Capacity m])%list.

(** All of them. *)
Definition scriptInputs (E : Externals) (m : TiKVStartScriptModel.t) (wait : bool)
  : list string :=
  (baseInputs E m wait ++ [TiKVStartScriptModel.ExtraArgs m])%list.

(** No occurrence of the marker [p] begins in a string that comes from the
    declarations or from the cluster. *)
Definition inputsFree (p : string) (E : Externals) (tc : v1alpha1.TidbCluster) : bool :=
  forallb (free p)
    (scriptInputs E (tikvStartScriptModel E tc)
       (slices.Contains (v1alpha1.StartScriptV2FeatureFlags (v1alpha1.Spec tc))
          (StartScriptV2FeatureFlagWaitForDnsNameIpMatch E))).

(** The same, the extra arguments left out. *)
Definition baseInputsFree (p : string) (E : Externals) (tc : v1alpha1.TidbCluster) : bool :=
  forallb (free p)
    (baseInputs E (tikvStartScriptModel E tc)
       (slices.Contains (v1alpha1.StartScriptV2FeatureFlags (v1alpha1.Spec tc))
          (StartScriptV2FeatureFlagWaitForDnsNameIpMatch E))).

(** Markers of the fragments. *)
Definition pollMarker : string :=
  "until result=$(wget -qO- -T 3 http://${discovery_url}/verify/${encoded_domain_url}".
Definition base64Marker : string := "$(echo $pd_url | base64".
Definition pdFlagMarker : string := "--pd=".
Definition dnsMarker : string := "componentDomain=".
Definition statusFlagMarker : string := "--advertise-status-addr=".
Definition extraLineMarker : string := raw "ARGS=`${ARGS} ".

(** ** Configurations *)

(** [tc] with another addressing preference. *)
Definition withPreferIPv6 (b : bool) (tc : v1alpha1.TidbCluster) : v1alpha1.TidbCluster :=
  let s := v1alpha1.Spec tc in
  v1alpha1.mkTidbCluster (v1alpha1.Name tc) (v1alpha1.Namespace tc)
    (v1alpha1.mkSpec b (v1alpha1.ClusterDomain s) (v1alpha1.TiKV s) (v1alpha1.Cluster s)
       (v1alpha1.EnableDynamicConfiguration s) (v1alpha1.StartScriptV2FeatureFlags s))
    (v1alpha1.AcrossK8s tc) (v1alpha1.Heterogeneous tc) (v1alpha1.WithoutLocalPD tc)
    (v1alpha1.PDStartTimeout tc).

(** [tc] with another dynamic-configuration flag. *)
Definition withEnableDynamicConfiguration (d : option bool) (tc : v1alpha1.TidbCluster)
  : v1alpha1.TidbCluster :=
  let s := v1alpha1.Spec tc in
  v1alpha1.mkTidbCluster (v1alpha1.Name tc) (v1alpha1.Namespace tc)
    (v1alpha1.mkSpec (v1alpha1.PreferIPv6 s) (v1alpha1.ClusterDomain s) (v1alpha1.TiKV s)
       (v1alpha1.Cluster s) d (v1alpha1.StartScriptV2FeatureFlags s))
    (v1alpha1.AcrossK8s tc) (v1alpha1.Heterogeneous tc) (v1alpha1.WithoutLocalPD tc)
    (v1alpha1.PDStartTimeout tc).

(** The PD address of the cluster named [name]. *)
Definition pdAddress (E : Externals) (name : string) : string :=
  PDMemberName E name ++ ":" ++ fmt.itoa (DefaultPDClientPort E).

(** The advertise host: the pod name, the peer service, the namespace and,
    when there is one, the cluster domain. *)
Definition advertiseHost (E : Externals) (tc : v1alpha1.TidbCluster) : string :=
  "${TIKV_POD_NAME}." ++ TiKVPeerMemberName E (v1alpha1.Name tc) ++ "."
  ++ v1alpha1.Namespace tc ++ ".svc"
  ++ (if String.eqb (v1alpha1.ClusterDomain (v1alpha1.Spec tc)) "" then ""
      else "." ++ v1alpha1.ClusterDomain (v1alpha1.Spec tc)).

(** The three ways of choosing the PD endpoint. *)
Inductive pdBranch : Type :=
| deferred
| referenced
| own.

(** The branch [b] fires on [tc]: its guard holds, the guards before it do
    not, and the endpoint of the model is the one of the branch. *)
Definition fires (E : Externals) (tc : v1alpha1.TidbCluster) (b : pdBranch) : Prop :=
  let m := tikvStartScriptModel E tc in
  match b with
  | deferred =>
      v1alpha1.AcrossK8s tc = true
      /\ TiKVStartScriptModel.PDAddr m = "${result}"
  | referenced =>
      v1alpha1.AcrossK8s tc = false
      /\ (v1alpha1.Heterogeneous tc = true /\ v1alpha1.WithoutLocalPD tc = true)
      /\ TiKVStartScriptModel.PDAddr m =
         pdAddress E (v1alpha1.TidbClusterRef.Name (v1alpha1.Cluster (v1alpha1.Spec tc)))
  | own =>
      v1alpha1.AcrossK8s tc = false
      /\ ~ (v1alpha1.Heterogeneous tc = true /\ v1alpha1.WithoutLocalPD tc = true)
      /\ TiKVStartScriptModel.PDAddr m = pdAddress E (v1alpha1.Name tc)
  end.

(** Dynamic configuration is on when the pointer is set and holds true. *)
Definition dynamicConfiguration (tc : v1alpha1.TidbCluster) : bool :=
  match v1alpha1.EnableDynamicConfiguration (v1alpha1.Spec tc) with
  | Some true => true
  | _ => false
  end.

(** The wildcard host of the addressing preference. *)
Definition wildcardHost (tc : v1alpha1.TidbCluster) : string :=
  if v1alpha1.PreferIPv6 (v1alpha1.Spec tc) then "[::]" else "0.0.0.0".

(** ** Sample declarations and clusters *)

(** An instance of the declarations, in the style of the operator: member
    names made of the cluster name and a suffix, the usual ports, and short
    shell fragments. *)
Definition sampleExternals : Externals :=
  mkExternals
    (fun name => name ++ "-pd")
    (fun name => name ++ "-tikv-peer")
    2379 20160 20180
    "WaitForDnsNameIpMatch"
    "/var/lib/tikv"
    (raw "#!/bin/sh

set -uo pipefail

ANNOTATIONS=`/etc/podinfo/annotations`
if [[ ! -f `${ANNOTATIONS}` ]]
then
    echo `${ANNOTATIONS} does not exist, exiting.`
    exit 1
fi
source ${ANNOTATIONS} 2>/dev/null
")
    "<<dns-await-part>>"
    (raw "
elapseTime=0
period=1
while true; do
    sleep ${period}
    elapseTime=$(( elapseTime+period ))
    if [[ ${elapseTime} -ge ${waitThreshold} ]]; then
        echo `waiting for cluster ready timeout` >&2
        exit 1
    fi
    digRes=$(eval `$nsLookupCmd`)
    if [ $? -ne 0  ]; then
        echo `domain resolve ${componentDomain} failed`
        continue
    fi
    break
done
").

(** The same declarations with a common script that closes a block it
    never opened. *)
Definition brokenExternals : Externals :=
  mkExternals
    (PDMemberName sampleExternals) (TiKVPeerMemberName sampleExternals)
    (DefaultPDClientPort sampleExternals) (DefaultTiKVServerPort sampleExternals)
    (DefaultTiKVStatusPort sampleExternals)
    (StartScriptV2FeatureFlagWaitForDnsNameIpMatch sampleExternals)
    (TiKVDataVolumeMountPath sampleExternals)
    "#!/bin/sh
{{ end }}
"
    (dnsAwaitPart sampleExternals)
    (componentCommonWaitForDnsIpMatchScript sampleExternals).

(** The same declarations with a common script that parses and prints a
    field the model does not have. *)
Definition failingExternals : Externals :=
  mkExternals
    (PDMemberName sampleExternals) (TiKVPeerMemberName sampleExternals)
    (DefaultPDClientPort sampleExternals) (DefaultTiKVServerPort sampleExternals)
    (DefaultTiKVStatusPort sampleExternals)
    (StartScriptV2FeatureFlagWaitForDnsNameIpMatch sampleExternals)
    (TiKVDataVolumeMountPath sampleExternals)
    "#!/bin/sh
echo half {{ .Missing }}
"
    (dnsAwaitPart sampleExternals)
    (componentCommonWaitForDnsIpMatchScript sampleExternals).

(** A plain cluster: one Kubernetes cluster, IPv4, no feature flag. *)
Definition basicCluster : v1alpha1.TidbCluster :=
  v1alpha1.mkTidbCluster "basic" "ns"
    (v1alpha1.mkSpec false "" (v1alpha1.mkTiKVSpec "") (v1alpha1.TidbClusterRef.mk "")
       None [])
    false false false 30.

(** A cluster deployed across Kubernetes clusters, with every option on. *)
Definition acrossCluster : v1alpha1.TidbCluster :=
  v1alpha1.mkTidbCluster "basic" "ns"
    (v1alpha1.mkSpec true "cluster.local" (v1alpha1.mkTiKVSpec "data")
       (v1alpha1.TidbClusterRef.mk "") (Some true) ["WaitForDnsNameIpMatch"])
    true false false 30.

(** A cluster across Kubernetes clusters whose cluster domain holds the
    first line of the polling loop. *)
Definition loopDomainCluster : v1alpha1.TidbCluster :=
  v1alpha1.mkTidbCluster "basic" "ns"
    (v1alpha1.mkSpec false
       "until result=$(wget -qO- -T 3 http://${discovery_url}/verify/${encoded_domain_url}"
       (v1alpha1.mkTiKVSpec "") (v1alpha1.TidbClusterRef.mk "") None [])
    true false false 30.

(** A cluster across Kubernetes clusters whose values end with beginnings
    of the markers: the data directory ends with the first letter of
    [until], the advertise host with the first letter of
    [componentDomain=]. *)
Definition menuCluster : v1alpha1.TidbCluster :=
  v1alpha1.mkTidbCluster "basic" "ns"
    (v1alpha1.mkSpec false "" (v1alpha1.mkTiKVSpec "menu") (v1alpha1.TidbClusterRef.mk "")
       (Some true) ["WaitForDnsNameIpMatch"])
    true false false 30.

(** A heterogeneous cluster that uses the PD of the cluster [main]. *)
Definition heterogeneousCluster : v1alpha1.TidbCluster :=
  v1alpha1.mkTidbCluster "hetero" "ns"
    (v1alpha1.mkSpec false "" (v1alpha1.mkTiKVSpec "") (v1alpha1.TidbClusterRef.mk "main")
       (Some false) [])
    false true true 30.

(** ** Counting a marker in the script *)

(** No literal text of the fragments ends with the beginning of [p]. *)
Definition literalsClear (p : string) : bool :=
  forallb (fun l => negb (border p l))
    [tikvStartScriptHead; litComponentDomain; litWaitThreshold; litPdUrl; litEncodedUrl;
     discoveryLoop; litArgsPd; litAdvertiseAddr; litAddr; litStatusAddr; litDataDir;
     litCapacity; litConfig; litExtraArgs; litQuote; launchText].

(** The occurrences of [p] in the literal texts up to the base flags. *)
Definition baseCount (p : string) (m : TiKVStartScriptModel.t) (wait : bool) : nat :=
  occ p tikvStartScriptHead
  + (if wait then occ p litComponentDomain + occ p litWaitThreshold else 0)
  + match TiKVStartScriptModel.AcrossK8s m with
    | Some _ => occ p litPdUrl + occ p litEncodedUrl + occ p discoveryLoop
    | None => 0
    end
  + (occ p litArgsPd + occ p litAdvertiseAddr + occ p litAddr + occ p litStatusAddr
     + occ p litDataDir + occ p litCapacity + occ p litConfig).

(** The occurrences of [p] in the literal texts after the base flags. *)
Definition tailCount (p : string) (m : TiKVStartScriptModel.t) : nat :=
  match TiKVStartScriptModel.ExtraArgs m with
  | EmptyString => 0
  | _ => occ p litExtraArgs + occ p litQuote
  end
  + occ p launchText.

(** ** Tactics *)

(** Closed strings are told apart by evaluation. *)
Ltac ne_by_compute := apply String.eqb_neq; vm_compute; reflexivity.

(** The hypotheses [forallb f l = true] of the context, split. *)
Ltac split_forallb :=
  repeat match goal with
    | H : forallb _ _ = true |- _ => progress cbn [forallb] in H
    | H : _ && _ = true |- _ =>
        apply andb_true_iff in H;
        let H1 := fresh "Hf" in destruct H as [H1 H]
    | H : true = true |- _ => clear H
    end.

(** A count over an append, one fragment after the other, by the two
    lemmas given: a value that is free of the marker adds nothing, a
    literal adds its own count. *)
Ltac count_fragments free_adds_nothing literal_adds_its_count :=
  repeat first
    [ rewrite free_adds_nothing by assumption
    | rewrite literal_adds_its_count by assumption ].

(** The goal is one of the hypotheses, as it is written. *)
Ltac by_hypothesis :=
  match goal with H : ?h |- ?g => constr_eq h g; exact H end.

(** The same count, a value told apart from a literal text by the
    hypotheses at hand: a value followed by a literal text that seals it
    adds nothing, a literal text adds its own count. *)
Ltac count_exactly value_adds_nothing literal_adds_its_count :=
  repeat match goal with
    | |- context [occ ?p (?i ++ ?l ++ ?rest)] =>
        first [ rewrite (value_adds_nothing p i l rest) by by_hypothesis
              | rewrite (literal_adds_its_count p i (l ++ rest)) by by_hypothesis ]
    | |- context [occ ?p (?a ++ ?s)] =>
        rewrite (literal_adds_its_count p a s) by by_hypothesis
    end.

(** A bound on a count in a text, the first fragment of the text left
    out; the lemma given says that a suffix holds no more occurrences. *)
Ltac skip_fragment suffix_holds_less :=
  match goal with
  | |- _ <= occ ?p (?u ++ ?s) => etransitivity; [| apply (suffix_holds_less p u s)]
  end.

(** ** More configurations *)

(** [tc] with other feature flags. *)
Definition withStartScriptV2FeatureFlags (flags : list string) (tc : v1alpha1.TidbCluster)
  : v1alpha1.TidbCluster :=
  let s := v1alpha1.Spec tc in
  v1alpha1.mkTidbCluster (v1alpha1.Name tc) (v1alpha1.Namespace tc)
    (v1alpha1.mkSpec (v1alpha1.PreferIPv6 s) (v1alpha1.ClusterDomain s) (v1alpha1.TiKV s)
       (v1alpha1.Cluster s) (v1alpha1.EnableDynamicConfiguration s) flags)
    (v1alpha1.AcrossK8s tc) (v1alpha1.Heterogeneous tc) (v1alpha1.WithoutLocalPD tc)
    (v1alpha1.PDStartTimeout tc).

(** [tc] with another referenced cluster. *)
Definition withCluster (ref : v1alpha1.TidbClusterRef.t) (tc : v1alpha1.TidbCluster)
  : v1alpha1.TidbCluster :=
  let s := v1alpha1.Spec tc in
  v1alpha1.mkTidbCluster (v1alpha1.Name tc) (v1alpha1.Namespace tc)
    (v1alpha1.mkSpec (v1alpha1.PreferIPv6 s) (v1alpha1.ClusterDomain s) (v1alpha1.TiKV s)
       ref (v1alpha1.EnableDynamicConfiguration s) (v1alpha1.StartScriptV2FeatureFlags s))
    (v1alpha1.AcrossK8s tc) (v1alpha1.Heterogeneous tc) (v1alpha1.WithoutLocalPD tc)
    (v1alpha1.PDStartTimeout tc).

(** [tc] with another start timeout. *)
Definition withPDStartTimeout (timeout : Z) (tc : v1alpha1.TidbCluster)
  : v1alpha1.TidbCluster :=
  v1alpha1.mkTidbCluster (v1alpha1.Name tc) (v1alpha1.Namespace tc) (v1alpha1.Spec tc)
    (v1alpha1.AcrossK8s tc) (v1alpha1.Heterogeneous tc) (v1alpha1.WithoutLocalPD tc)
    timeout.

(** The script of a cluster, written from the cluster itself: the common
    script, the pod name, the DNS fragment when the feature flag is set,
    the discovery subscript across Kubernetes clusters, the base flags,
    the line of the extra arguments under dynamic configuration, and the
    launch of the server. *)
Definition scriptOf (E : Externals) (tc : v1alpha1.TidbCluster) : string :=
  let host := advertiseHost E tc in
  let name := v1alpha1.Name tc in
  componentCommonScript E ++ tikvStartScriptHead
  ++ (if slices.Contains (v1alpha1.StartScriptV2FeatureFlags (v1alpha1.Spec tc))
           (StartScriptV2FeatureFlagWaitForDnsNameIpMatch E)
      then litComponentDomain ++ host
           ++ litWaitThreshold ++ fmt.itoa (v1alpha1.PDStartTimeout tc)
           ++ strings.TrimRight template.isSpace
                (nsLookupLine ++ componentCommonWaitForDnsIpMatchScript E ++ String LF "")
      else "")
  ++ (if v1alpha1.AcrossK8s tc
      then litPdUrl ++ pdAddress E name
           ++ litEncodedUrl ++ (name ++ "-discovery." ++ v1alpha1.Namespace tc ++ ":10261")
           ++ discoveryLoop
      else "")
  ++ litArgsPd
  ++ (if v1alpha1.AcrossK8s tc then "${result}"
      else if v1alpha1.Heterogeneous tc && v1alpha1.WithoutLocalPD tc
           then pdAddress E
                  (v1alpha1.TidbClusterRef.Name (v1alpha1.Cluster (v1alpha1.Spec tc)))
           else pdAddress E name)
  ++ litAdvertiseAddr ++ (host ++ ":" ++ fmt.itoa (DefaultTiKVServerPort E))
  ++ litAddr ++ (wildcardHost tc ++ ":" ++ fmt.itoa (DefaultTiKVServerPort E))
  ++ litStatusAddr ++ (wildcardHost tc ++ ":" ++ fmt.itoa (DefaultTiKVStatusPort E))
  ++ litDataDir
  ++ filepath.Join [TiKVDataVolumeMountPath E;
                    v1alpha1.DataSubDir (v1alpha1.TiKV (v1alpha1.Spec tc))]
  ++ litCapacity ++ "${CAPACITY}" ++ litConfig
  ++ (if dynamicConfiguration tc
      then litExtraArgs
           ++ (statusFlagMarker ++ host ++ ":" ++ fmt.itoa (DefaultTiKVStatusPort E))
           ++ litQuote
      else "")
  ++ launchText.

(** An element of a cleaned absolute path: not empty, not [.], not [..],
    and without separator. *)
Definition cleanElement (e : string) : Prop :=
  e <> "" /\ e <> "." /\ e <> ".." /\ occ "/" e = 0.

(** The declarations [E] with another shared DNS-wait fragment. *)
Definition withComponentCommonWaitForDnsIpMatchScript (fragment : string) (E : Externals)
  : Externals :=
  mkExternals (PDMemberName E) (TiKVPeerMemberName E) (DefaultPDClientPort E)
    (DefaultTiKVServerPort E) (DefaultTiKVStatusPort E)
    (StartScriptV2FeatureFlagWaitForDnsNameIpMatch E) (TiKVDataVolumeMountPath E)
    (componentCommonScript E) (dnsAwaitPart E) fragment.

(** ** Counting a marker, the values told apart from the literal texts *)

(** The values written into the script: the two shared fragments and the
    fields of the model, each where the template prints it. *)
Definition writtenValues (E : Externals) (m : TiKVStartScriptModel.t) (wait : bool)
  : list string :=
  (componentCommonScript E
   :: (if wait
       then [TiKVStartScriptModel.AdvertiseHost m;
             fmt.itoa (TiKVStartScriptModel.KVStartTimeout m);
             componentCommonWaitForDnsIpMatchScript E]
       else [])
   ++ match TiKVStartScriptModel.AcrossK8s m with
      | Some a => [AcrossK8sScriptModel.PDAddr a; AcrossK8sScriptModel.DiscoveryAddr a]
      | None => []
      end
   ++ [TiKVStartScriptModel.PDAddr m;
       TiKVStartScriptModel.AdvertiseAddr m;
       TiKVStartScriptModel.Addr m;
       TiKVStartScriptModel.StatusAddr m;
       TiKVStartScriptModel.DataDir m;
       TiKVStartScriptModel.Capacity m;
       TiKVStartScriptModel.ExtraArgs m])%list.

(** [p] occurs in none of them. *)
Definition inputsAvoid (p : string) (E : Externals) (tc : v1alpha1.TidbCluster) : bool :=
  forallb (fun v => Nat.eqb (occ p v) 0)
    (writtenValues E (tikvStartScriptModel E tc)
       (slices.Contains (v1alpha1.StartScriptV2FeatureFlags (v1alpha1.Spec tc))
          (StartScriptV2FeatureFlagWaitForDnsNameIpMatch E))).

(** The non-empty endings of a string. *)
Fixpoint tails (s : string) : list string :=
  match s with
  | EmptyString => []
  | String _ s' => s :: tails s'
  end.

(** The non-empty endings of [p] other than [p]. *)
Definition properTails (p : string) : list string :=
  match p with
  | EmptyString => []
  | String _ p' => tails p'
  end.

(** [sealed p l]: no ending of [p] begins the literal text [l] or begins
    with it, so that an occurrence of [p] that begins before [l] cannot go
    on into [l]. *)
Definition sealed (p l : string) : bool :=
  forallb (fun v => negb (starts v l) && negb (starts l v)) (properTails p).

(** [nsLookupLine] as it is rendered when nothing but space follows it. *)
Definition nsLookupTrimmed : string := strings.TrimRight template.isSpace nsLookupLine.

(** The literal texts that follow a value in the script. *)
Definition followers : list string :=
  [tikvStartScriptHead; litWaitThreshold; nsLookupLine; nsLookupTrimmed; litPdUrl;
   litArgsPd; litEncodedUrl; discoveryLoop; litAdvertiseAddr; litAddr; litStatusAddr;
   litDataDir; litCapacity; litConfig; litQuote].

(** [markerFits p]: the literal texts of the script decide by themselves
    where [p] occurs in them: no occurrence begins in a literal text and
    ends after it, none begins in a value and ends in the literal text
    after it, and the line of [nsLookupCmd] does not hold [p]. *)
Definition markerFits (p : string) : bool :=
  literalsClear p
  && negb (border p nsLookupLine) && negb (border p nsLookupTrimmed)
  && Nat.eqb (occ p nsLookupLine) 0 && Nat.eqb (occ p nsLookupTrimmed) 0
  && forallb (sealed p) followers.

(** ** The shell, as far as the polling loop goes

    The script is read line by line.  The model knows the [until] loop
    ([until CONDITION; do], the commands of the body, [done]) and, as
    commands, [echo] of one double-quoted text, [sleep] of a number or of
    an arithmetic expansion, [break], [exit], and any other line that is
    one simple command (no reserved word, no [;], [|] or [&] in it), kept
    as it is written.  Anything else (another compound command, a loop in
    a loop, an [echo] or a [sleep] followed by more on its line) is not of
    the subset and makes the reading fail. *)
Module sh.

(** The lines of a script. *)
Definition lines (script : string) : list string :=
  strings.splitOn LF EmptyString script.

Definition isBlank (c : ascii) : bool := Ascii.eqb c " " || Ascii.eqb c "009".

(** A line without the blanks before it. *)
Fixpoint trimLeft (s : string) : string :=
  match s with
  | EmptyString => EmptyString
  | String c s' => if isBlank c then trimLeft s' else s
  end.

(** [stripPrefix p s]: what follows [p] in [s], when [s] begins with [p]. *)
Fixpoint stripPrefix (p s : string) : option string :=
  match p with
  | EmptyString => Some s
  | String a p' =>
      match s with
      | EmptyString => None
      | String b s' => if Ascii.eqb a b then stripPrefix p' s' else None
      end
  end.

(** [stripSuffix q s]: what comes before [q] in [s], when [s] ends with
    [q]. *)
Fixpoint stripSuffix (q s : string) : option string :=
  match s with
  | EmptyString => if String.eqb q EmptyString then Some EmptyString else None
  | String c s' =>
      if String.eqb s q then Some EmptyString
      else option_map (String c) (stripSuffix q s')
  end.

(** *** Arithmetic expansion *)

(** The expressions of [$(( ))] in the subset: a number, the parameter
    [RANDOM], and the remainder [a % b]. *)
Inductive arith : Type :=
| Num (n : Z)
| Random
| Rem (a b : arith).

Definition digit (c : ascii) : option Z :=
  let n := nat_of_ascii c in
  if Nat.leb 48 n && Nat.leb n 57 then Some (Z.of_nat (n - 48)) else None.

(** A run of decimal digits. *)
Fixpoint number (acc : Z) (s : string) : option Z :=
  match s with
  | EmptyString => Some acc
  | String c s' =>
      match digit c with
      | Some d => number (10 * acc + d) s'
      | None => None
      end
  end.

Definition numeral (w : string) : option Z :=
  match w with
  | EmptyString => None
  | _ => number 0 w
  end.

Definition operand (w : string) : option arith :=
  if String.eqb w "RANDOM" then Some Random else option_map Num (numeral w).

(** The words of an expression, separated by blanks. *)
Fixpoint words (cur : string) (s : string) : list string :=
  match s with
  | EmptyString => match cur with EmptyString => [] | _ => [cur] end
  | String c s' =>
      if isBlank c
      then match cur with EmptyString => words EmptyString s' | _ => cur :: words EmptyString s' end
      else words (cur ++ String c EmptyString) s'
  end.

(** The operand of [sleep]: a number, or [$((a))], or [$((a % b))]. *)
Definition duration (w : string) : option arith :=
  match stripPrefix "$((" w with
  | Some r =>
      match stripSuffix "))" r with
      | Some body =>
          match words EmptyString body with
          | [a] => operand a
          | [a; op; b] =>
              if String.eqb op "%" then
                match operand a, operand b with
                | Some x, Some y => Some (Rem x y)
                | _, _ => None
                end
              else None
          | _ => None
          end
      | None => None
      end
  | None => option_map Num (numeral w)
  end.

(** *** Commands *)

Inductive simple : Type :=
| Run (line : string)
| Echo (text : string)
| Sleep (seconds : arith)
| Break
| Exit (status : string).

Inductive command : Type :=
| Do (s : simple)
| Until (condition : string) (body : list simple).

(** What a line is. *)
Inductive kind : Type :=
| Blank
| Plain (s : simple)
| OpenUntil (condition : string)
| Done
| Unsupported.

(** The words that begin a compound command or a part of one. *)
Definition reserved : list string :=
  ["if"; "then"; "else"; "elif"; "fi"; "for"; "while"; "until"; "do"; "done"; "case";
   "esac"; "select"; "function"; "{"; "}"; "!"; "[["; "("; "echo"; "sleep"; "break";
   "exit"; "return"; "continue"; "eval"; "exec"; "trap"; "source"; "."].

(** A line that is one simple command: none of its words is reserved,
    and it holds no operator that joins commands. *)
Definition isSimple (l : string) : bool :=
  forallb (fun w => negb (existsb (String.eqb w) reserved)) (words EmptyString l)
  && template.allChars
       (fun c => negb (Ascii.eqb c ";" || Ascii.eqb c "|" || Ascii.eqb c "&")) l.

(** A text between double quotes that the shell leaves as it is: no
    quote, dollar, backquote or backslash in it. *)
Definition quoted (w : string) : option string :=
  match stripPrefix (String dquote EmptyString) w with
  | Some r =>
      match stripSuffix (String dquote EmptyString) r with
      | Some text =>
          if template.allChars
               (fun c => negb (Ascii.eqb c dquote || Ascii.eqb c "$" || Ascii.eqb c "`"
                               || Ascii.eqb c "\"))
               text
          then Some text else None
      | None => None
      end
  | None => None
  end.

Definition classify (line : string) : kind :=
  let l := trimLeft line in
  if String.eqb l EmptyString then Blank
  else if String.eqb l "done" then Done
  else if String.eqb l "break" then Plain Break
  else
    match stripPrefix "until " l with
    | Some r =>
        match stripSuffix "; do" r with
        | Some c => OpenUntil c
        | None => Unsupported
        end
    | None =>
        match stripPrefix "echo " l with
        | Some t =>
            match quoted t with
            | Some text => Plain (Echo text)
            | None => Unsupported
            end
        | None =>
            match stripPrefix "sleep " l with
            | Some a =>
                match duration a with
                | Some e => Plain (Sleep e)
                | None => Unsupported
                end
            | None =>
                match stripPrefix "exit " l with
                | Some st =>
                    match numeral st with
                    | Some _ => Plain (Exit st)
                    | None => Unsupported
                    end
                | None =>
                    if isSimple l then Plain (Run l) else Unsupported
                end
            end
        end
    end.

(** The commands read so far, last first, and the loop that is open, with
    the commands of its body, last first. *)
Record reader : Type := mkReader {
  read : list command;
  open : option (string * list simple)
}.

Definition readLine (r : reader) (line : string) : option reader :=
  match classify line with
  | Blank => Some r
  | Unsupported => None
  | Plain s =>
      match open r with
      | Some (c, body) => Some (mkReader (read r) (Some (c, s :: body)))
      | None => Some (mkReader (Do s :: read r) None)
      end
  | OpenUntil c =>
      match open r with
      | Some _ => None
      | None => Some (mkReader (read r) (Some (c, [])))
      end
  | Done =>
      match open r with
      | Some (c, body) => Some (mkReader (Until c (rev body) :: read r) None)
      | None => None
      end
  end.

Fixpoint readLines (r : reader) (l : list string) : option reader :=
  match l with
  | [] => Some r
  | line :: l' =>
      match readLine r line with
      | Some r' => readLines r' l'
      | None => None
      end
  end.

(** The commands of a list of lines. *)
Definition parse (l : list string) : option (list command) :=
  match readLines (mkReader [] None) l with
  | Some r =>
      match open r with
      | None => Some (rev (read r))
      | Some _ => None
      end
  | None => None
  end.

(** *** Runs *)

(** What the script does not decide: whether the [n]-th run of a loop
    condition ends with status 0, and the [n]-th number that [RANDOM] is
    drawn from. *)
Record world : Type := mkWorld {
  succeeds : nat -> bool;
  entropy : nat -> Z
}.

Inductive event : Type :=
| Ran (line : string)
| Printed (text : string)
| Slept (seconds : Z).

(** The conditions run and the numbers drawn so far, and what has been
    done, in its order. *)
Record state : Type := mkState {
  tests : nat;
  draws : nat;
  trace : list event
}.

Definition initial : state := mkState 0 0 [].

Inductive status : Type :=
| Completed
| Running
| Broken
| Exited (status : string)
| Failed.

(** [RANDOM] is an integer between 0 and 32767; [%] is the remainder of
    the division that truncates toward zero, an error when the divisor is
    zero. *)
Fixpoint eval (w : world) (e : arith) (drawn : nat) : option Z * nat :=
  match e with
  | Num n => (Some n, drawn)
  | Random => (Some (Z.modulo (entropy w drawn) 32768), S drawn)
  | Rem a b =>
      let (x, d1) := eval w a drawn in
      let (y, d2) := eval w b d1 in
      match x, y with
      | Some x', Some y' => if Z.eqb y' 0 then (None, d2) else (Some (Z.rem x' y'), d2)
      | _, _ => (None, d2)
      end
  end.

Definition log (e : event) (st : state) : state :=
  mkState (tests st) (draws st) (trace st ++ [e]).

Definition runSimple (w : world) (s : simple) (st : state) : state * status :=
  match s with
  | Run line => (log (Ran line) st, Completed)
  | Echo text => (log (Printed text) st, Completed)
  | Sleep e =>
      let (v, d) := eval w e (draws st) in
      match v with
      | Some seconds =>
          (mkState (tests st) d (trace st ++ [Slept seconds]),
           if Z.ltb seconds 0 then Failed else Completed)
      | None => (mkState (tests st) d (trace st), Failed)
      end
  | Break => (st, Broken)
  | Exit code => (st, Exited code)
  end.

(** The commands of a body, until one of them does not complete. *)
Fixpoint runBody (w : world) (body : list simple) (st : state) : state * status :=
  match body with
  | [] => (st, Completed)
  | s :: body' =>
      match runSimple w s st with
      | (st', Completed) => runBody w body' st'
      | other => other
      end
  end.

(** [until]: the condition is run; status 0 ends the loop; any other
    status runs the body and starts over.  The loop is watched for
    [attempts] runs of its condition. *)
Fixpoint runUntil (w : world) (attempts : nat) (body : list simple) (st : state)
  : state * status :=
  match attempts with
  | O => (st, Running)
  | S k =>
      let st' := mkState (S (tests st)) (draws st) (trace st) in
      if succeeds w (tests st) then (st', Completed)
      else
        match runBody w body st' with
        | (st'', Completed) => runUntil w k body st''
        | (st'', Broken) => (st'', Completed)
        | other => other
        end
  end.

Definition runCommand (w : world) (attempts : nat) (c : command) (st : state)
  : state * status :=
  match c with
  | Do s =>
      match runSimple w s st with
      | (st', Broken) => (st', Completed)
      | other => other
      end
  | Until _ body => runUntil w attempts body st
  end.

(** A script, each of its loops watched for [attempts] runs of its
    condition. *)
Fixpoint run (w : world) (attempts : nat) (l : list command) (st : state)
  : state * status :=
  match l with
  | [] => (st, Completed)
  | c :: l' =>
      match runCommand w attempts c st with
      | (st', Completed) => run w attempts l' st'
      | other => other
      end
  end.

(** The sleeps of a trace. *)
Fixpoint sleeps (t : list event) : list Z :=
  match t with
  | [] => []
  | Slept d :: t' => d :: sleeps t'
  | _ :: t' => sleeps t'
  end.

End sh.

(** The polling loop of the discovery subscript, without the line feed
    before it. *)
Definition pollingLoop : string :=
  match discoveryLoop with
  | String _ loop => loop
  | EmptyString => EmptyString
  end.

(** The condition of the polling loop. *)
Definition pollingCondition : string :=
  "result=$(wget -qO- -T 3 http://${discovery_url}/verify/${encoded_domain_url} 2>/dev/null | sed 's/http:\/\///g')".

(** The commands of its body. *)
Definition pollingBody : list sh.simple :=
  [sh.Echo "waiting for the verification of PD endpoints ...";
   sh.Sleep (sh.Rem sh.Random (sh.Num 5))].

(** ** The call in a running process

    [RenderTiKVStartScript] above gives the result of a call as a function
    of the cluster.  The call itself works on the state of the process:
    [template.New] allocates a template, the two calls of [Parse] change
    that template in place, each installing the trees of its text in the
    order in which Go ranges over a map, which is not specified, and
    [renderTemplateFunc] executes what the pointer then points to.  Here
    the call is written with that state and those orders explicit. *)
Module process.

(** A pointer to a template, and the templates allocated so far. *)
Definition ref : Type := nat.
Definition store : Type := list template.Template.

(** Allocation: the new template is put after the ones that exist. *)
Definition alloc (t : template.Template) (h : store) : ref * store :=
  (List.length h, (h ++ [t])%list).

(** What a pointer points to (pointers come from [alloc]; one that does
    not reads as a new template without name). *)
Definition get (r : ref) (h : store) : template.Template :=
  nth r h (template.New EmptyString).

(** Assignment through a pointer. *)
Fixpoint set (r : ref) (t : template.Template) (h : store) : store :=
  match h with
  | [] => []
  | x :: h' =>
      match r with
      | O => t :: h'
      | S r' => x :: set r' t h'
      end
  end.

(** The order in which one call of [Parse] installs the trees of its
    text. *)
Definition reordering : Type := template.treeSet -> template.treeSet.

(** It is an order of the same trees. *)
Definition shuffles (order : reordering) : Prop :=
  forall trees : template.treeSet, Permutation (order trees) trees.

(** [Parse] with its order: [for name, tree := range trees]. *)
Definition Parse (order : reordering) (t : template.Template) (text : string)
  : template.result template.Template :=
  match template.parseText (template.name t) text with
  | template.Ok trees =>
      template.Ok
        (template.mkTemplate (template.name t)
           (fold_left template.associate (order trees) (template.tmpl t)))
  | template.Err e => template.Err e
  end.

(** A call: from the templates of the process to its result, or its
    panic, and the templates after it. *)
Definition call (A : Type) : Type := store -> go A * store.

Definition bind {A B : Type} (c : call A) (k : A -> call B) : call B :=
  fun h =>
    match c h with
    | (returns a, h') => k a h'
    | (panics e, h') => (panics e, h')
    end.

(** [template.New(name)]. *)
Definition New (name : string) : call ref :=
  fun h => let (r, h') := alloc (template.New name) h in (returns r, h').

(** [template.Must(t.Parse(text))]: the template is changed in place and
    the pointer comes back; a text that does not parse changes nothing
    and panics. *)
Definition MustParse (order : reordering) (t : ref) (text : string) : call ref :=
  fun h =>
    match Parse order (get t h) text with
    | template.Ok parsed => (returns t, set t parsed h)
    | template.Err e => (panics e, h)
    end.

(** [renderTemplateFunc] on a pointer. *)
Definition renderTemplateFuncAt {A : Type} `{template.Reflect A} (tpl : ref) (model : A)
  : call (string * option template.error) :=
  fun h => (returns (renderTemplateFunc (get tpl h) model), h).

(** [RenderTiKVStartScript]. *)
Definition RenderTiKVStartScript (first second : reordering) (E : Externals)
  (tc : v1alpha1.TidbCluster) : call (string * option template.error) :=
  let m := tikvStartScriptModel E tc in
  let waitForDnsNameIpMatchOnStartup :=
    slices.Contains (v1alpha1.StartScriptV2FeatureFlags (v1alpha1.Spec tc))
      (StartScriptV2FeatureFlagWaitForDnsNameIpMatch E) in
  bind (New "tikv-start-script")
    (fun t =>
       bind (MustParse first t tikvStartSubScript)
         (fun t' =>
            bind (MustParse second t'
                    (componentCommonScript E
                     ++ replaceTikvStartScriptDnsAwaitPart E (tikvStartScript E)
                          waitForDnsNameIpMatchOnStartup))
              (fun tikvStartScriptTpl => renderTemplateFuncAt tikvStartScriptTpl m))).

(** Two name spaces that hold the same tree under each name. *)
Definition same (s1 s2 : template.treeSet) : Prop :=
  forall name : string, template.lookup name s1 = template.lookup name s2.

(** Two templates of one name whose name spaces hold the same trees. *)
Definition alike (t1 t2 : template.Template) : Prop :=
  template.name t1 = template.name t2 /\ same (template.tmpl t1) (template.tmpl t2).

End process.

(** * Properties *)

(** ** Strings *)

Lemma append_nil_r (s : string) : s ++ "" = s.
Proof. induction s as [|c s IH]; simpl; [reflexivity | now rewrite IH]. Qed.

Lemma append_assoc (a b c : string) : (a ++ b) ++ c = a ++ b ++ c.
Proof. induction a as [|x a IH]; simpl; [reflexivity | now rewrite IH]. Qed.

Lemma starts_app_self (p s : string) : starts p (p ++ s) = true.
Proof.
  induction p as [|a p IH]; [reflexivity|].
  simpl. now rewrite Ascii.eqb_refl.
Qed.

(** A prefix test that is decided inside [u] is not changed by what
    follows [u]. *)
Lemma starts_app_stable (p u s : string) :
  proper_prefix u p = false -> starts p (u ++ s) = starts p u.
Proof.
  revert u. induction p as [|a p IH]; intros u H; [reflexivity|].
  destruct u as [|b u].
  - discriminate H.
  - simpl. unfold proper_prefix in H. simpl in H.
    destruct (Ascii.eqb a b) eqn:Eab; [|reflexivity].
    apply Ascii.eqb_eq in Eab. subst b. rewrite Ascii.eqb_refl in H. simpl in *.
    apply IH. exact H.
Qed.

Lemma occ_app (p a s : string) :
  border p a = false -> occ p (a ++ s) = occ p a + occ p s.
Proof.
  induction a as [|c a IH]; intros H; [reflexivity|].
  simpl in H. apply orb_false_iff in H. destruct H as [H1 H2].
  change (occ p (String c a ++ s))
    with ((if starts p (String c a ++ s) then 1 else 0) + occ p (a ++ s)).
  rewrite (starts_app_stable _ _ _ H1), (IH H2). simpl. lia.
Qed.

Lemma occ_free (p a s : string) : free p a = true -> occ p (a ++ s) = occ p s.
Proof.
  unfold free. intros H. apply andb_true_iff in H. destruct H as [H1 H2].
  apply Nat.eqb_eq in H1. apply negb_true_iff in H2.
  rewrite (occ_app _ _ _ H2), H1. reflexivity.
Qed.

Lemma occ_suffix_le (p u s : string) : occ p s <= occ p (u ++ s).
Proof.
  induction u as [|c u IH]; [simpl; lia|].
  change (occ p (String c u ++ s))
    with ((if starts p (String c u ++ s) then 1 else 0) + occ p (u ++ s)).
  lia.
Qed.

Lemma occ_zero_starts (p c s : string) (x : ascii) :
  occ p (String x s) = 0 -> starts p (String x s) = false /\ occ p s = 0.
Proof.
  change (occ p (String x s)) with ((if starts p (String x s) then 1 else 0) + occ p s).
  destruct (starts p (String x s)); intros H; split; (reflexivity || lia).
Qed.

(** Nothing is replaced in a string without occurrences. *)
Lemma replaceFrom_none (old new s : string) :
  occ old s = 0 -> strings.replaceFrom old new 0 s = s.
Proof.
  induction s as [|x s IH]; intros H; [reflexivity|].
  apply (occ_zero_starts old s) in H. destruct H as [H1 H2].
  simpl strings.replaceFrom. rewrite H1, (IH H2). reflexivity.
Qed.

Lemma replaceFrom_skip (old new u s : string) :
  strings.replaceFrom old new (String.length u) (u ++ s) = strings.replaceFrom old new 0 s.
Proof. induction u as [|x u IH]; [reflexivity | exact IH]. Qed.

Lemma occ_app_self_pos (p a b : string) : p <> "" -> 1 <= occ p (a ++ p ++ b).
Proof.
  intros Hp. etransitivity; [|apply occ_suffix_le].
  destruct p as [|x p]; [contradiction|].
  change (occ (String x p) (String x p ++ b))
    with ((if starts (String x p) (String x p ++ b) then 1 else 0) + occ (String x p) (p ++ b)).
  rewrite starts_app_self. lia.
Qed.

Lemma replaceFrom_once (x : ascii) (o a b new : string) :
  occ (String x o) (a ++ String x o ++ b) = 1 ->
  strings.replaceFrom (String x o) new 0 (a ++ String x o ++ b) = a ++ new ++ b.
Proof.
  assert (Hold : String x o <> "") by discriminate.
  assert (Hlen : Nat.pred (String.length (String x o)) = String.length o) by reflexivity.
  assert (Hcons : String x o ++ b = String x (o ++ b)) by reflexivity.
  revert Hold Hlen Hcons. generalize (String x o) at 1 2 3 4 5 6 7. intros old Hold Hlen Hcons.
  induction a as [|y a IH]; intros H.
  - change ("" ++ old ++ b) with (old ++ b) in *.
    pose proof (starts_app_self old b) as Hs. rewrite Hcons in *.
    change (occ old (String x (o ++ b)))
      with ((if starts old (String x (o ++ b)) then 1 else 0) + occ old (o ++ b)) in H.
    simpl strings.replaceFrom. rewrite Hs in *. rewrite Hlen.
    rewrite replaceFrom_skip, replaceFrom_none; [reflexivity|].
    pose proof (occ_suffix_le old o b). lia.
  - change (String y a ++ old ++ b) with (String y (a ++ old ++ b)) in *.
    change (occ old (String y (a ++ old ++ b)))
      with ((if starts old (String y (a ++ old ++ b)) then 1 else 0)
            + occ old (a ++ old ++ b)) in H.
    pose proof (occ_app_self_pos old a b Hold) as Hpos.
    simpl strings.replaceFrom.
    destruct (starts old (String y (a ++ old ++ b))); [lia|].
    rewrite IH by lia. reflexivity.
Qed.

(** A non-empty [old] that occurs once, between [a] and [b], is replaced
    there and nowhere else. *)
Lemma ReplaceAll_once (a old b new : string) :
  old <> "" -> occ old (a ++ old ++ b) = 1 ->
  strings.ReplaceAll (a ++ old ++ b) old new = a ++ new ++ b.
Proof.
  intros Hold H. destruct old as [|x o]; [contradiction|].
  apply replaceFrom_once. exact H.
Qed.

(** Trimming on the right looks at the end of the string only. *)
Lemma TrimRight_app (cut : ascii -> bool) (a b : string) :
  strings.TrimRight cut (a ++ b) =
  match strings.TrimRight cut b with
  | EmptyString => strings.TrimRight cut a
  | t => a ++ t
  end.
Proof.
  induction a as [|x a IH]; simpl.
  - destruct (strings.TrimRight cut b); reflexivity.
  - rewrite IH. destruct (strings.TrimRight cut b) as [|y t]; [reflexivity|].
    destruct a; reflexivity.
Qed.

Lemma consText_prependText (c : ascii) (x : string) r :
  template.consText c (prependText x r) = prependText (String c x) r.
Proof. destruct r as [[|[t tr|b] l]|e]; reflexivity. Qed.

(** Text without delimiters goes to the text item that follows it. *)
Lemma lex_plain (x rest : string) :
  plain x = true ->
  template.lex template.inText (x ++ rest) = prependText x (template.lex template.inText rest).
Proof.
  induction x as [|c x IH]; intros H.
  - simpl. destruct (template.lex template.inText rest) as [[|[t tr|b] l]|e]; reflexivity.
  - simpl in H. rewrite <- consText_prependText.
    destruct (Ascii.eqb c "{") eqn:Ec.
    + destruct x as [|c1 x]; [discriminate|].
      apply andb_true_iff in H. destruct H as [H1 H2]. apply negb_true_iff in H1.
      rewrite <- (IH H2). simpl. rewrite Ec, H1. reflexivity.
    + rewrite <- (IH H). simpl. rewrite Ec. reflexivity.
Qed.

Lemma append_cons_ne (a b : string) (c : ascii) : a ++ String c b <> "".
Proof. destruct a; discriminate. Qed.

Lemma TrimRight_app_ne (cut : ascii -> bool) (a b : string) :
  strings.TrimRight cut b <> "" ->
  strings.TrimRight cut (a ++ b) = a ++ strings.TrimRight cut b.
Proof.
  intros H. rewrite TrimRight_app.
  destruct (strings.TrimRight cut b); [contradiction | reflexivity].
Qed.

Lemma TrimRight_app_ne_l (cut : ascii -> bool) (a b : string) :
  strings.TrimRight cut a <> "" -> a <> "" -> strings.TrimRight cut (a ++ b) <> "".
Proof.
  intros H Ha. rewrite TrimRight_app.
  destruct (strings.TrimRight cut b); [assumption|].
  destruct a; [contradiction | discriminate].
Qed.

Lemma isEmptyNode_app (a b : string) :
  strings.TrimRight template.isSpace b <> "" ->
  template.isEmptyNode (template.TextNode (a ++ b)) = false.
Proof.
  intros H. unfold template.isEmptyNode. rewrite (TrimRight_app_ne _ _ _ H).
  apply String.eqb_neq.
  destruct (strings.TrimRight template.isSpace b); [contradiction | apply append_cons_ne].
Qed.

(** ** The template of the start script *)

Lemma lex_AdvertiseHost (rest : string) :
  template.lex template.inText ("{{ .AdvertiseHost }}" ++ rest) =
  template.consItem (template.itemText "" false)
    (template.consItem (template.itemAction " .AdvertiseHost ")
       (template.lex template.inText rest)).
Proof. reflexivity. Qed.

Lemma lex_KVStartTimeout (rest : string) :
  template.lex template.inText ("{{ .KVStartTimeout }}" ++ rest) =
  template.consItem (template.itemText "" false)
    (template.consItem (template.itemAction " .KVStartTimeout ")
       (template.lex template.inText rest)).
Proof. reflexivity. Qed.

Lemma parseItems_cons ps i l :
  template.parseItems ps (i :: l) =
  template.bind (template.parseItem ps i) (fun ps' => template.parseItems ps' l).
Proof. reflexivity. Qed.

Lemma parseItem_text ps (t : string) :
  t <> "" ->
  template.parseItem ps (template.itemText t false) =
  template.Ok (template.emit (template.TextNode t) ps).
Proof. intros H. destruct t; [contradiction | reflexivity]. Qed.

Lemma parseItem_trim ps (t : string) :
  strings.TrimRight template.isSpace t <> "" ->
  template.parseItem ps (template.itemText t true) =
  template.Ok (template.emit (template.TextNode (strings.TrimRight template.isSpace t)) ps).
Proof.
  intros H. unfold template.parseItem.
  destruct (strings.TrimRight template.isSpace t); [contradiction | reflexivity].
Qed.

Lemma parseItem_AdvertiseHost ps :
  template.parseItem ps (template.itemAction " .AdvertiseHost ") =
  template.Ok (template.emit (template.ActionNode ["AdvertiseHost"]) ps).
Proof. reflexivity. Qed.

Lemma parseItem_KVStartTimeout ps :
  template.parseItem ps (template.itemAction " .KVStartTimeout ") =
  template.Ok (template.emit (template.ActionNode ["KVStartTimeout"]) ps).
Proof. reflexivity. Qed.

Lemma parseItems_tail (ns : list template.node) :
  template.parseItems (template.mkParser ns [] []) tailItems =
  template.Ok (template.mkParser (rev tailTree ++ ns) [] []).
Proof. vm_compute. reflexivity. Qed.

Lemma parseItems_nowait (t : string) :
  strings.TrimRight template.isSpace t <> "" ->
  template.parseItems newParser (template.itemText t true :: tailItems) =
  template.Ok
    (template.mkParser
       (rev (mainTree (strings.TrimRight template.isSpace t) false "")) [] []).
Proof.
  intros H. rewrite parseItems_cons, (parseItem_trim _ _ H).
  cbn [template.bind template.emit template.open template.top template.defined newParser].
  rewrite parseItems_tail. unfold mainTree, dnsAwaitNodes.
  cbn [app]. cbn [rev]. reflexivity.
Qed.

Lemma parseItems_wait (t u : string) :
  t <> "" ->
  strings.TrimRight template.isSpace u <> "" ->
  template.parseItems newParser
    (template.itemText t false
     :: template.itemAction " .AdvertiseHost "
     :: template.itemText "
waitThreshold=" false
     :: template.itemAction " .KVStartTimeout "
     :: template.itemText u true
     :: tailItems) =
  template.Ok
    (template.mkParser
       (rev (mainTree t true (strings.TrimRight template.isSpace u))) [] []).
Proof.
  intros Ht Hu. rewrite parseItems_cons, (parseItem_text _ _ Ht).
  cbn [template.bind template.emit template.open template.top template.defined newParser].
  rewrite parseItems_cons, parseItem_AdvertiseHost.
  cbn [template.bind template.emit template.open template.top template.defined].
  rewrite parseItems_cons, parseItem_text by discriminate.
  cbn [template.bind template.emit template.open template.top template.defined].
  rewrite parseItems_cons, parseItem_KVStartTimeout.
  cbn [template.bind template.emit template.open template.top template.defined].
  rewrite parseItems_cons, (parseItem_trim _ _ Hu).
  cbn [template.bind template.emit template.open template.top template.defined].
  rewrite parseItems_tail. unfold mainTree, dnsAwaitNodes.
  cbn [app]. cbn [rev]. rewrite <- !app_assoc. reflexivity.
Qed.

Lemma subScriptTemplate_ok :
  subScriptTemplate = template.Ok (template.mkTemplate "tikv-start-script" subTmpl).
Proof. vm_compute. reflexivity. Qed.

(** Parsing the start script puts its tree in the place of the empty main
    tree left by the subscripts. *)
Lemma Parse_main (text : string) (items : list template.item) (t : string)
  (wait : bool) (u : string) :
  template.lex template.inText text = template.Ok items ->
  template.parseItems newParser items =
    template.Ok (template.mkParser (rev (mainTree t wait u)) [] []) ->
  template.isEmptyNode (template.TextNode t) = false ->
  template.Parse (template.mkTemplate "tikv-start-script" subTmpl) text =
  template.Ok
    (template.mkTemplate "tikv-start-script"
       (template.store "tikv-start-script" (mainTree t wait u) subTmpl)).
Proof.
  intros Hlex Hparse Ht.
  unfold template.Parse, template.parseText. cbn [template.name template.tmpl].
  rewrite Hlex. cbn [template.bind]. fold newParser. rewrite Hparse.
  cbn [template.bind template.open template.top template.defined].
  rewrite rev_involutive.
  cbn [template.add template.lookup template.store template.bind fold_left].
  unfold template.associate. cbn [fst snd].
  replace (template.IsEmptyTree (mainTree t wait u)) with false
    by (unfold mainTree, template.IsEmptyTree; cbn [forallb]; now rewrite Ht).
  destruct (template.lookup "tikv-start-script" subTmpl); reflexivity.
Qed.

Lemma render_main (t : string) (wait : bool) (u : string) (m : TiKVStartScriptModel.t) :
  renderTemplateFunc
    (template.mkTemplate "tikv-start-script"
       (template.store "tikv-start-script" (mainTree t wait u) subTmpl)) m =
  (t ++ (if wait
         then TiKVStartScriptModel.AdvertiseHost m ++ "
waitThreshold=" ++ fmt.itoa (TiKVStartScriptModel.KVStartTimeout m) ++ u
         else "")
     ++ match TiKVStartScriptModel.AcrossK8s m with
        | Some a => acrossK8sText a
        | None => EmptyString
        end
     ++ baseArgsText m ++ extraArgsText m ++ launchText, None).
Proof.
  destruct m as [pd addr saddr host aaddr dir cap extra timeout across].
  unfold acrossK8sText, baseArgsText, otherFlagsText, extraArgsText, litComponentDomain, litWaitThreshold,
    litPdUrl, litEncodedUrl, litArgsPd, litAdvertiseAddr, litAddr, litStatusAddr,
    litDataDir, litCapacity, litConfig, litExtraArgs, litQuote.
  cbn [TiKVStartScriptModel.PDAddr TiKVStartScriptModel.Addr TiKVStartScriptModel.StatusAddr
       TiKVStartScriptModel.AdvertiseHost TiKVStartScriptModel.AdvertiseAddr
       TiKVStartScriptModel.DataDir TiKVStartScriptModel.Capacity
       TiKVStartScriptModel.ExtraArgs TiKVStartScriptModel.KVStartTimeout
       TiKVStartScriptModel.AcrossK8s].
  destruct wait; destruct across as [[apd adisc]|]; destruct extra as [|c extra];
    cbn [AcrossK8sScriptModel.PDAddr AcrossK8sScriptModel.DiscoveryAddr];
    rewrite ?append_assoc;
    vm_compute; reflexivity.
Qed.

Section Rendering.

Context (E : Externals).
Hypothesis WF : wellFormed E = true.

Lemma wf_parts :
  dnsAwaitPart E <> "" /\ occ (dnsAwaitPart E) (tikvStartScript E) = 1
  /\ plain (componentCommonScript E) = true
  /\ plain (componentCommonWaitForDnsIpMatchScript E) = true.
Proof.
  unfold wellFormed in WF. repeat (apply andb_true_iff in WF; destruct WF as [WF ?]).
  apply negb_true_iff in WF. apply String.eqb_neq in WF. apply Nat.eqb_eq in H1. auto.
Qed.

Lemma replace_dns (wait : bool) :
  replaceTikvStartScriptDnsAwaitPart E (tikvStartScript E) wait =
  tikvStartScriptHead
  ++ (if wait then tikvWaitForDnsIpMatchSubScript E else tikvWaitForDnsOnlySubScript)
  ++ tikvStartScriptTail.
Proof.
  destruct wf_parts as (H1 & H2 & _).
  unfold replaceTikvStartScriptDnsAwaitPart, tikvStartScript in *.
  destruct wait; apply ReplaceAll_once; assumption.
Qed.

Lemma lex_tail :
  template.lex template.inText tikvStartScriptTail =
  template.Ok (template.itemText (String LF "") true :: tailItems).
Proof. vm_compute. reflexivity. Qed.

Lemma lex_nowait :
  template.lex template.inText
    (componentCommonScript E ++ tikvStartScriptHead ++ tikvWaitForDnsOnlySubScript
     ++ tikvStartScriptTail) =
  template.Ok
    (template.itemText ((componentCommonScript E ++ tikvStartScriptHead) ++ String LF "") true
     :: tailItems).
Proof.
  destruct wf_parts as (_ & _ & H3 & _).
  rewrite (lex_plain _ _ H3).
  change (tikvStartScriptHead ++ tikvWaitForDnsOnlySubScript ++ tikvStartScriptTail)
    with (tikvStartScriptHead ++ tikvStartScriptTail).
  rewrite (lex_plain tikvStartScriptHead) by (vm_compute; reflexivity).
  rewrite lex_tail. cbn [prependText]. rewrite append_assoc. reflexivity.
Qed.

Lemma lex_wait :
  template.lex template.inText
    (componentCommonScript E ++ tikvStartScriptHead ++ tikvWaitForDnsIpMatchSubScript E
     ++ tikvStartScriptTail) =
  template.Ok
    (template.itemText ((componentCommonScript E ++ tikvStartScriptHead) ++ "
componentDomain=") false
     :: template.itemAction " .AdvertiseHost "
     :: template.itemText "
waitThreshold=" false
     :: template.itemAction " .KVStartTimeout "
     :: template.itemText
          (nsLookupLine ++ componentCommonWaitForDnsIpMatchScript E ++ String LF "") true
     :: tailItems).
Proof.
  destruct wf_parts as (_ & _ & H3 & H4).
  rewrite (lex_plain _ _ H3).
  rewrite (lex_plain tikvStartScriptHead) by (vm_compute; reflexivity).
  unfold tikvWaitForDnsIpMatchSubScript.
  change ((tikvWaitForDnsIpMatchHead ++ componentCommonWaitForDnsIpMatchScript E)
          ++ tikvStartScriptTail)
    with ("
componentDomain=" ++ "{{ .AdvertiseHost }}" ++ "
waitThreshold=" ++ "{{ .KVStartTimeout }}" ++ nsLookupLine
          ++ componentCommonWaitForDnsIpMatchScript E ++ tikvStartScriptTail).
  rewrite (lex_plain "
componentDomain=") by reflexivity.
  rewrite lex_AdvertiseHost.
  rewrite (lex_plain "
waitThreshold=") by reflexivity.
  rewrite lex_KVStartTimeout.
  rewrite (lex_plain nsLookupLine) by (vm_compute; reflexivity).
  rewrite (lex_plain _ _ H4), lex_tail.
  cbn [prependText template.consItem template.bind].
  rewrite !append_assoc. reflexivity.
Qed.


Lemma trim_head :
  strings.TrimRight template.isSpace
    ((componentCommonScript E ++ tikvStartScriptHead) ++ String LF "") =
  componentCommonScript E ++ tikvStartScriptHead.
Proof.
  rewrite TrimRight_app. cbn [strings.TrimRight template.isSpace].
  change (strings.TrimRight template.isSpace (String LF "")) with "".
  cbv iota. rewrite TrimRight_app_ne; [f_equal; vm_compute; reflexivity|].
  ne_by_compute.
Qed.

Lemma trim_dns_ne :
  strings.TrimRight template.isSpace
    (nsLookupLine ++ componentCommonWaitForDnsIpMatchScript E ++ String LF "") <> "".
Proof. apply TrimRight_app_ne_l; ne_by_compute. Qed.

Lemma first_text_wait :
  template.isEmptyNode
    (template.TextNode ((componentCommonScript E ++ tikvStartScriptHead) ++ "
componentDomain=")) = false.
Proof. apply isEmptyNode_app. ne_by_compute. Qed.

Lemma first_text_nowait :
  template.isEmptyNode
    (template.TextNode (componentCommonScript E ++ tikvStartScriptHead)) = false.
Proof. apply isEmptyNode_app. ne_by_compute. Qed.

(** Under well-formed declarations the renderer returns the script made of
    the fragments in their order, and no error. *)
Theorem render_script (tc : v1alpha1.TidbCluster) :
  RenderTiKVStartScript E tc =
  returns
    (scriptText E (tikvStartScriptModel E tc)
       (slices.Contains (v1alpha1.StartScriptV2FeatureFlags (v1alpha1.Spec tc))
          (StartScriptV2FeatureFlagWaitForDnsNameIpMatch E)),
     None).
Proof.
  unfold RenderTiKVStartScript. fold subScriptTemplate.
  rewrite subScriptTemplate_ok. cbn [Must go_bind]. rewrite replace_dns.
  generalize (tikvStartScriptModel E tc). intros m.
  destruct (slices.Contains _ _).
  - rewrite (Parse_main _ _ _ true _ lex_wait
               (parseItems_wait _ _ (append_cons_ne _ _ _) trim_dns_ne)
               first_text_wait).
    cbn [Must go_bind]. rewrite render_main.
    unfold scriptText, dnsAwaitText, discoveryText. rewrite !append_assoc. reflexivity.
  - pose proof (parseItems_nowait _ ltac:(rewrite trim_head; apply append_cons_ne))
      as Hp.
    rewrite trim_head in Hp.
    rewrite (Parse_main _ _ _ false _ lex_nowait Hp
               first_text_nowait).
    cbn [Must go_bind]. rewrite render_main.
    unfold scriptText, dnsAwaitText, discoveryText. rewrite !append_assoc. reflexivity.
Qed.

End Rendering.

(** ** The model of the script *)

Lemma Sprintf_host_port (s : string) (d : Z) :
  fmt.Sprintf "%s:%d" [fmt.str s; fmt.int d] = s ++ ":" ++ fmt.itoa d.
Proof. cbn. now rewrite append_nil_r. Qed.

Lemma Sprintf_advertise (peer ns : string) :
  fmt.Sprintf "${TIKV_POD_NAME}.%s.%s.svc" [fmt.str peer; fmt.str ns] =
  "${TIKV_POD_NAME}." ++ peer ++ "." ++ ns ++ ".svc".
Proof. reflexivity. Qed.

Lemma Sprintf_status (a : string) (d : Z) :
  fmt.Sprintf "--advertise-status-addr=%s:%d" [fmt.str a; fmt.int d] =
  "--advertise-status-addr=" ++ a ++ ":" ++ fmt.itoa d.
Proof. cbn. now rewrite append_nil_r. Qed.

Section Model.

Context (E : Externals) (tc : v1alpha1.TidbCluster).

Lemma model_AdvertiseHost : TiKVStartScriptModel.AdvertiseHost (tikvStartScriptModel E tc) = advertiseHost E tc.
Proof.
  unfold tikvStartScriptModel, advertiseHost.
  destruct (v1alpha1.AcrossK8s tc), (v1alpha1.Heterogeneous tc && v1alpha1.WithoutLocalPD tc);
    cbn [TiKVStartScriptModel.AdvertiseHost]; rewrite Sprintf_advertise;
    destruct (String.eqb (v1alpha1.ClusterDomain (v1alpha1.Spec tc)) "");
    cbn [negb]; rewrite ?append_assoc; cbn; rewrite ?append_nil_r; reflexivity.
Qed.

Lemma model_AdvertiseAddr :
  TiKVStartScriptModel.AdvertiseAddr (tikvStartScriptModel E tc) =
  advertiseHost E tc ++ ":" ++ fmt.itoa (DefaultTiKVServerPort E).
Proof.
  rewrite <- model_AdvertiseHost. unfold tikvStartScriptModel.
  destruct (v1alpha1.AcrossK8s tc), (v1alpha1.Heterogeneous tc && v1alpha1.WithoutLocalPD tc);
    cbn [TiKVStartScriptModel.AdvertiseAddr TiKVStartScriptModel.AdvertiseHost];
    apply Sprintf_host_port.
Qed.

Lemma model_Addr :
  TiKVStartScriptModel.Addr (tikvStartScriptModel E tc) = wildcardHost tc ++ ":" ++ fmt.itoa (DefaultTiKVServerPort E).
Proof.
  unfold tikvStartScriptModel, wildcardHost.
  destruct (v1alpha1.AcrossK8s tc), (v1alpha1.Heterogeneous tc && v1alpha1.WithoutLocalPD tc);
    cbn [TiKVStartScriptModel.Addr]; apply Sprintf_host_port.
Qed.

Lemma model_StatusAddr :
  TiKVStartScriptModel.StatusAddr (tikvStartScriptModel E tc) =
  wildcardHost tc ++ ":" ++ fmt.itoa (DefaultTiKVStatusPort E).
Proof.
  unfold tikvStartScriptModel, wildcardHost.
  destruct (v1alpha1.AcrossK8s tc), (v1alpha1.Heterogeneous tc && v1alpha1.WithoutLocalPD tc);
    cbn [TiKVStartScriptModel.StatusAddr]; apply Sprintf_host_port.
Qed.

Lemma model_PDAddr :
  TiKVStartScriptModel.PDAddr (tikvStartScriptModel E tc) =
  if v1alpha1.AcrossK8s tc then "${result}"
  else if v1alpha1.Heterogeneous tc && v1alpha1.WithoutLocalPD tc
       then pdAddress E (v1alpha1.TidbClusterRef.Name (v1alpha1.Cluster (v1alpha1.Spec tc)))
       else pdAddress E (v1alpha1.Name tc).
Proof.
  unfold tikvStartScriptModel, pdAddress.
  destruct (v1alpha1.AcrossK8s tc), (v1alpha1.Heterogeneous tc && v1alpha1.WithoutLocalPD tc);
    cbn [TiKVStartScriptModel.PDAddr]; try reflexivity; apply Sprintf_host_port.
Qed.

Lemma model_AcrossK8s :
  TiKVStartScriptModel.AcrossK8s (tikvStartScriptModel E tc) =
  if v1alpha1.AcrossK8s tc
  then Some (AcrossK8sScriptModel.mk (pdAddress E (v1alpha1.Name tc))
               (v1alpha1.Name tc ++ "-discovery." ++ v1alpha1.Namespace tc ++ ":10261"))
  else None.
Proof.
  unfold tikvStartScriptModel, pdAddress.
  destruct (v1alpha1.AcrossK8s tc), (v1alpha1.Heterogeneous tc && v1alpha1.WithoutLocalPD tc);
    cbn [TiKVStartScriptModel.AcrossK8s]; try reflexivity;
    rewrite Sprintf_host_port; reflexivity.
Qed.

Lemma model_ExtraArgs :
  TiKVStartScriptModel.ExtraArgs (tikvStartScriptModel E tc) =
  if dynamicConfiguration tc
  then "--advertise-status-addr=" ++ advertiseHost E tc ++ ":"
       ++ fmt.itoa (DefaultTiKVStatusPort E)
  else "".
Proof.
  rewrite <- model_AdvertiseHost.
  unfold tikvStartScriptModel, dynamicConfiguration.
  destruct (v1alpha1.AcrossK8s tc), (v1alpha1.Heterogeneous tc && v1alpha1.WithoutLocalPD tc);
    cbn [TiKVStartScriptModel.ExtraArgs TiKVStartScriptModel.AdvertiseHost];
    destruct (v1alpha1.EnableDynamicConfiguration (v1alpha1.Spec tc)) as [[|]|];
    try reflexivity;
    cbn [app List.length Nat.ltb Nat.leb strings.Join String.concat];
    apply Sprintf_status.
Qed.

Lemma model_DataDir :
  TiKVStartScriptModel.DataDir (tikvStartScriptModel E tc) =
  filepath.Join [TiKVDataVolumeMountPath E;
                 v1alpha1.DataSubDir (v1alpha1.TiKV (v1alpha1.Spec tc))].
Proof.
  unfold tikvStartScriptModel.
  destruct (v1alpha1.AcrossK8s tc), (v1alpha1.Heterogeneous tc && v1alpha1.WithoutLocalPD tc);
    reflexivity.
Qed.

Lemma model_Capacity : TiKVStartScriptModel.Capacity (tikvStartScriptModel E tc) = "${CAPACITY}".
Proof.
  unfold tikvStartScriptModel.
  destruct (v1alpha1.AcrossK8s tc), (v1alpha1.Heterogeneous tc && v1alpha1.WithoutLocalPD tc);
    reflexivity.
Qed.

Lemma model_KVStartTimeout :
  TiKVStartScriptModel.KVStartTimeout (tikvStartScriptModel E tc) = v1alpha1.PDStartTimeout tc.
Proof.
  unfold tikvStartScriptModel.
  destruct (v1alpha1.AcrossK8s tc), (v1alpha1.Heterogeneous tc && v1alpha1.WithoutLocalPD tc);
    reflexivity.
Qed.

End Model.

(** ** Counting a marker in the script *)

Lemma free_occ (p x : string) : free p x = true -> occ p x = 0.
Proof.
  unfold free. intros H. apply andb_true_iff in H. now apply Nat.eqb_eq.
Qed.

Lemma occ_lit (p a s : string) :
  negb (border p a) = true -> occ p (a ++ s) = occ p a + occ p s.
Proof. intros H. apply occ_app. now apply negb_true_iff. Qed.

Lemma occ_script_base (p : string) (E : Externals) (m : TiKVStartScriptModel.t)
  (wait : bool) :
  forallb (free p) (baseInputs E m wait) = true ->
  literalsClear p = true ->
  occ p (scriptText E m wait) =
  baseCount p m wait + occ p (extraArgsText m ++ launchText).
Proof.
  unfold literalsClear, baseInputs, scriptText, baseCount, dnsAwaitText, discoveryText,
    acrossK8sText, baseArgsText, otherFlagsText.
  intros Hin Hlit.
  destruct wait; destruct (TiKVStartScriptModel.AcrossK8s m) as [a|];
    cbn [app] in Hin; split_forallb; rewrite ?append_assoc; cbn [append];
    count_fragments occ_free occ_lit; lia.
Qed.

Lemma occ_script_tail (p : string) (m : TiKVStartScriptModel.t) :
  free p (TiKVStartScriptModel.ExtraArgs m) = true ->
  literalsClear p = true ->
  occ p (extraArgsText m ++ launchText) = tailCount p m.
Proof.
  unfold literalsClear, extraArgsText, tailCount. intros Hin Hlit.
  destruct (TiKVStartScriptModel.ExtraArgs m) as [|c extra]; [reflexivity|].
  split_forallb. rewrite ?append_assoc. count_fragments occ_free occ_lit. lia.
Qed.

(** The count of a marker in the script, when no value holds it. *)
Lemma occ_script (p : string) (E : Externals) (m : TiKVStartScriptModel.t) (wait : bool) :
  forallb (free p) (scriptInputs E m wait) = true ->
  literalsClear p = true ->
  occ p (scriptText E m wait) = baseCount p m wait + tailCount p m.
Proof.
  unfold scriptInputs. intros Hin Hlit. rewrite forallb_app in Hin.
  apply andb_true_iff in Hin. destruct Hin as [Hb He]. cbn [forallb] in He.
  rewrite andb_true_r in He.
  rewrite (occ_script_base _ _ _ _ Hb Hlit), (occ_script_tail _ _ He Hlit). reflexivity.
Qed.

(** ** Counting a marker that no value holds *)

Lemma starts_app_cases (i p x : string) :
  starts p (i ++ x) = true ->
  starts p i = true \/ exists v : string, v <> "" /\ p = i ++ v /\ starts v x = true.
Proof.
  revert p. induction i as [|c i IH]; intros p H.
  - destruct p as [|a p]; [left; reflexivity|].
    right. exists (String a p). split; [discriminate|]. split; [reflexivity | exact H].
  - destruct p as [|a p]; [left; reflexivity|].
    cbn [append starts] in H |- *. apply andb_true_iff in H. destruct H as [Ha H].
    apply Ascii.eqb_eq in Ha. subst a.
    destruct (IH _ H) as [Hi | (v & Hv & Hp & Hx)].
    + left. now rewrite Ascii.eqb_refl.
    + right. exists v. split; [exact Hv|]. split; [now rewrite Hp | exact Hx].
Qed.

Lemma tails_app (i v : string) : v <> "" -> In v (tails (i ++ v)).
Proof.
  intros Hv. induction i as [|c i IH].
  - destruct v as [|a v]; [contradiction | left; reflexivity].
  - right. exact IH.
Qed.

Lemma starts_app_mono (p a b : string) : starts p a = true -> starts p (a ++ b) = true.
Proof.
  revert a. induction p as [|x p IH]; intros a H; [reflexivity|].
  destruct a as [|y a]; [discriminate H|].
  cbn [append starts] in H |- *. apply andb_true_iff in H. destruct H as [H1 H2].
  now rewrite H1, (IH _ H2).
Qed.

(** A value that does not hold [p], before a literal text that seals it,
    adds nothing to the count. *)
Lemma occ_value (p i l rest : string) :
  sealed p l = true -> Nat.eqb (occ p i) 0 = true ->
  occ p (i ++ l ++ rest) = occ p (l ++ rest).
Proof.
  intros Hs Hi. apply Nat.eqb_eq in Hi. induction i as [|c i IH]; [reflexivity|].
  change (occ p (String c i)) with ((if starts p (String c i) then 1 else 0) + occ p i) in Hi.
  change (occ p (String c i ++ l ++ rest))
    with ((if starts p (String c i ++ l ++ rest) then 1 else 0) + occ p (i ++ l ++ rest)).
  destruct (starts p (String c i)) eqn:Hst; [lia|].
  rewrite IH by lia.
  destruct (starts p (String c i ++ l ++ rest)) eqn:Hall; [exfalso | reflexivity].
  destruct (starts_app_cases _ _ _ Hall) as [H | (v & Hv & Hp & Hx)]; [congruence|].
  assert (Hin : In v (properTails p)).
  { rewrite Hp. cbn [append properTails]. now apply tails_app. }
  unfold sealed in Hs. rewrite forallb_forall in Hs. specialize (Hs v Hin).
  apply andb_true_iff in Hs. destruct Hs as [H1 H2].
  apply negb_true_iff in H1, H2.
  destruct (starts_app_cases _ _ _ Hx) as [H | (w & _ & Hw & _)]; [congruence|].
  rewrite Hw, starts_app_self in H2. discriminate H2.
Qed.

Lemma occ_prefix_le (p a b : string) : occ p a <= occ p (a ++ b).
Proof.
  induction a as [|c a IH]; [simpl; lia|].
  change (occ p (String c a)) with ((if starts p (String c a) then 1 else 0) + occ p a).
  change (occ p (String c a ++ b))
    with ((if starts p (String c a ++ b) then 1 else 0) + occ p (a ++ b)).
  destruct (starts p (String c a)) eqn:H.
  - rewrite (starts_app_mono _ _ b H). lia.
  - destruct (starts p (String c a ++ b)); lia.
Qed.

Lemma TrimRight_prefix (cut : ascii -> bool) (s : string) :
  exists r : string, s = strings.TrimRight cut s ++ r.
Proof.
  induction s as [|c s (r & IH)]; [now exists ""|].
  cbn [strings.TrimRight]. destruct (strings.TrimRight cut s) as [|d t].
  - destruct (cut c).
    + now exists (String c s).
    + exists s. reflexivity.
  - exists r. change (String c (String d t) ++ r) with (String c (String d t ++ r)).
    now f_equal.
Qed.

Lemma occ_TrimRight (p : string) (cut : ascii -> bool) (s : string) :
  Nat.eqb (occ p s) 0 = true -> Nat.eqb (occ p (strings.TrimRight cut s)) 0 = true.
Proof.
  intros H. apply Nat.eqb_eq in H. apply Nat.eqb_eq.
  destruct (TrimRight_prefix cut s) as (r & Hr).
  pose proof (occ_prefix_le p (strings.TrimRight cut s) r) as Hle.
  rewrite <- Hr in Hle. lia.
Qed.

(** The end of the DNS fragment: the line of [nsLookupCmd] and the shared
    fragment without its trailing space. *)
Lemma dns_tail_trimmed (w : string) :
  strings.TrimRight template.isSpace (nsLookupLine ++ w ++ String LF "") =
  match strings.TrimRight template.isSpace w with
  | EmptyString => nsLookupTrimmed
  | t => nsLookupLine ++ t
  end.
Proof.
  rewrite TrimRight_app, (TrimRight_app _ w).
  change (strings.TrimRight template.isSpace (String LF "")) with "".
  reflexivity.
Qed.

Lemma occ_script_head (p : string) (E : Externals) (m : TiKVStartScriptModel.t)
  (wait : bool) (rest : string) :
  markerFits p = true ->
  Nat.eqb (occ p (componentCommonScript E)) 0 = true ->
  (wait = true ->
   Nat.eqb (occ p (TiKVStartScriptModel.AdvertiseHost m)) 0 = true
   /\ Nat.eqb (occ p (fmt.itoa (TiKVStartScriptModel.KVStartTimeout m))) 0 = true
   /\ Nat.eqb (occ p (componentCommonWaitForDnsIpMatchScript E)) 0 = true) ->
  (exists l r, rest = l ++ r /\ negb (border p l) = true /\ sealed p l = true) ->
  occ p (componentCommonScript E ++ tikvStartScriptHead ++ dnsAwaitText E m wait ++ rest) =
  occ p tikvStartScriptHead
  + (if wait then occ p litComponentDomain + occ p litWaitThreshold else 0)
  + occ p rest.
Proof.
  unfold markerFits, literalsClear, followers, dnsAwaitText.
  intros Hfit Hc Hw (l & r & -> & Hl1 & Hl2).
  split_forallb. destruct wait.
  - destruct (Hw eq_refl) as (Hh & Ht & Hd).
    apply (occ_TrimRight _ template.isSpace) in Hd.
    rewrite dns_tail_trimmed.
    destruct (strings.TrimRight template.isSpace (componentCommonWaitForDnsIpMatchScript E));
      rewrite ?append_assoc; count_exactly occ_value occ_lit;
      repeat match goal with H : Nat.eqb _ 0 = true |- _ => apply Nat.eqb_eq in H end; lia.
  - cbn [append]. count_exactly occ_value occ_lit. lia.
Qed.

Lemma occ_script_rest (p : string) (m : TiKVStartScriptModel.t) :
  markerFits p = true ->
  forallb (fun v => Nat.eqb (occ p v) 0)
    (match TiKVStartScriptModel.AcrossK8s m with
     | Some a => [AcrossK8sScriptModel.PDAddr a; AcrossK8sScriptModel.DiscoveryAddr a]
     | None => []
     end
     ++ [TiKVStartScriptModel.PDAddr m;
         TiKVStartScriptModel.AdvertiseAddr m;
         TiKVStartScriptModel.Addr m;
         TiKVStartScriptModel.StatusAddr m;
         TiKVStartScriptModel.DataDir m;
         TiKVStartScriptModel.Capacity m;
         TiKVStartScriptModel.ExtraArgs m])%list = true ->
  occ p (discoveryText m ++ baseArgsText m ++ extraArgsText m ++ launchText) =
  match TiKVStartScriptModel.AcrossK8s m with
  | Some _ => occ p litPdUrl + occ p litEncodedUrl + occ p discoveryLoop
  | None => 0
  end
  + (occ p litArgsPd + occ p litAdvertiseAddr + occ p litAddr + occ p litStatusAddr
     + occ p litDataDir + occ p litCapacity + occ p litConfig)
  + tailCount p m.
Proof.
  unfold markerFits, literalsClear, followers, discoveryText, acrossK8sText, baseArgsText,
    otherFlagsText, extraArgsText, tailCount.
  intros Hfit Hin.
  destruct (TiKVStartScriptModel.AcrossK8s m) as [a|];
    destruct (TiKVStartScriptModel.ExtraArgs m) as [|c extra];
    try set (x := String c extra) in *;
    cbn [app] in Hin; split_forallb; rewrite ?append_assoc; cbn [append];
    count_exactly occ_value occ_lit; try lia.
Qed.

(** The count of a marker in the script, when no value holds it: the
    count of the literal texts. *)
Lemma occ_script_exact (p : string) (E : Externals) (m : TiKVStartScriptModel.t)
  (wait : bool) :
  markerFits p = true ->
  forallb (fun v => Nat.eqb (occ p v) 0) (writtenValues E m wait) = true ->
  occ p (scriptText E m wait) = baseCount p m wait + tailCount p m.
Proof.
  intros Hfit Hin. unfold writtenValues in Hin.
  cbn [forallb] in Hin. apply andb_true_iff in Hin. destruct Hin as [Hc Hin].
  rewrite forallb_app in Hin. apply andb_true_iff in Hin. destruct Hin as [Hw Hin].
  unfold scriptText. rewrite occ_script_head; [| exact Hfit | exact Hc | |].
  - rewrite (occ_script_rest _ _ Hfit Hin). unfold baseCount. lia.
  - intros ->. cbn [forallb] in Hw.
    apply andb_true_iff in Hw. destruct Hw as [H1 Hw].
    apply andb_true_iff in Hw. destruct Hw as [H2 Hw].
    apply andb_true_iff in Hw. destruct Hw as [H3 _]. auto.
  - unfold markerFits, literalsClear, followers in Hfit. split_forallb.
    unfold discoveryText, acrossK8sText, baseArgsText.
    destruct (TiKVStartScriptModel.AcrossK8s m) as [a|].
    + exists litPdUrl. eexists. split; [rewrite !append_assoc; reflexivity|]. now split.
    + exists litArgsPd. eexists. split; [rewrite !append_assoc; reflexivity|]. now split.
Qed.

(** The same for the script of a cluster. *)
Lemma occ_rendered_exact (p : string) (E : Externals) (tc : v1alpha1.TidbCluster) :
  markerFits p = true ->
  inputsAvoid p E tc = true ->
  occ p
    (scriptText E (tikvStartScriptModel E tc)
       (slices.Contains (v1alpha1.StartScriptV2FeatureFlags (v1alpha1.Spec tc))
          (StartScriptV2FeatureFlagWaitForDnsNameIpMatch E))) =
  baseCount p (tikvStartScriptModel E tc)
    (slices.Contains (v1alpha1.StartScriptV2FeatureFlags (v1alpha1.Spec tc))
       (StartScriptV2FeatureFlagWaitForDnsNameIpMatch E))
  + tailCount p (tikvStartScriptModel E tc).
Proof. intros Hfit H. now apply occ_script_exact. Qed.

Example markers_fit :
  forallb markerFits [pdFlagMarker; pollMarker; base64Marker] = true.
Proof. vm_compute. reflexivity. Qed.

(** ** The polling loop, read and run *)

Lemma splitOn_sep (sep : ascii) (a cur b : string) :
  strings.splitOn sep cur (a ++ String sep b) =
  (strings.splitOn sep cur a ++ strings.splitOn sep EmptyString b)%list.
Proof.
  revert cur. induction a as [|c a IH]; intros cur.
  - cbn [append strings.splitOn app]. now rewrite Ascii.eqb_refl.
  - cbn [append strings.splitOn]. destruct (Ascii.eqb c sep); [|apply IH].
    rewrite IH. reflexivity.
Qed.

(** The lines of a script that holds the polling loop between two line
    feeds. *)
Lemma polling_lines (pre rest : string) :
  exists before after : list string,
    sh.lines (pre ++ discoveryLoop ++ litArgsPd ++ rest) =
    (before ++ sh.lines pollingLoop ++ after)%list.
Proof.
  assert (Hloop : discoveryLoop = String LF pollingLoop) by reflexivity.
  assert (Hargs : exists args, litArgsPd = String LF args) by (eexists; reflexivity).
  destruct Hargs as (args & Hargs). rewrite Hloop, Hargs. unfold sh.lines.
  change (String LF pollingLoop ++ String LF args ++ rest)
    with (String LF (pollingLoop ++ String LF (args ++ rest))).
  rewrite splitOn_sep, splitOn_sep.
  eexists. eexists. reflexivity.
Qed.

(** Outside a loop the lines of the polling loop are read as the loop. *)
Lemma polling_loop_read (r : sh.reader) :
  sh.open r = None ->
  sh.readLines r (sh.lines pollingLoop) =
  Some (sh.mkReader (sh.Until pollingCondition pollingBody :: sh.read r) None).
Proof.
  intros H.
  assert (Hl : exists l1 l2 l3 l4,
             sh.lines pollingLoop = [l1; l2; l3; l4]
             /\ sh.classify l1 = sh.OpenUntil pollingCondition
             /\ sh.classify l2 =
                sh.Plain (sh.Echo "waiting for the verification of PD endpoints ...")
             /\ sh.classify l3 = sh.Plain (sh.Sleep (sh.Rem sh.Random (sh.Num 5)))
             /\ sh.classify l4 = sh.Done).
  { do 4 eexists. split; [vm_compute; reflexivity|].
    repeat split; vm_compute; reflexivity. }
  destruct Hl as (l1 & l2 & l3 & l4 & -> & H1 & H2 & H3 & H4).
  destruct r as [done opened]. cbn [sh.open] in H. subst opened.
  cbn [sh.readLines]. unfold sh.readLine. rewrite H1, H2, H3, H4. reflexivity.
Qed.

Lemma seconds_bounds (w : sh.world) (l : list nat) :
  Forall (fun d => 0 <= d <= 4)%Z
    (map (fun i => Z.rem (Z.modulo (sh.entropy w i) 32768) 5) l).
Proof.
  apply Forall_forall. intros d Hd. apply in_map_iff in Hd. destruct Hd as (i & <- & _).
  pose proof (Z.mod_pos_bound (sh.entropy w i) 32768 ltac:(lia)) as Hr.
  rewrite Z.rem_mod_nonneg by lia.
  pose proof (Z.mod_pos_bound (sh.entropy w i mod 32768) 5 ltac:(lia)). lia.
Qed.

Lemma sleeps_app (t u : list sh.event) :
  sh.sleeps (t ++ u) = (sh.sleeps t ++ sh.sleeps u)%list.
Proof.
  induction t as [|e t IH]; [reflexivity|].
  destruct e; cbn [app sh.sleeps]; now rewrite IH.
Qed.

(** One failed attempt: the message, and a sleep. *)
Lemma runBody_polling (w : sh.world) (st : sh.state) :
  exists st' : sh.state,
    sh.runBody w pollingBody st = (st', sh.Completed)
    /\ sh.tests st' = sh.tests st
    /\ sh.draws st' = S (sh.draws st)
    /\ sh.sleeps (sh.trace st') =
       (sh.sleeps (sh.trace st)
        ++ [Z.rem (Z.modulo (sh.entropy w (sh.draws st)) 32768) 5])%list.
Proof.
  unfold pollingBody.
  cbn [sh.runBody sh.runSimple sh.log sh.eval sh.draws sh.tests sh.trace Z.eqb].
  pose proof (Z.mod_pos_bound (sh.entropy w (sh.draws st)) 32768 ltac:(lia)) as Hr.
  assert (Hn : Z.ltb (Z.rem (sh.entropy w (sh.draws st) mod 32768) 5) 0 = false).
  { apply Z.ltb_ge. rewrite Z.rem_mod_nonneg by lia.
    pose proof (Z.mod_pos_bound (sh.entropy w (sh.draws st) mod 32768) 5 ltac:(lia)). lia. }
  rewrite Hn. eexists. split; [reflexivity|].
  cbn [sh.tests sh.draws sh.trace]. split; [reflexivity|]. split; [reflexivity|].
  rewrite !sleeps_app. cbn [sh.sleeps]. now rewrite app_nil_r.
Qed.

Lemma runUntil_waiting (w : sh.world) (n : nat) (st : sh.state) :
  (forall i, i < n -> sh.succeeds w (sh.tests st + i) = false) ->
  exists st' : sh.state,
    sh.runUntil w n pollingBody st = (st', sh.Running)
    /\ sh.tests st' = sh.tests st + n
    /\ sh.draws st' = sh.draws st + n
    /\ sh.sleeps (sh.trace st') =
       (sh.sleeps (sh.trace st)
        ++ map (fun i => Z.rem (Z.modulo (sh.entropy w i) 32768) 5)
             (seq (sh.draws st) n))%list.
Proof.
  revert st. induction n as [|n IH]; intros st H.
  - exists st. cbn [sh.runUntil seq map]. rewrite !Nat.add_0_r, app_nil_r. auto.
  - cbn [sh.runUntil]. assert (Hf : sh.succeeds w (sh.tests st) = false)
      by (rewrite <- (Nat.add_0_r (sh.tests st)); apply H; lia).
    rewrite Hf.
    destruct (runBody_polling w (sh.mkState (S (sh.tests st)) (sh.draws st) (sh.trace st)))
      as (st1 & Hb & Ht & Hd & Hs).
    cbn [sh.tests sh.draws sh.trace] in Ht, Hd, Hs. rewrite Hb.
    destruct (IH st1) as (st' & Hr & Ht' & Hd' & Hs').
    + intros i Hi. rewrite Ht. replace (S (sh.tests st) + i) with (sh.tests st + S i) by lia.
      apply H. lia.
    + exists st'. split; [exact Hr|]. split; [lia|]. split; [lia|].
      rewrite Hs', Hs, Hd. cbn [seq map]. now rewrite <- app_assoc.
Qed.

Lemma runUntil_verified (w : sh.world) (n attempts : nat) (st : sh.state) :
  (forall i, i < n -> sh.succeeds w (sh.tests st + i) = false) ->
  sh.succeeds w (sh.tests st + n) = true ->
  n < attempts ->
  exists st' : sh.state,
    sh.runUntil w attempts pollingBody st = (st', sh.Completed)
    /\ sh.tests st' = S (sh.tests st + n)
    /\ sh.draws st' = sh.draws st + n
    /\ sh.sleeps (sh.trace st') =
       (sh.sleeps (sh.trace st)
        ++ map (fun i => Z.rem (Z.modulo (sh.entropy w i) 32768) 5)
             (seq (sh.draws st) n))%list.
Proof.
  revert attempts st. induction n as [|n IH]; intros attempts st H Hn Hlt.
  - destruct attempts as [|k]; [lia|]. cbn [sh.runUntil].
    rewrite Nat.add_0_r in Hn. rewrite Hn.
    eexists. split; [reflexivity|]. cbn [sh.tests sh.draws sh.trace seq map].
    rewrite !Nat.add_0_r, app_nil_r. auto.
  - destruct attempts as [|k]; [lia|]. cbn [sh.runUntil].
    assert (Hf : sh.succeeds w (sh.tests st) = false)
      by (rewrite <- (Nat.add_0_r (sh.tests st)); apply H; lia).
    rewrite Hf.
    destruct (runBody_polling w (sh.mkState (S (sh.tests st)) (sh.draws st) (sh.trace st)))
      as (st1 & Hb & Ht & Hd & Hs).
    cbn [sh.tests sh.draws sh.trace] in Ht, Hd, Hs. rewrite Hb.
    destruct (IH k st1) as (st' & Hr & Ht' & Hd' & Hs').
    + intros i Hi. rewrite Ht. replace (S (sh.tests st) + i) with (sh.tests st + S i) by lia.
      apply H. lia.
    + rewrite Ht. replace (S (sh.tests st) + n) with (sh.tests st + S n) by lia. exact Hn.
    + lia.
    + exists st'. split; [exact Hr|]. split; [lia|]. split; [lia|].
      rewrite Hs', Hs, Hd. cbn [seq map]. now rewrite <- app_assoc.
Qed.

(** ** The call in a running process *)

Lemma get_alloc (t : template.Template) (h : process.store) :
  process.get (List.length h) (h ++ [t])%list = t.
Proof. unfold process.get. rewrite app_nth2 by lia. now rewrite Nat.sub_diag. Qed.

Lemma set_alloc (t t' : template.Template) (h : process.store) :
  process.set (List.length h) t' (h ++ [t])%list = (h ++ [t'])%list.
Proof. induction h as [|x h IH]; [reflexivity|]. cbn. now rewrite IH. Qed.

Lemma lookup_store {A : Type} (n k : string) (v : A) (l : list (string * A)) :
  template.lookup n (template.store k v l) =
  if String.eqb k n then Some v else template.lookup n l.
Proof.
  induction l as [|[a w] l IH]; [reflexivity|].
  cbn [template.store template.lookup].
  destruct (String.eqb a k) eqn:Hak; cbn [template.lookup].
  - apply String.eqb_eq in Hak. subst a. destruct (String.eqb k n); reflexivity.
  - rewrite IH. destruct (String.eqb a n) eqn:Han, (String.eqb k n) eqn:Hkn; try reflexivity.
    apply String.eqb_eq in Han, Hkn. subst. rewrite String.eqb_refl in Hak. discriminate Hak.
Qed.

Lemma lookup_associate (n : string) (s : template.treeSet) (nt : string * template.tree) :
  template.lookup n (template.associate s nt) =
  if String.eqb (fst nt) n then
    match template.lookup (fst nt) s with
    | Some old => if template.IsEmptyTree (snd nt) then Some old else Some (snd nt)
    | None => Some (snd nt)
    end
  else template.lookup n s.
Proof.
  unfold template.associate.
  destruct (template.lookup (fst nt) s) as [old|] eqn:Hl.
  - destruct (template.IsEmptyTree (snd nt)).
    + destruct (String.eqb (fst nt) n) eqn:Hn; [|reflexivity].
      apply String.eqb_eq in Hn. now rewrite <- Hn.
    + apply lookup_store.
  - apply lookup_store.
Qed.

Lemma associate_same (s1 s2 : template.treeSet) (nt : string * template.tree) :
  process.same s1 s2 ->
  process.same (template.associate s1 nt) (template.associate s2 nt).
Proof.
  intros H n. rewrite !lookup_associate, (H (fst nt)), (H n). reflexivity.
Qed.

(** Trees of different names are installed independently. *)
Lemma associate_swap (s : template.treeSet) (a b : string * template.tree) :
  fst a <> fst b ->
  process.same (template.associate (template.associate s a) b)
    (template.associate (template.associate s b) a).
Proof.
  intros Hab n. rewrite !lookup_associate.
  assert (Hba : String.eqb (fst b) (fst a) = false)
    by (apply String.eqb_neq; intros H; apply Hab; now symmetry).
  apply String.eqb_neq in Hab. rewrite Hab, Hba.
  destruct (String.eqb (fst b) n) eqn:Hb, (String.eqb (fst a) n) eqn:Ha; try reflexivity.
  apply String.eqb_eq in Ha, Hb. rewrite <- Hb in Ha. rewrite Ha, String.eqb_refl in Hab.
  discriminate Hab.
Qed.

Lemma fold_associate_same (l : template.treeSet) (s1 s2 : template.treeSet) :
  process.same s1 s2 ->
  process.same (fold_left template.associate l s1) (fold_left template.associate l s2).
Proof.
  revert s1 s2. induction l as [|x l IH]; intros s1 s2 H; [exact H|].
  cbn [fold_left]. apply IH. now apply associate_same.
Qed.

(** The name space after the trees of a text have been installed does not
    depend on their order, the names being different. *)
Lemma fold_associate_shuffled (l l' : template.treeSet) :
  Permutation l l' ->
  NoDup (map fst l) ->
  forall s1 s2 : template.treeSet,
    process.same s1 s2 ->
    process.same (fold_left template.associate l s1) (fold_left template.associate l' s2).
Proof.
  induction 1 as [|x l l' Hp IH|x y l|l l' l'' Hp1 IH1 Hp2 IH2]; intros Hnd s1 s2 Hs.
  - exact Hs.
  - cbn [fold_left]. cbn [map] in Hnd. inversion Hnd; subst.
    apply IH; [assumption | now apply associate_same].
  - cbn [fold_left]. apply fold_associate_same.
    cbn [map] in Hnd. inversion Hnd as [|? ? Hy Hnd']; subst.
    intros n. rewrite (associate_swap s1 y x).
    + apply associate_same. now apply associate_same.
    + intros H. apply Hy. left. now symmetry.
  - intros n. rewrite (IH1 Hnd s1 s1 (fun _ => eq_refl)).
    apply IH2; [|exact Hs].
    apply (Permutation_NoDup (Permutation_map fst Hp1) Hnd).
Qed.

(** *** The names of the trees of a text are different *)

Lemma in_keys_store {A : Type} (x k : string) (v : A) (l : list (string * A)) :
  In x (map fst (template.store k v l)) -> x = k \/ In x (map fst l).
Proof.
  induction l as [|[a w] l IH]; cbn [template.store map fst In].
  - intros [H|[]]. left. now symmetry.
  - destruct (String.eqb a k); cbn [map fst In]; intros [H|H]; auto.
    destruct (IH H); auto.
Qed.

Lemma NoDup_store {A : Type} (k : string) (v : A) (l : list (string * A)) :
  NoDup (map fst l) -> NoDup (map fst (template.store k v l)).
Proof.
  induction l as [|[a w] l IH]; intros H; cbn [template.store map fst].
  - constructor; [intros [] | constructor].
  - cbn [map fst] in H. inversion H as [|? ? Ha Hl]; subst.
    destruct (String.eqb a k) eqn:Hak; cbn [map fst]; [now constructor|].
    constructor; [|now apply IH].
    intros Hin. apply in_keys_store in Hin. destruct Hin as [->|Hin]; [|contradiction].
    rewrite String.eqb_refl in Hak. discriminate Hak.
Qed.

Lemma NoDup_add (n : string) (t : template.tree) (s s' : template.treeSet) :
  template.add n t s = template.Ok s' -> NoDup (map fst s) -> NoDup (map fst s').
Proof.
  unfold template.add. intros H Hs.
  destruct (template.lookup n s) as [old|].
  - destruct (template.IsEmptyTree old).
    + injection H as <-. now apply NoDup_store.
    + destruct (template.IsEmptyTree t); [|discriminate H].
      injection H as <-. exact Hs.
  - injection H as <-. now apply NoDup_store.
Qed.

Lemma defined_emit (n : template.node) (ps : template.parser) :
  template.defined (template.emit n ps) = template.defined ps.
Proof. unfold template.emit. destruct (template.open ps) as [|[b ns] rest]; reflexivity. Qed.

Lemma NoDup_parseItem (ps ps' : template.parser) (i : template.item) :
  template.parseItem ps i = template.Ok ps' ->
  NoDup (map fst (template.defined ps)) -> NoDup (map fst (template.defined ps')).
Proof.
  intros H Hs. destruct i as [t tr|body]; cbn [template.parseItem] in H.
  - destruct (if tr then strings.TrimRight template.isSpace t else t);
      injection H as <-; [exact Hs | now rewrite defined_emit].
  - destruct (template.parseAction body) as [a|e]; cbn [template.bind] in H; [|discriminate H].
    destruct a as [n|p| |n p|p].
    + destruct (template.open ps); [|discriminate H]. injection H as <-. exact Hs.
    + injection H as <-. exact Hs.
    + destruct (template.open ps) as [|[[n|p] ns] rest]; [discriminate H| |].
      * destruct (template.add n (rev ns) (template.defined ps)) as [d|e] eqn:Hadd;
          cbn [template.bind] in H; [|discriminate H].
        injection H as <-. cbn [template.defined]. exact (NoDup_add _ _ _ _ Hadd Hs).
      * injection H as <-. now rewrite defined_emit.
    + injection H as <-. now rewrite defined_emit.
    + injection H as <-. now rewrite defined_emit.
Qed.

Lemma NoDup_parseItems (l : list template.item) (ps ps' : template.parser) :
  template.parseItems ps l = template.Ok ps' ->
  NoDup (map fst (template.defined ps)) -> NoDup (map fst (template.defined ps')).
Proof.
  revert ps. induction l as [|i l IH]; intros ps H Hs; cbn [template.parseItems] in H.
  - injection H as <-. exact Hs.
  - destruct (template.parseItem ps i) as [ps1|e] eqn:Hi; cbn [template.bind] in H;
      [|discriminate H].
    apply (IH ps1 H). exact (NoDup_parseItem _ _ _ Hi Hs).
Qed.

Lemma NoDup_parseText (name text : string) (trees : template.treeSet) :
  template.parseText name text = template.Ok trees -> NoDup (map fst trees).
Proof.
  unfold template.parseText. intros H.
  destruct (template.lex template.inText text) as [l|e]; cbn [template.bind] in H;
    [|discriminate H].
  destruct (template.parseItems (template.mkParser [] [] []) l) as [ps|e] eqn:Hp;
    cbn [template.bind] in H; [|discriminate H].
  destruct (template.open ps); [|discriminate H].
  apply (NoDup_add _ _ _ _ H). apply (NoDup_parseItems _ _ _ Hp). constructor.
Qed.

(** *** Execution reads the name space by name *)

Lemma walk_ext (call1 call2 : string -> template.value -> template.written) :
  (forall name v, call1 name v = call2 name v) ->
  forall (n : template.node) (dot : template.value),
    template.walk call1 dot n = template.walk call2 dot n.
Proof.
  intros Hc. fix IH 1. intros [t|p|p body|name p] dot; cbn [template.walk].
  - reflexivity.
  - reflexivity.
  - destruct (template.evalPipeline dot p) as [v|e]; [|reflexivity].
    destruct (template.truth v); [|reflexivity].
    induction body as [|n' l' IHl]; [reflexivity|].
    rewrite (IH n' dot), IHl. reflexivity.
  - destruct p as [p'|]; [|apply Hc].
    destruct (template.evalPipeline dot p'); [apply Hc | reflexivity].
Qed.

Lemma walkList_ext (call1 call2 : string -> template.value -> template.written) :
  (forall name v, call1 name v = call2 name v) ->
  forall (l : list template.node) (dot : template.value),
    template.walkList call1 dot l = template.walkList call2 dot l.
Proof.
  intros Hc l dot. induction l as [|n l IH]; [reflexivity|].
  cbn [template.walkList]. now rewrite (walk_ext _ _ Hc), IH.
Qed.

Lemma execTemplate_same (s1 s2 : template.treeSet) :
  process.same s1 s2 ->
  forall (depth : nat) (name : string) (dot : template.value),
    template.execTemplate s1 depth name dot = template.execTemplate s2 depth name dot.
Proof.
  intros Hs. induction depth as [|d IH]; intros name dot; cbn [template.execTemplate];
    rewrite (Hs name); destruct (template.lookup name s2) as [body|]; try reflexivity;
    apply walkList_ext; intros; first [reflexivity | apply IH].
Qed.


Lemma Parse_alike (order : process.reordering) (t t' : template.Template) (text : string) :
  process.shuffles order ->
  process.alike t t' ->
  match process.Parse order t text, template.Parse t' text with
  | template.Ok a, template.Ok b => process.alike a b
  | template.Err e, template.Err e' => e = e'
  | _, _ => False
  end.
Proof.
  intros Ho [Hn Hs]. unfold process.Parse, template.Parse. rewrite Hn.
  destruct (template.parseText (template.name t') text) as [trees|e] eqn:Hp;
    cbn [template.bind]; [|reflexivity].
  split; [reflexivity|]. cbn [template.tmpl].
  apply fold_associate_shuffled; [| | exact Hs].
  - apply Ho.
  - apply (Permutation_NoDup (Permutation_map fst (Permutation_sym (Ho trees)))).
    exact (NoDup_parseText _ _ _ Hp).
Qed.

Lemma Execute_alike (t t' : template.Template) (data : template.value) :
  process.alike t t' -> template.Execute t data = template.Execute t' data.
Proof.
  intros [Hn Hs]. unfold template.Execute. rewrite Hn, (Hs (template.name t')).
  destruct (template.lookup _ _); [|reflexivity].
  now apply execTemplate_same.
Qed.

Lemma renderTemplateFunc_alike {A : Type} `{template.Reflect A}
  (t t' : template.Template) (model : A) :
  process.alike t t' -> renderTemplateFunc t model = renderTemplateFunc t' model.
Proof. intros Ha. unfold renderTemplateFunc. now rewrite (Execute_alike _ _ _ Ha). Qed.

(** The call in a process returns what the function of the cluster says,
    whatever the templates of the process and the orders of the
    installations, and it touches no template that existed before it. *)
Lemma RenderTiKVStartScript_in_process (first second : process.reordering)
  (E : Externals) (tc : v1alpha1.TidbCluster) (h : process.store) :
  process.shuffles first ->
  process.shuffles second ->
  exists t : template.Template,
    process.RenderTiKVStartScript first second E tc h =
    (RenderTiKVStartScript E tc, (h ++ [t])%list).
Proof.
  intros H1 H2.
  unfold process.RenderTiKVStartScript, RenderTiKVStartScript, process.bind, process.New,
    process.alloc, process.MustParse, process.renderTemplateFuncAt.
  rewrite get_alloc.
  pose proof (Parse_alike first (template.New "tikv-start-script")
                (template.New "tikv-start-script") tikvStartSubScript H1
                (conj eq_refl (fun _ => eq_refl))) as Hp.
  destruct (process.Parse first _ tikvStartSubScript) as [a|e],
           (template.Parse _ tikvStartSubScript) as [b|e']; try contradiction.
  - cbn [Must go_bind]. rewrite set_alloc, get_alloc.
    set (text := componentCommonScript E ++ _).
    pose proof (Parse_alike second a b text H2 Hp) as Hq.
    destruct (process.Parse second a text) as [a'|e], (template.Parse b text) as [b'|e'];
      try contradiction.
    + cbn [Must go_bind]. rewrite set_alloc, get_alloc.
      rewrite (renderTemplateFunc_alike a' b' _ Hq). now exists a'.
    + cbn [Must go_bind]. subst e'. now exists a.
  - cbn [Must go_bind]. subst e'. now exists (template.New "tikv-start-script").
Qed.

(** ** The script, written from the cluster *)

Lemma extraArgsText_flag (m : TiKVStartScriptModel.t) (v : string) :
  TiKVStartScriptModel.ExtraArgs m = statusFlagMarker ++ v ->
  extraArgsText m = litExtraArgs ++ (statusFlagMarker ++ v) ++ litQuote.
Proof. intros H. unfold extraArgsText. rewrite H. reflexivity. Qed.

Lemma extraArgsText_none (m : TiKVStartScriptModel.t) :
  TiKVStartScriptModel.ExtraArgs m = "" -> extraArgsText m = "".
Proof. intros H. unfold extraArgsText. rewrite H. reflexivity. Qed.

Lemma scriptText_scriptOf (E : Externals) (tc : v1alpha1.TidbCluster) :
  scriptText E (tikvStartScriptModel E tc)
    (slices.Contains (v1alpha1.StartScriptV2FeatureFlags (v1alpha1.Spec tc))
       (StartScriptV2FeatureFlagWaitForDnsNameIpMatch E)) =
  scriptOf E tc.
Proof.
  unfold scriptText, scriptOf, dnsAwaitText, discoveryText, acrossK8sText, baseArgsText,
    otherFlagsText.
  pose proof (model_ExtraArgs E tc) as Hextra. fold statusFlagMarker in Hextra.
  rewrite model_AdvertiseHost, model_KVStartTimeout, model_AcrossK8s, model_PDAddr,
    model_AdvertiseAddr, model_Addr, model_StatusAddr, model_DataDir, model_Capacity.
  destruct (dynamicConfiguration tc).
  - rewrite (extraArgsText_flag _ _ Hextra).
    destruct (slices.Contains _ _), (v1alpha1.AcrossK8s tc);
      cbn [AcrossK8sScriptModel.PDAddr AcrossK8sScriptModel.DiscoveryAddr];
      rewrite !append_assoc; reflexivity.
  - rewrite (extraArgsText_none _ Hextra).
    destruct (slices.Contains _ _), (v1alpha1.AcrossK8s tc);
      cbn [AcrossK8sScriptModel.PDAddr AcrossK8sScriptModel.DiscoveryAddr];
      rewrite !append_assoc; reflexivity.
Qed.


(** ** The claims *)

Lemma Contains_In (l : list string) (v : string) :
  slices.Contains l v = true <-> In v l.
Proof.
  unfold slices.Contains. rewrite existsb_exists. split.
  - intros (x & Hx & He). apply String.eqb_eq in He. now subst.
  - intros H. exists v. split; [assumption | apply String.eqb_refl].
Qed.

(** A PD address holds a colon; the placeholder does not. *)
Lemma placeholder_not_address (E : Externals) (name : string) :
  "${result}" <> pdAddress E name.
Proof.
  unfold pdAddress. intros H.
  pose proof (occ_app_self_pos ":" (PDMemberName E name)
                (fmt.itoa (DefaultPDClientPort E)) ltac:(discriminate)) as Hpos.
  rewrite <- H in Hpos. vm_compute in Hpos. lia.
Qed.

(** C1.  For every cluster exactly one of the three branches that choose
    the PD endpoint fires, in the order of the renderer: across Kubernetes
    clusters the endpoint is the placeholder [${result}]; otherwise, for a
    heterogeneous cluster without local PD, it is the PD address of the
    referenced cluster; otherwise it is the PD address of the cluster
    itself. *)
Theorem pd_endpoint_one_branch (E : Externals) (tc : v1alpha1.TidbCluster) :
  exists b : pdBranch, fires E tc b /\ forall b' : pdBranch, fires E tc b' -> b' = b.
Proof.
  unfold fires. rewrite model_PDAddr.
  destruct (v1alpha1.AcrossK8s tc) eqn:Ha.
  - exists deferred. split; [auto|].
    intros [| |]; [reflexivity | intros [H _]; discriminate H | intros [H _]; discriminate H].
  - destruct (v1alpha1.Heterogeneous tc) eqn:Hh, (v1alpha1.WithoutLocalPD tc) eqn:Hw;
      cbn [andb].
    1: exists referenced.
    2-4: exists own.
    all: split;
      [ repeat split; auto; intros [H1 H2]; discriminate
      | intros [| |]; intros H; try reflexivity; exfalso;
        decompose [and] H; try discriminate; tauto ].
Qed.

(** C6.  The listen and the status address are the wildcard host of the
    addressing preference, [[::]] for IPv6 and [0.0.0.0] otherwise, with
    the server port and the status port; the script passes them as
    [--addr] and [--status-addr]. *)
Theorem listen_and_status_addresses (E : Externals) (tc : v1alpha1.TidbCluster) :
  wellFormed E = true ->
  let m := tikvStartScriptModel E tc in
  let host := if v1alpha1.PreferIPv6 (v1alpha1.Spec tc) then "[::]" else "0.0.0.0" in
  TiKVStartScriptModel.Addr m = host ++ ":" ++ fmt.itoa (DefaultTiKVServerPort E)
  /\ TiKVStartScriptModel.StatusAddr m = host ++ ":" ++ fmt.itoa (DefaultTiKVStatusPort E)
  /\ exists pre post : string,
       RenderTiKVStartScript E tc =
       returns
         (pre ++ litAddr ++ host ++ ":" ++ fmt.itoa (DefaultTiKVServerPort E)
          ++ litStatusAddr ++ host ++ ":" ++ fmt.itoa (DefaultTiKVStatusPort E)
          ++ litDataDir ++ post, None).
Proof.
  intros WF. cbv zeta. split; [apply model_Addr|]. split; [apply model_StatusAddr|].
  rewrite (render_script E WF).
  unfold scriptText, baseArgsText, otherFlagsText.
  rewrite model_Addr, model_StatusAddr. unfold wildcardHost.
  set (m := tikvStartScriptModel E tc).
  exists (componentCommonScript E ++ tikvStartScriptHead
          ++ dnsAwaitText E m
               (slices.Contains (v1alpha1.StartScriptV2FeatureFlags (v1alpha1.Spec tc))
                  (StartScriptV2FeatureFlagWaitForDnsNameIpMatch E))
          ++ discoveryText m ++ litArgsPd ++ TiKVStartScriptModel.PDAddr m
          ++ litAdvertiseAddr ++ TiKVStartScriptModel.AdvertiseAddr m).
  exists (TiKVStartScriptModel.DataDir m ++ litCapacity ++ TiKVStartScriptModel.Capacity m
          ++ litConfig ++ extraArgsText m ++ launchText).
  rewrite !append_assoc. reflexivity.
Qed.

(** C8.  Two calls on the same cluster return the same result, byte for
    byte, whatever the templates of the process when each call begins
    (those that earlier calls left, or none) and whatever the order in
    which each [Parse] installs the trees of its text: a call works on a
    template that it allocates itself and leaves the templates that
    existed as they were.  The result is the one that
    [RenderTiKVStartScript], the function of the cluster, gives; with
    well-formed declarations it is the script of the cluster, and no
    error. *)
Theorem render_deterministic (E : Externals) (tc : v1alpha1.TidbCluster)
  (first second first' second' : process.reordering) (h h' : process.store) :
  process.shuffles first ->
  process.shuffles second ->
  process.shuffles first' ->
  process.shuffles second' ->
  let call := process.RenderTiKVStartScript first second E tc h in
  let call' := process.RenderTiKVStartScript first' second' E tc h' in
  fst call = fst call'
  /\ fst call = RenderTiKVStartScript E tc
  /\ (exists t : template.Template, snd call = (h ++ [t])%list)
  /\ (wellFormed E = true ->
      fst call = returns (scriptOf E tc, None)
      /\ fst call' = returns (scriptOf E tc, None)).
Proof.
  intros H1 H2 H1' H2'. cbv zeta.
  destruct (RenderTiKVStartScript_in_process first second E tc h H1 H2) as (t & Hc).
  destruct (RenderTiKVStartScript_in_process first' second' E tc h' H1' H2') as (t' & Hc').
  rewrite Hc, Hc'. cbn [fst snd].
  split; [reflexivity|]. split; [reflexivity|]. split; [now exists t|].
  intros WF. rewrite (render_script E WF), scriptText_scriptOf. split; reflexivity.
Qed.

(** C10.  Changing the addressing preference changes the listen and the
    status address and nothing else in the model: the PD endpoint, the
    advertise host and address, the data directory, the capacity, the
    timeout, the extra arguments and the discovery model stay, and the
    advertise host and address begin with the pod name, not with a
    bracket. *)
Theorem prefer_ipv6_frame (E : Externals) (tc : v1alpha1.TidbCluster) (b : bool) :
  let m := tikvStartScriptModel E tc in
  let m' := tikvStartScriptModel E (withPreferIPv6 b tc) in
  TiKVStartScriptModel.PDAddr m' = TiKVStartScriptModel.PDAddr m
  /\ TiKVStartScriptModel.AdvertiseHost m' = TiKVStartScriptModel.AdvertiseHost m
  /\ TiKVStartScriptModel.AdvertiseAddr m' = TiKVStartScriptModel.AdvertiseAddr m
  /\ TiKVStartScriptModel.DataDir m' = TiKVStartScriptModel.DataDir m
  /\ TiKVStartScriptModel.Capacity m' = TiKVStartScriptModel.Capacity m
  /\ TiKVStartScriptModel.KVStartTimeout m' = TiKVStartScriptModel.KVStartTimeout m
  /\ TiKVStartScriptModel.ExtraArgs m' = TiKVStartScriptModel.ExtraArgs m
  /\ TiKVStartScriptModel.AcrossK8s m' = TiKVStartScriptModel.AcrossK8s m
  /\ starts "${TIKV_POD_NAME}." (TiKVStartScriptModel.AdvertiseHost m') = true
  /\ starts "${TIKV_POD_NAME}." (TiKVStartScriptModel.AdvertiseAddr m') = true
  /\ (b <> v1alpha1.PreferIPv6 (v1alpha1.Spec tc) ->
      TiKVStartScriptModel.Addr m' <> TiKVStartScriptModel.Addr m
      /\ TiKVStartScriptModel.StatusAddr m' <> TiKVStartScriptModel.StatusAddr m).
Proof.
  intros m m'. unfold m, m'.
  rewrite !model_PDAddr, !model_AdvertiseHost, !model_AdvertiseAddr, !model_DataDir,
    !model_Capacity, !model_KVStartTimeout, !model_ExtraArgs, !model_AcrossK8s,
    !model_Addr, !model_StatusAddr.
  do 8 (split; [reflexivity|]).
  split; [unfold advertiseHost; apply starts_app_self|].
  split; [unfold advertiseHost; rewrite <- append_assoc;
          apply (starts_app_self "${TIKV_POD_NAME}.")|].
  intros Hb. unfold wildcardHost. cbn.
  destruct b, (v1alpha1.PreferIPv6 (v1alpha1.Spec tc));
    try congruence; split; discriminate.
Qed.

(** The count of a marker in the script of a cluster, when no value of
    the cluster or of the declarations holds it. *)
Lemma occ_rendered (p : string) (E : Externals) (tc : v1alpha1.TidbCluster) :
  inputsFree p E tc = true ->
  literalsClear p = true ->
  occ p
    (scriptText E (tikvStartScriptModel E tc)
       (slices.Contains (v1alpha1.StartScriptV2FeatureFlags (v1alpha1.Spec tc))
          (StartScriptV2FeatureFlagWaitForDnsNameIpMatch E))) =
  baseCount p (tikvStartScriptModel E tc)
    (slices.Contains (v1alpha1.StartScriptV2FeatureFlags (v1alpha1.Spec tc))
       (StartScriptV2FeatureFlagWaitForDnsNameIpMatch E))
  + tailCount p (tikvStartScriptModel E tc).
Proof. intros H. apply occ_script. exact H. Qed.

(** C2, as amended.  Across Kubernetes clusters the value of [--pd] is the
    placeholder [${result}] and not the computed PD address; the computed
    address is the value of [pd_url] in the discovery subscript, which
    stands in the script with the base64 encoding of that URL, the
    discovery address and the polling loop.  The flag [--pd=], the
    encoding and the loop are in the script at least once in every case,
    and exactly once when none of the values written into the script (the
    fields of the model and the two shared fragments) holds the text
    counted. *)
Theorem across_k8s_script (E : Externals) (tc : v1alpha1.TidbCluster) :
  wellFormed E = true ->
  v1alpha1.AcrossK8s tc = true ->
  let m := tikvStartScriptModel E tc in
  let wait := slices.Contains (v1alpha1.StartScriptV2FeatureFlags (v1alpha1.Spec tc))
                (StartScriptV2FeatureFlagWaitForDnsNameIpMatch E) in
  let script :=
    componentCommonScript E ++ tikvStartScriptHead ++ dnsAwaitText E m wait
    ++ (litPdUrl ++ pdAddress E (v1alpha1.Name tc)
        ++ litEncodedUrl
        ++ (v1alpha1.Name tc ++ "-discovery." ++ v1alpha1.Namespace tc ++ ":10261")
        ++ discoveryLoop)
    ++ (litArgsPd ++ "${result}" ++ otherFlagsText m)
    ++ extraArgsText m ++ launchText in
  RenderTiKVStartScript E tc = returns (script, None)
  /\ "${result}" <> pdAddress E (v1alpha1.Name tc)
  /\ (1 <= occ pdFlagMarker script /\ 1 <= occ pollMarker script
      /\ 1 <= occ base64Marker script)
  /\ (inputsAvoid pdFlagMarker E tc = true -> occ pdFlagMarker script = 1)
  /\ (inputsAvoid pollMarker E tc = true -> occ pollMarker script = 1)
  /\ (inputsAvoid base64Marker E tc = true -> occ base64Marker script = 1).
Proof.
  intros WF Ha. cbv zeta.
  assert (Hs : scriptText E (tikvStartScriptModel E tc)
                 (slices.Contains (v1alpha1.StartScriptV2FeatureFlags (v1alpha1.Spec tc))
                    (StartScriptV2FeatureFlagWaitForDnsNameIpMatch E)) =
               componentCommonScript E ++ tikvStartScriptHead
               ++ dnsAwaitText E (tikvStartScriptModel E tc)
                    (slices.Contains (v1alpha1.StartScriptV2FeatureFlags (v1alpha1.Spec tc))
                       (StartScriptV2FeatureFlagWaitForDnsNameIpMatch E))
               ++ (litPdUrl ++ pdAddress E (v1alpha1.Name tc)
                   ++ litEncodedUrl
                   ++ (v1alpha1.Name tc ++ "-discovery." ++ v1alpha1.Namespace tc ++ ":10261")
                   ++ discoveryLoop)
               ++ (litArgsPd ++ "${result}" ++ otherFlagsText (tikvStartScriptModel E tc))
               ++ extraArgsText (tikvStartScriptModel E tc) ++ launchText).
  { unfold scriptText, discoveryText, baseArgsText, acrossK8sText.
    rewrite model_AcrossK8s, model_PDAddr, Ha. reflexivity. }
  rewrite <- Hs. split; [apply (render_script E WF)|].
  split; [apply placeholder_not_address|].
  split.
  - rewrite Hs.
    rewrite ?append_assoc.
    split; [|split].
    + do 11 skip_fragment occ_suffix_le.
      etransitivity; [|apply occ_prefix_le]. vm_compute. lia.
    + do 10 skip_fragment occ_suffix_le.
      etransitivity; [|apply occ_prefix_le]. vm_compute. lia.
    + do 5 skip_fragment occ_suffix_le.
      etransitivity; [|apply occ_prefix_le]. vm_compute. lia.
  - repeat split; intros Hf;
      (rewrite occ_rendered_exact; [| vm_compute; reflexivity | exact Hf]);
      unfold baseCount, tailCount; rewrite model_AcrossK8s, Ha;
      destruct (slices.Contains _ _); destruct (TiKVStartScriptModel.ExtraArgs _);
      vm_compute; reflexivity.
Qed.

(** C3.  The script holds the DNS fragment exactly when the feature flags
    hold [StartScriptV2FeatureFlagWaitForDnsNameIpMatch]: with the flag the
    fragment stands after the pod name, with the advertise host and the
    timeout; without it the placeholder is replaced by the empty string
    and nothing is rendered in its place.  When no string of the cluster
    or of the shared fragments holds [componentDomain=], the script holds
    it once with the flag and not at all without. *)
Theorem dns_await_iff_flag (E : Externals) (tc : v1alpha1.TidbCluster) :
  wellFormed E = true ->
  let m := tikvStartScriptModel E tc in
  let flags := v1alpha1.StartScriptV2FeatureFlags (v1alpha1.Spec tc) in
  let flag := StartScriptV2FeatureFlagWaitForDnsNameIpMatch E in
  exists fragment script : string,
    RenderTiKVStartScript E tc = returns (script, None)
    /\ script =
       componentCommonScript E ++ tikvStartScriptHead ++ fragment
       ++ discoveryText m ++ baseArgsText m ++ extraArgsText m ++ launchText
    /\ (In flag flags ->
        fragment =
          litComponentDomain ++ advertiseHost E tc
          ++ litWaitThreshold ++ fmt.itoa (v1alpha1.PDStartTimeout tc)
          ++ strings.TrimRight template.isSpace
               (nsLookupLine ++ componentCommonWaitForDnsIpMatchScript E ++ String LF ""))
    /\ (~ In flag flags ->
        fragment = ""
        /\ replaceTikvStartScriptDnsAwaitPart E (tikvStartScript E) false =
           tikvStartScriptHead ++ "" ++ tikvStartScriptTail)
    /\ (inputsFree dnsMarker E tc = true ->
        (In flag flags -> occ dnsMarker script = 1)
        /\ (~ In flag flags -> occ dnsMarker script = 0)
        /\ (In flag flags <-> 0 < occ dnsMarker script)).
Proof.
  intros WF. cbv zeta.
  pose proof (Contains_In (v1alpha1.StartScriptV2FeatureFlags (v1alpha1.Spec tc))
                (StartScriptV2FeatureFlagWaitForDnsNameIpMatch E)) as Hin.
  eexists. eexists. split; [apply (render_script E WF)|].
  split; [reflexivity|].
  assert (Hcount : inputsFree dnsMarker E tc = true ->
            occ dnsMarker
              (scriptText E (tikvStartScriptModel E tc)
                 (slices.Contains (v1alpha1.StartScriptV2FeatureFlags (v1alpha1.Spec tc))
                    (StartScriptV2FeatureFlagWaitForDnsNameIpMatch E))) =
            if slices.Contains (v1alpha1.StartScriptV2FeatureFlags (v1alpha1.Spec tc))
                 (StartScriptV2FeatureFlagWaitForDnsNameIpMatch E)
            then 1 else 0).
  { intros Hd. rewrite (occ_rendered _ _ _ Hd) by (vm_compute; reflexivity).
    unfold baseCount, tailCount.
    destruct (slices.Contains _ _),
      (TiKVStartScriptModel.AcrossK8s (tikvStartScriptModel E tc)),
      (TiKVStartScriptModel.ExtraArgs (tikvStartScriptModel E tc));
      vm_compute; reflexivity. }
  destruct (slices.Contains _ _) eqn:Hc.
  - assert (Hf : In (StartScriptV2FeatureFlagWaitForDnsNameIpMatch E)
                   (v1alpha1.StartScriptV2FeatureFlags (v1alpha1.Spec tc)))
      by (now apply Hin).
    split; [intros _|].
    { unfold dnsAwaitText. now rewrite model_AdvertiseHost, model_KVStartTimeout. }
    split; [intros Hn; contradiction|].
    intros Hd. rewrite (Hcount Hd).
    split; [reflexivity|]. split; [intros Hn; contradiction|]. split; [lia | auto].
  - assert (Hf : ~ In (StartScriptV2FeatureFlagWaitForDnsNameIpMatch E)
                     (v1alpha1.StartScriptV2FeatureFlags (v1alpha1.Spec tc)))
      by (intros Hf; apply Hin in Hf; discriminate).
    split; [intros Hy; contradiction|].
    split; [intros _; split; [reflexivity | apply (replace_dns E WF false)]|].
    intros Hd. rewrite (Hcount Hd).
    split; [intros Hy; contradiction|]. split; [reflexivity|].
    split; [intros Hy; contradiction | lia].
Qed.

(** C4.  The extra arguments are appended to [ARGS] exactly when dynamic
    configuration is enabled: they are then the single flag
    [--advertise-status-addr] with the advertise host and the status port,
    on the line that follows the base flags, after [${ARGS}] and a space;
    otherwise nothing stands between the base flags and the end of the
    script.  When no other string of the cluster or of the shared
    fragments holds [--advertise-status-addr=], the script holds it once
    in the first case and not at all in the second. *)
Theorem extra_args_iff_dynamic (E : Externals) (tc : v1alpha1.TidbCluster) :
  wellFormed E = true ->
  let m := tikvStartScriptModel E tc in
  let wait := slices.Contains (v1alpha1.StartScriptV2FeatureFlags (v1alpha1.Spec tc))
                (StartScriptV2FeatureFlagWaitForDnsNameIpMatch E) in
  let value := advertiseHost E tc ++ ":" ++ fmt.itoa (DefaultTiKVStatusPort E) in
  exists line script : string,
    RenderTiKVStartScript E tc = returns (script, None)
    /\ script =
       componentCommonScript E ++ tikvStartScriptHead ++ dnsAwaitText E m wait
       ++ discoveryText m ++ baseArgsText m ++ line ++ launchText
    /\ (dynamicConfiguration tc = true ->
        TiKVStartScriptModel.ExtraArgs m = statusFlagMarker ++ value
        /\ line = litExtraArgs ++ (statusFlagMarker ++ value) ++ litQuote)
    /\ (dynamicConfiguration tc = false ->
        TiKVStartScriptModel.ExtraArgs m = "" /\ line = "")
    /\ (baseInputsFree statusFlagMarker E tc = true ->
        free statusFlagMarker value = true ->
        occ statusFlagMarker script = if dynamicConfiguration tc then 1 else 0).
Proof.
  intros WF. cbv zeta.
  pose proof (model_ExtraArgs E tc) as Hextra.
  fold statusFlagMarker in Hextra.
  set (v := advertiseHost E tc ++ ":" ++ fmt.itoa (DefaultTiKVStatusPort E)) in *.
  exists (extraArgsText (tikvStartScriptModel E tc)). eexists.
  split; [apply (render_script E WF)|].
  split; [reflexivity|].
  assert (Hbase : baseInputsFree statusFlagMarker E tc = true ->
            occ statusFlagMarker
              (scriptText E (tikvStartScriptModel E tc)
                 (slices.Contains (v1alpha1.StartScriptV2FeatureFlags (v1alpha1.Spec tc))
                    (StartScriptV2FeatureFlagWaitForDnsNameIpMatch E))) =
            occ statusFlagMarker (extraArgsText (tikvStartScriptModel E tc) ++ launchText)).
  { intros Hb. unfold baseInputsFree in Hb.
    rewrite (occ_script_base _ _ _ _ Hb) by (vm_compute; reflexivity).
    unfold baseCount.
    destruct (slices.Contains _ _),
      (TiKVStartScriptModel.AcrossK8s (tikvStartScriptModel E tc));
      vm_compute; reflexivity. }
  destruct (dynamicConfiguration tc).
  - split; [intros _; split; [exact Hextra | apply (extraArgsText_flag _ _ Hextra)]|].
    split; [intros H; discriminate H|].
    intros Hb Hv.
    rewrite (Hbase Hb), (extraArgsText_flag _ _ Hextra), !append_assoc.
    rewrite (occ_lit statusFlagMarker litExtraArgs) by (vm_compute; reflexivity).
    rewrite (occ_lit statusFlagMarker statusFlagMarker) by (vm_compute; reflexivity).
    rewrite (occ_free _ _ _ Hv).
    rewrite (occ_lit statusFlagMarker litQuote) by (vm_compute; reflexivity).
    vm_compute. reflexivity.
  - split; [intros H; discriminate H|].
    split; [intros _; split; [exact Hextra | apply (extraArgsText_none _ Hextra)]|].
    intros Hb Hv.
    rewrite (Hbase Hb), (extraArgsText_none _ Hextra). vm_compute. reflexivity.
Qed.

(** C5, as amended.  The call has three outcomes, each of them decided by
    the template library: it panics (through [template.Must]) exactly
    when the text of the start script does not parse, with the error of
    the parser; it returns an error exactly when the parsed template fails
    while it is executed, with the error of the execution and with the
    empty string, whatever the execution had written before it failed; it
    returns a script and no error exactly when the execution succeeds, and
    the script is then all that the execution wrote.  With well-formed
    fragments the call returns the script and no error. *)
Theorem render_failure_modes (E : Externals) (tc : v1alpha1.TidbCluster) :
  let text :=
    componentCommonScript E
    ++ replaceTikvStartScriptDnsAwaitPart E (tikvStartScript E)
         (slices.Contains (v1alpha1.StartScriptV2FeatureFlags (v1alpha1.Spec tc))
            (StartScriptV2FeatureFlagWaitForDnsNameIpMatch E)) in
  let parsed := template.Parse (template.mkTemplate "tikv-start-script" subTmpl) text in
  let data := template.reflect (tikvStartScriptModel E tc) in
  (forall e : template.error,
     RenderTiKVStartScript E tc = panics e <-> parsed = template.Err e)
  /\ (forall (script : string) (e : template.error),
        RenderTiKVStartScript E tc = returns (script, Some e) <->
        script = ""
        /\ exists (tpl : template.Template) (buff : list string),
             parsed = template.Ok tpl /\ template.Execute tpl data = (buff, Some e))
  /\ (forall script : string,
        RenderTiKVStartScript E tc = returns (script, None) <->
        exists (tpl : template.Template) (buff : list string),
          parsed = template.Ok tpl /\ template.Execute tpl data = (buff, None)
          /\ script = String.concat "" buff)
  /\ (wellFormed E = true ->
      exists script : string, RenderTiKVStartScript E tc = returns (script, None)).
Proof.
  cbv zeta. unfold RenderTiKVStartScript. fold subScriptTemplate.
  rewrite subScriptTemplate_ok. cbn [Must go_bind].
  split; [|split; [|split]].
  - intros e. destruct (template.Parse _ _) as [tpl|e0]; cbn [Must go_bind].
    + split; intros H; discriminate H.
    + split; intros H; injection H as ->; reflexivity.
  - intros script e. destruct (template.Parse _ _) as [tpl|e0]; cbn [Must go_bind].
    + unfold renderTemplateFunc.
      destruct (template.Execute tpl _) as [buff [err|]] eqn:Hx; split.
      * intros H. injection H as <- <-. split; [reflexivity|].
        exists tpl, buff. split; [reflexivity | exact Hx].
      * intros (-> & tpl' & buff' & Hp & Hx'). injection Hp as <-.
        rewrite Hx in Hx'. injection Hx' as _ <-. reflexivity.
      * intros H. discriminate H.
      * intros (_ & tpl' & buff' & Hp & Hx'). injection Hp as <-.
        rewrite Hx in Hx'. discriminate Hx'.
    + split; [intros H; discriminate H|].
      intros (_ & tpl' & buff' & Hp & _). discriminate Hp.
  - intros script. destruct (template.Parse _ _) as [tpl|e0]; cbn [Must go_bind].
    + unfold renderTemplateFunc.
      destruct (template.Execute tpl _) as [buff [err|]] eqn:Hx; split.
      * intros H. discriminate H.
      * intros (tpl' & buff' & Hp & Hx' & _). injection Hp as <-.
        rewrite Hx in Hx'. discriminate Hx'.
      * intros H. injection H as <-. exists tpl, buff. auto.
      * intros (tpl' & buff' & Hp & Hx' & ->). injection Hp as <-.
        rewrite Hx in Hx'. injection Hx' as <-. reflexivity.
    + split; [intros H; discriminate H|].
      intros (tpl' & buff' & Hp & _). discriminate Hp.
  - intros WF. pose proof (render_script E WF tc) as H.
    unfold RenderTiKVStartScript in H. fold subScriptTemplate in H.
    rewrite subScriptTemplate_ok in H. cbn [Must go_bind] in H.
    eexists. exact H.
Qed.

(** C7.  Across Kubernetes clusters the lines of the script hold the
    lines of the polling loop, and the shell reads them, wherever it
    stands outside a loop, as one [until] loop whose body is an [echo] and
    a [sleep $((RANDOM % 5))]: no [break], no [exit], no count of the
    attempts.  Run, the loop sleeps after each failed attempt for the
    remainder of [RANDOM] by 5, between 0 and 4 seconds, each of these
    values being possible; from whatever state it starts, as long as the
    condition fails the loop is still running, after any number of
    attempts, and it ends at the first attempt whose condition
    succeeds. *)
Theorem discovery_loop_unbounded (E : Externals) (tc : v1alpha1.TidbCluster) :
  wellFormed E = true ->
  v1alpha1.AcrossK8s tc = true ->
  let loop := sh.Until pollingCondition pollingBody in
  let seconds (w : sh.world) (i : nat) := Z.rem (Z.modulo (sh.entropy w i) 32768) 5 in
  (exists (script : string) (before after : list string),
     RenderTiKVStartScript E tc = returns (script, None)
     /\ sh.lines script = (before ++ sh.lines pollingLoop ++ after)%list)
  /\ (forall r : sh.reader,
        sh.open r = None ->
        sh.readLines r (sh.lines pollingLoop) = Some (sh.mkReader (loop :: sh.read r) None))
  /\ (forall (w : sh.world) (st : sh.state) (n : nat),
        (forall i, i < n -> sh.succeeds w (sh.tests st + i) = false) ->
        exists st' : sh.state,
          sh.run w n [loop] st = (st', sh.Running)
          /\ sh.tests st' = sh.tests st + n
          /\ sh.sleeps (sh.trace st') =
             (sh.sleeps (sh.trace st) ++ map (seconds w) (seq (sh.draws st) n))%list
          /\ Forall (fun d => 0 <= d <= 4)%Z (map (seconds w) (seq (sh.draws st) n)))
  /\ (forall (w : sh.world) (st : sh.state) (n attempts : nat),
        (forall i, i < n -> sh.succeeds w (sh.tests st + i) = false) ->
        sh.succeeds w (sh.tests st + n) = true ->
        n < attempts ->
        exists st' : sh.state,
          sh.run w attempts [loop] st = (st', sh.Completed)
          /\ sh.tests st' = S (sh.tests st + n)
          /\ sh.sleeps (sh.trace st') =
             (sh.sleeps (sh.trace st) ++ map (seconds w) (seq (sh.draws st) n))%list
          /\ Forall (fun d => 0 <= d <= 4)%Z (map (seconds w) (seq (sh.draws st) n)))
  /\ (forall k : Z,
        (0 <= k <= 4)%Z ->
        exists (w : sh.world) (st : sh.state),
          sh.run w 2 [loop] sh.initial = (st, sh.Completed)
          /\ sh.sleeps (sh.trace st) = [k]).
Proof.
  intros WF Ha. cbv zeta.
  split; [|split; [|split; [|split]]].
  - pose proof (model_AcrossK8s E tc) as Hm. rewrite Ha in Hm.
    assert (Hl : exists before after : list string,
               sh.lines
                 (scriptText E (tikvStartScriptModel E tc)
                    (slices.Contains
                       (v1alpha1.StartScriptV2FeatureFlags (v1alpha1.Spec tc))
                       (StartScriptV2FeatureFlagWaitForDnsNameIpMatch E))) =
               (before ++ sh.lines pollingLoop ++ after)%list).
    { unfold scriptText, discoveryText, acrossK8sText, baseArgsText. rewrite Hm.
      cbn [AcrossK8sScriptModel.PDAddr AcrossK8sScriptModel.DiscoveryAddr].
      rewrite !append_assoc.
      match goal with
      | |- context [sh.lines (?a ++ ?b ++ ?c ++ ?d ++ ?e ++ ?f ++ ?g ++ ?h ++ ?i ++ ?j
                              ++ discoveryLoop ++ litArgsPd ++ ?rest)] =>
          replace (a ++ b ++ c ++ d ++ e ++ f ++ g ++ h ++ i ++ j
                   ++ discoveryLoop ++ litArgsPd ++ rest)
            with ((a ++ b ++ c ++ d ++ e ++ f ++ g ++ h ++ i ++ j)
                  ++ discoveryLoop ++ litArgsPd ++ rest)
            by (rewrite !append_assoc; reflexivity)
      end.
      apply polling_lines. }
    destruct Hl as (before & after & Hl).
    eexists. exists before, after. split; [apply (render_script E WF) | exact Hl].
  - exact polling_loop_read.
  - intros w st n H.
    destruct (runUntil_waiting w n st) as (st' & Hr & Ht & _ & Hs); [exact H|].
    exists st'. cbn [sh.run sh.runCommand]. rewrite Hr.
    split; [reflexivity|]. split; [exact Ht|]. split; [exact Hs|].
    apply seconds_bounds.
  - intros w st n attempts H Hn Hlt.
    destruct (runUntil_verified w n attempts st) as (st' & Hr & Ht & _ & Hs);
      [exact H | exact Hn | exact Hlt |].
    exists st'. cbn [sh.run sh.runCommand]. rewrite Hr.
    split; [reflexivity|]. split; [exact Ht|]. split; [exact Hs|].
    apply seconds_bounds.
  - intros k Hk.
    exists (sh.mkWorld (fun i => Nat.leb 1 i) (fun _ => k)).
    destruct (runUntil_verified (sh.mkWorld (fun i => Nat.leb 1 i) (fun _ => k)) 1 2
                sh.initial) as (st & Hr & _ & _ & Hs).
    + intros i Hi. destruct i; [reflexivity | lia].
    + reflexivity.
    + lia.
    + exists st. cbn [sh.run sh.runCommand]. rewrite Hr. split; [reflexivity|].
      rewrite Hs. cbn [sh.initial sh.trace sh.draws sh.sleeps app seq map sh.entropy].
      f_equal. rewrite Z.mod_small by lia. apply Z.rem_small. lia.
Qed.

(** C9.  A cluster whose dynamic-configuration flag is unset renders as the
    same cluster with the flag set to false: the extra arguments are empty
    and no line is rendered for them; when no string of the cluster or of
    the shared fragments holds them, the script holds neither
    [--advertise-status-addr=] nor the line that appends extra
    arguments. *)
Theorem unset_dynamic_configuration (E : Externals) (tc : v1alpha1.TidbCluster) :
  wellFormed E = true ->
  let unset := withEnableDynamicConfiguration None tc in
  RenderTiKVStartScript E unset =
  RenderTiKVStartScript E (withEnableDynamicConfiguration (Some false) tc)
  /\ exists script : string,
       RenderTiKVStartScript E unset = returns (script, None)
       /\ TiKVStartScriptModel.ExtraArgs (tikvStartScriptModel E unset) = ""
       /\ extraArgsText (tikvStartScriptModel E unset) = ""
       /\ (inputsFree statusFlagMarker E unset = true -> occ statusFlagMarker script = 0)
       /\ (inputsFree extraLineMarker E unset = true -> occ extraLineMarker script = 0).
Proof.
  intros WF. cbv zeta. split; [reflexivity|].
  eexists. split; [apply (render_script E WF)|].
  pose proof (model_ExtraArgs E (withEnableDynamicConfiguration None tc)) as Hextra.
  cbn [dynamicConfiguration withEnableDynamicConfiguration
       v1alpha1.EnableDynamicConfiguration v1alpha1.Spec] in Hextra.
  split; [exact Hextra|]. split; [apply (extraArgsText_none _ Hextra)|].
  split; intros Hf;
    rewrite (occ_rendered _ _ _ Hf) by (vm_compute; reflexivity);
    unfold baseCount, tailCount; rewrite Hextra;
    destruct (slices.Contains _ _);
    destruct (TiKVStartScriptModel.AcrossK8s _); vm_compute; reflexivity.
Qed.

(** ** The claims on the sample declarations *)

Lemma sampleExternals_wellFormed : wellFormed sampleExternals = true.
Proof. vm_compute. reflexivity. Qed.

(** C2 as stated fails: across Kubernetes clusters the computed PD address
    [basic-pd:2379] is in the script, as the value of [pd_url]; and the
    text of the polling loop is in the script a second time when a value of
    the cluster, here the cluster domain, holds it. *)
Lemma across_k8s_address_present :
  (v1alpha1.AcrossK8s acrossCluster = true
   /\ pdAddress sampleExternals (v1alpha1.Name acrossCluster) = "basic-pd:2379"
   /\ exists script : string,
        RenderTiKVStartScript sampleExternals acrossCluster = returns (script, None)
        /\ occ "basic-pd:2379" script = 1
        /\ occ "pd_url=basic-pd:2379" script = 1)
  /\ (v1alpha1.AcrossK8s loopDomainCluster = true
      /\ exists script : string,
           RenderTiKVStartScript sampleExternals loopDomainCluster = returns (script, None)
           /\ occ pollMarker script = 2).
Proof.
  split.
  - split; [reflexivity|]. split; [reflexivity|].
    eexists. split; [vm_compute; reflexivity|]. split; vm_compute; reflexivity.
  - split; [reflexivity|].
    eexists. split; [vm_compute; reflexivity | vm_compute; reflexivity].
Qed.

Lemma across_k8s_script_witness :
  wellFormed sampleExternals = true
  /\ v1alpha1.AcrossK8s menuCluster = true
  /\ inputsAvoid pdFlagMarker sampleExternals menuCluster = true
  /\ inputsAvoid pollMarker sampleExternals menuCluster = true
  /\ inputsAvoid base64Marker sampleExternals menuCluster = true
  /\ exists script : string,
       RenderTiKVStartScript sampleExternals menuCluster = returns (script, None)
       /\ occ pdFlagMarker script = 1
       /\ occ pollMarker script = 1
       /\ occ base64Marker script = 1.
Proof.
  assert (H1 : wellFormed sampleExternals = true) by (vm_compute; reflexivity).
  assert (H2 : v1alpha1.AcrossK8s menuCluster = true) by reflexivity.
  assert (H3 : inputsAvoid pdFlagMarker sampleExternals menuCluster = true)
    by (vm_compute; reflexivity).
  assert (H4 : inputsAvoid pollMarker sampleExternals menuCluster = true)
    by (vm_compute; reflexivity).
  assert (H5 : inputsAvoid base64Marker sampleExternals menuCluster = true)
    by (vm_compute; reflexivity).
  do 5 (split; [assumption|]).
  destruct (across_k8s_script sampleExternals menuCluster H1 H2)
    as (Hr & _ & _ & Hpd & Hp & Hb).
  eexists. split; [exact Hr|]. split; [exact (Hpd H3)|]. split; [exact (Hp H4) | exact (Hb H5)].
Defined.

Lemma dns_await_iff_flag_witness :
  wellFormed sampleExternals = true
  /\ inputsFree dnsMarker sampleExternals acrossCluster = true
  /\ exists script : string,
       RenderTiKVStartScript sampleExternals acrossCluster = returns (script, None)
       /\ (In "WaitForDnsNameIpMatch"
             (v1alpha1.StartScriptV2FeatureFlags (v1alpha1.Spec acrossCluster))
           <-> 0 < occ dnsMarker script).
Proof.
  assert (H1 : wellFormed sampleExternals = true) by (vm_compute; reflexivity).
  assert (H2 : inputsFree dnsMarker sampleExternals acrossCluster = true)
    by (vm_compute; reflexivity).
  do 2 (split; [assumption|]).
  destruct (dns_await_iff_flag sampleExternals acrossCluster H1)
    as (fragment & script & Hr & _ & _ & _ & Hcount).
  exists script. split; [exact Hr | exact (proj2 (proj2 (Hcount H2)))].
Defined.

Lemma extra_args_iff_dynamic_witness :
  wellFormed sampleExternals = true
  /\ baseInputsFree statusFlagMarker sampleExternals acrossCluster = true
  /\ free statusFlagMarker
       (advertiseHost sampleExternals acrossCluster ++ ":"
        ++ fmt.itoa (DefaultTiKVStatusPort sampleExternals)) = true
  /\ dynamicConfiguration acrossCluster = true
  /\ exists script : string,
       RenderTiKVStartScript sampleExternals acrossCluster = returns (script, None)
       /\ occ statusFlagMarker script = 1.
Proof.
  assert (H1 : wellFormed sampleExternals = true) by (vm_compute; reflexivity).
  assert (H2 : baseInputsFree statusFlagMarker sampleExternals acrossCluster = true)
    by (vm_compute; reflexivity).
  assert (H3 : free statusFlagMarker
                 (advertiseHost sampleExternals acrossCluster ++ ":"
                  ++ fmt.itoa (DefaultTiKVStatusPort sampleExternals)) = true)
    by (vm_compute; reflexivity).
  do 3 (split; [assumption|]). split; [reflexivity|].
  destruct (extra_args_iff_dynamic sampleExternals acrossCluster H1)
    as (line & script & Hr & _ & _ & _ & Hcount).
  exists script. split; [exact Hr | exact (Hcount H2 H3)].
Defined.

Lemma listen_and_status_addresses_witness :
  wellFormed sampleExternals = true
  /\ TiKVStartScriptModel.Addr (tikvStartScriptModel sampleExternals acrossCluster) =
     "[::]:20160"
  /\ TiKVStartScriptModel.StatusAddr (tikvStartScriptModel sampleExternals acrossCluster) =
     "[::]:20180".
Proof.
  assert (H1 : wellFormed sampleExternals = true) by (vm_compute; reflexivity).
  split; [assumption|].
  destruct (listen_and_status_addresses sampleExternals acrossCluster H1) as (Ha & Hs & _).
  split; [exact Ha | exact Hs].
Defined.

Lemma discovery_loop_unbounded_witness :
  wellFormed sampleExternals = true
  /\ v1alpha1.AcrossK8s acrossCluster = true
  /\ exists (script : string) (before after : list string),
       RenderTiKVStartScript sampleExternals acrossCluster = returns (script, None)
       /\ sh.lines script = (before ++ sh.lines pollingLoop ++ after)%list.
Proof.
  assert (H1 : wellFormed sampleExternals = true) by (vm_compute; reflexivity).
  assert (H2 : v1alpha1.AcrossK8s acrossCluster = true) by reflexivity.
  do 2 (split; [assumption|]).
  exact (proj1 (discovery_loop_unbounded sampleExternals acrossCluster H1 H2)).
Defined.

Lemma render_deterministic_witness :
  process.shuffles (@rev (string * template.tree))
  /\ process.shuffles (fun trees => trees)
  /\ fst (process.RenderTiKVStartScript (@rev _) (fun trees => trees)
            sampleExternals acrossCluster []) =
     fst (process.RenderTiKVStartScript (fun trees => trees) (@rev _)
            sampleExternals acrossCluster [template.New "other"]).
Proof.
  assert (H1 : process.shuffles (@rev (string * template.tree)))
    by (intros l; apply Permutation_sym, Permutation_rev).
  assert (H2 : process.shuffles (fun trees => trees)) by (intros l; reflexivity).
  do 2 (split; [assumption|]).
  exact (proj1 (render_deterministic sampleExternals acrossCluster
                  (@rev _) (fun trees => trees) (fun trees => trees) (@rev _)
                  [] [template.New "other"] H1 H2 H2 H1)).
Defined.

Lemma unset_dynamic_configuration_witness :
  wellFormed sampleExternals = true
  /\ inputsFree statusFlagMarker sampleExternals
       (withEnableDynamicConfiguration None basicCluster) = true
  /\ inputsFree extraLineMarker sampleExternals
       (withEnableDynamicConfiguration None basicCluster) = true
  /\ RenderTiKVStartScript sampleExternals (withEnableDynamicConfiguration None basicCluster) =
     RenderTiKVStartScript sampleExternals
       (withEnableDynamicConfiguration (Some false) basicCluster)
  /\ exists script : string,
       RenderTiKVStartScript sampleExternals
         (withEnableDynamicConfiguration None basicCluster) = returns (script, None)
       /\ occ statusFlagMarker script = 0
       /\ occ extraLineMarker script = 0.
Proof.
  assert (H1 : wellFormed sampleExternals = true) by (vm_compute; reflexivity).
  assert (H2 : inputsFree statusFlagMarker sampleExternals
                 (withEnableDynamicConfiguration None basicCluster) = true)
    by (vm_compute; reflexivity).
  assert (H3 : inputsFree extraLineMarker sampleExternals
                 (withEnableDynamicConfiguration None basicCluster) = true)
    by (vm_compute; reflexivity).
  do 3 (split; [assumption|]).
  destruct (unset_dynamic_configuration sampleExternals basicCluster H1)
    as (He & script & Hr & _ & _ & Hs & Hl).
  split; [exact He|]. exists script.
  split; [exact Hr|]. split; [exact (Hs H2) | exact (Hl H3)].
Defined.

(** C5 as stated fails: with a fragment that does not parse the call does
    not return an error, it panics. *)
Lemma malformed_fragment_panics :
  RenderTiKVStartScript brokenExternals basicCluster = panics template.UnexpectedEnd.
Proof. vm_compute. reflexivity. Qed.

(** An execution that fails after it has written the beginning of the
    script: the call returns the error and the empty string, not what was
    written. *)
Example execution_failure_returns_no_script :
  exists (tpl : template.Template) (buff : list string),
    template.Parse (template.mkTemplate "tikv-start-script" subTmpl)
      (componentCommonScript failingExternals
       ++ replaceTikvStartScriptDnsAwaitPart failingExternals
            (tikvStartScript failingExternals) false) = template.Ok tpl
    /\ template.Execute tpl
         (template.reflect (tikvStartScriptModel failingExternals basicCluster)) =
       (buff, Some (template.CannotEvaluateField "Missing"))
    /\ String.concat "" buff = String.append "#!/bin/sh" (String LF "echo half ")
    /\ RenderTiKVStartScript failingExternals basicCluster =
       returns ("", Some (template.CannotEvaluateField "Missing")).
Proof.
  eexists. eexists. split; [vm_compute; reflexivity|].
  split; [vm_compute; reflexivity|]. split; vm_compute; reflexivity.
Qed.

(** The samples of the specification's scenarios. *)
Example basic_script_pd_address :
  exists script : string,
    RenderTiKVStartScript sampleExternals basicCluster = returns (script, None)
    /\ occ "--pd=basic-pd:2379 " script = 1
    /\ occ "--addr=0.0.0.0:20160 " script = 1
    /\ occ pollMarker script = 0
    /\ occ dnsMarker script = 0.
Proof. eexists. split; [vm_compute; reflexivity|]. repeat split; vm_compute; reflexivity. Qed.

Example heterogeneous_script_pd_address :
  exists script : string,
    RenderTiKVStartScript sampleExternals heterogeneousCluster = returns (script, None)
    /\ occ "--pd=main-pd:2379 " script = 1.
Proof. eexists. split; vm_compute; reflexivity. Qed.

(** ** Further properties of the renderer *)

Lemma render_fragments (E : Externals) (WF : wellFormed E = true)
  (tc : v1alpha1.TidbCluster) :
  RenderTiKVStartScript E tc = returns (scriptOf E tc, None).
Proof. rewrite (render_script E WF). now rewrite scriptText_scriptOf. Qed.

(** X1.  With well-formed declarations the renderer returns, for every
    cluster, the fragments in their fixed order with the values of the
    cluster between them, and no error: common script, pod name, DNS
    fragment (with the flag), discovery subscript (across Kubernetes
    clusters), base flags, extra arguments (under dynamic configuration),
    launch.  The strings of the cluster are copied as they are, whatever
    they hold: they are never read as template text. *)
Theorem render_fragments_in_order (E : Externals) (tc : v1alpha1.TidbCluster) :
  wellFormed E = true ->
  RenderTiKVStartScript E tc = returns (scriptOf E tc, None).
Proof.
  intros WF. exact (render_fragments E WF tc).
Qed.

(** X2.  The discovery subscript is in the script exactly for the clusters
    deployed across Kubernetes clusters: the model carries the discovery
    data for them alone, and the polling loop is counted once for them and
    not at all for the others, when none of the values written into the
    script (the fields of the model and the two shared fragments) holds
    it. *)
Theorem discovery_subscript_iff_across (E : Externals) (tc : v1alpha1.TidbCluster) :
  wellFormed E = true ->
  inputsAvoid pollMarker E tc = true ->
  (TiKVStartScriptModel.AcrossK8s (tikvStartScriptModel E tc) <> None
   <-> v1alpha1.AcrossK8s tc = true)
  /\ exists script : string,
       RenderTiKVStartScript E tc = returns (script, None)
       /\ occ pollMarker script = (if v1alpha1.AcrossK8s tc then 1 else 0)
       /\ (v1alpha1.AcrossK8s tc = true <-> 0 < occ pollMarker script).
Proof.
  intros WF Hf. split.
  - rewrite model_AcrossK8s. destruct (v1alpha1.AcrossK8s tc); split; intros H;
      (reflexivity || discriminate || congruence).
  - eexists. split; [apply (render_script E WF)|].
    rewrite occ_rendered_exact; [| vm_compute; reflexivity | exact Hf].
    unfold baseCount, tailCount. rewrite model_AcrossK8s.
    assert (Hc : forall (w : bool) (extra : string),
              occ pollMarker tikvStartScriptHead
              + (if w then occ pollMarker litComponentDomain + occ pollMarker litWaitThreshold
                 else 0)
              + (if v1alpha1.AcrossK8s tc
                 then occ pollMarker litPdUrl + occ pollMarker litEncodedUrl
                      + occ pollMarker discoveryLoop
                 else 0)
              + (occ pollMarker litArgsPd + occ pollMarker litAdvertiseAddr
                 + occ pollMarker litAddr + occ pollMarker litStatusAddr
                 + occ pollMarker litDataDir + occ pollMarker litCapacity
                 + occ pollMarker litConfig)
              + (match extra with
                 | "" => 0
                 | String _ _ => occ pollMarker litExtraArgs + occ pollMarker litQuote
                 end + occ pollMarker launchText) =
              if v1alpha1.AcrossK8s tc then 1 else 0).
    { intros w extra. destruct w, (v1alpha1.AcrossK8s tc), extra; vm_compute; reflexivity. }
    destruct (v1alpha1.AcrossK8s tc) eqn:Ha.
    + specialize (Hc (slices.Contains (v1alpha1.StartScriptV2FeatureFlags (v1alpha1.Spec tc))
                        (StartScriptV2FeatureFlagWaitForDnsNameIpMatch E))
                     (TiKVStartScriptModel.ExtraArgs (tikvStartScriptModel E tc))).
      cbv iota in Hc |- *. rewrite Hc. split; [reflexivity|]. split; [lia | auto].
    + specialize (Hc (slices.Contains (v1alpha1.StartScriptV2FeatureFlags (v1alpha1.Spec tc))
                        (StartScriptV2FeatureFlagWaitForDnsNameIpMatch E))
                     (TiKVStartScriptModel.ExtraArgs (tikvStartScriptModel E tc))).
      cbv iota in Hc |- *. rewrite Hc. split; [reflexivity|].
      split; [discriminate | lia].
Qed.

(** X3.  The feature flags matter only through the presence of
    [StartScriptV2FeatureFlagWaitForDnsNameIpMatch]: other flags, the
    order and repetitions change nothing in the result, script, error or
    panic. *)
Theorem feature_flags_by_membership (E : Externals) (tc : v1alpha1.TidbCluster)
  (flags : list string) :
  (In (StartScriptV2FeatureFlagWaitForDnsNameIpMatch E) flags
   <-> In (StartScriptV2FeatureFlagWaitForDnsNameIpMatch E)
         (v1alpha1.StartScriptV2FeatureFlags (v1alpha1.Spec tc))) ->
  RenderTiKVStartScript E (withStartScriptV2FeatureFlags flags tc) =
  RenderTiKVStartScript E tc.
Proof.
  intros H. rewrite <- !Contains_In in H.
  assert (Hc : slices.Contains flags (StartScriptV2FeatureFlagWaitForDnsNameIpMatch E) =
               slices.Contains (v1alpha1.StartScriptV2FeatureFlags (v1alpha1.Spec tc))
                 (StartScriptV2FeatureFlagWaitForDnsNameIpMatch E)).
  { destruct (slices.Contains flags _), (slices.Contains (v1alpha1.StartScriptV2FeatureFlags _) _);
      try reflexivity; destruct H as [H1 H2];
      [discriminate (H1 eq_refl) | discriminate (H2 eq_refl)]. }
  unfold RenderTiKVStartScript.
  change (v1alpha1.StartScriptV2FeatureFlags
            (v1alpha1.Spec (withStartScriptV2FeatureFlags flags tc))) with flags.
  rewrite Hc. reflexivity.
Qed.

Lemma model_withCluster (E : Externals) (tc : v1alpha1.TidbCluster)
  (ref : v1alpha1.TidbClusterRef.t) :
  v1alpha1.AcrossK8s tc = true
  \/ v1alpha1.Heterogeneous tc && v1alpha1.WithoutLocalPD tc = false ->
  tikvStartScriptModel E (withCluster ref tc) = tikvStartScriptModel E tc.
Proof.
  intros H. unfold tikvStartScriptModel.
  cbn [withCluster v1alpha1.AcrossK8s v1alpha1.Heterogeneous v1alpha1.WithoutLocalPD
       v1alpha1.Name v1alpha1.Namespace v1alpha1.Spec v1alpha1.PreferIPv6
       v1alpha1.ClusterDomain v1alpha1.TiKV v1alpha1.EnableDynamicConfiguration
       v1alpha1.PDStartTimeout v1alpha1.Cluster].
  destruct (v1alpha1.AcrossK8s tc); [reflexivity|].
  destruct H as [H|H]; [discriminate H|]. rewrite H. reflexivity.
Qed.

(** X4.  The referenced cluster is read by the second branch only: for a
    cluster across Kubernetes clusters, and for one that is not
    heterogeneous without local PD, another [tc.Spec.Cluster] gives the
    same result. *)
Theorem referenced_cluster_frame (E : Externals) (tc : v1alpha1.TidbCluster)
  (ref : v1alpha1.TidbClusterRef.t) :
  v1alpha1.AcrossK8s tc = true
  \/ v1alpha1.Heterogeneous tc && v1alpha1.WithoutLocalPD tc = false ->
  RenderTiKVStartScript E (withCluster ref tc) = RenderTiKVStartScript E tc.
Proof.
  intros H. unfold RenderTiKVStartScript. rewrite (model_withCluster E tc ref H).
  reflexivity.
Qed.

Lemma length_append (a b : string) :
  String.length (a ++ b) = String.length a + String.length b.
Proof. induction a as [|c a IH]; simpl; [reflexivity | now rewrite IH]. Qed.

Lemma append_inv_head (a b c : string) : a ++ b = a ++ c -> b = c.
Proof.
  induction a as [|x a IH]; intros H; [exact H|].
  simpl in H. injection H as H. exact (IH H).
Qed.

Lemma append_inv_tail (r a b : string) : a ++ r = b ++ r -> a = b.
Proof.
  revert b. induction a as [|x a IH]; intros [|y b] H.
  - reflexivity.
  - apply (f_equal String.length) in H. simpl in H. rewrite length_append in H. lia.
  - apply (f_equal String.length) in H. simpl in H. rewrite length_append in H. lia.
  - simpl in H. injection H as Hx H. subst y. now rewrite (IH b H).
Qed.

Lemma to_int_not_nil (z : Z) :
  Z.to_int z <> Decimal.Pos Decimal.Nil /\ Z.to_int z <> Decimal.Neg Decimal.Nil.
Proof.
  split; intros H;
    (assert (Hz : z = 0%Z)
       by (apply (f_equal Z.of_int) in H; rewrite DecimalZ.of_to in H; exact H));
    subst z; discriminate H.
Qed.

(** The decimal rendering tells the integers apart. *)
Lemma itoa_inj (a b : Z) : fmt.itoa a = fmt.itoa b -> a = b.
Proof.
  unfold fmt.itoa. intros H. apply (f_equal NilZero.int_of_string) in H.
  destruct (to_int_not_nil a) as [Ha1 Ha2]. destruct (to_int_not_nil b) as [Hb1 Hb2].
  rewrite !NilZero.isi in H by assumption.
  injection H as H. now apply DecimalZ.to_int_inj.
Qed.

(** X5.  The start timeout reaches the script through the DNS fragment
    only: two clusters that differ in the timeout alone have the same
    result exactly when the feature flag is absent. *)
Theorem timeout_matters_iff_dns_wait (E : Externals) (tc : v1alpha1.TidbCluster)
  (t1 t2 : Z) :
  wellFormed E = true ->
  t1 <> t2 ->
  (RenderTiKVStartScript E (withPDStartTimeout t1 tc) =
   RenderTiKVStartScript E (withPDStartTimeout t2 tc)
   <-> ~ In (StartScriptV2FeatureFlagWaitForDnsNameIpMatch E)
           (v1alpha1.StartScriptV2FeatureFlags (v1alpha1.Spec tc))).
Proof.
  intros WF Hne. rewrite <- Contains_In.
  rewrite !(render_fragments E WF).
  assert (Hs : returns (scriptOf E (withPDStartTimeout t1 tc), @None template.error) =
               returns (scriptOf E (withPDStartTimeout t2 tc), None) ->
               scriptOf E (withPDStartTimeout t1 tc) = scriptOf E (withPDStartTimeout t2 tc)).
  { intros H.
    exact (f_equal (fun r : go (string * option template.error) =>
                      match r with returns (s, _) => s | panics _ => "" end) H). }
  unfold scriptOf, advertiseHost, wildcardHost, dynamicConfiguration in *.
  cbn [withPDStartTimeout v1alpha1.Name v1alpha1.Namespace v1alpha1.Spec
       v1alpha1.AcrossK8s v1alpha1.Heterogeneous v1alpha1.WithoutLocalPD
       v1alpha1.PDStartTimeout] in *.
  destruct (slices.Contains _ _).
  - split; [|intros H; now elim H].
    intros H _. apply Hne. apply Hs in H. clear Hs.
    apply (append_inv_head (componentCommonScript E)) in H.
    apply (append_inv_head tikvStartScriptHead) in H.
    apply append_inv_tail in H.
    apply (append_inv_head litComponentDomain) in H.
    apply append_inv_head in H.
    apply (append_inv_head litWaitThreshold) in H.
    apply append_inv_tail in H.
    now apply itoa_inj.
  - split; [intros _; discriminate | reflexivity].
Qed.

(** X6.  Under dynamic configuration the advertised status address has the
    host of the advertised address, with the status port in the place of
    the server port; the host ends with the cluster domain when there is
    one and with [.svc] otherwise. *)
Theorem advertise_status_host_matches (E : Externals) (tc : v1alpha1.TidbCluster) :
  dynamicConfiguration tc = true ->
  let m := tikvStartScriptModel E tc in
  let host := TiKVStartScriptModel.AdvertiseHost m in
  let svc := "${TIKV_POD_NAME}." ++ TiKVPeerMemberName E (v1alpha1.Name tc) ++ "."
             ++ v1alpha1.Namespace tc ++ ".svc" in
  TiKVStartScriptModel.ExtraArgs m =
    "--advertise-status-addr=" ++ host ++ ":" ++ fmt.itoa (DefaultTiKVStatusPort E)
  /\ TiKVStartScriptModel.AdvertiseAddr m =
       host ++ ":" ++ fmt.itoa (DefaultTiKVServerPort E)
  /\ (v1alpha1.ClusterDomain (v1alpha1.Spec tc) = "" -> host = svc)
  /\ (v1alpha1.ClusterDomain (v1alpha1.Spec tc) <> "" ->
      host = svc ++ "." ++ v1alpha1.ClusterDomain (v1alpha1.Spec tc)).
Proof.
  intros Hd. cbv zeta.
  rewrite model_ExtraArgs, model_AdvertiseAddr, model_AdvertiseHost, Hd.
  split; [reflexivity|]. split; [reflexivity|].
  unfold advertiseHost. split; intros H.
  - rewrite H. cbn [String.eqb]. now rewrite ?append_assoc, ?append_nil_r.
  - apply String.eqb_neq in H. rewrite H. now rewrite ?append_assoc.
Qed.

(** *** The replacement of the placeholder *)

Lemma occ_match (x : ascii) (o b : string) :
  S (occ (String x o) b) <= occ (String x o) (String x o ++ b).
Proof.
  change (occ (String x o) (String x o ++ b))
    with ((if starts (String x o) (String x o ++ b) then 1 else 0)
          + occ (String x o) (o ++ b)).
  rewrite starts_app_self. pose proof (occ_suffix_le (String x o) o b). lia.
Qed.

(** A text joined by [old] holds [old] between its pieces. *)
Lemma occ_concat_ge (x : ascii) (o : string) (pieces : list string) :
  Nat.pred (List.length pieces) <= occ (String x o) (String.concat (String x o) pieces).
Proof.
  induction pieces as [|p [|q r] IH]; [simpl; lia | simpl; lia|].
  change (String.concat (String x o) (p :: q :: r))
    with (p ++ String x o ++ String.concat (String x o) (q :: r)).
  pose proof (occ_suffix_le (String x o) p
                (String x o ++ String.concat (String x o) (q :: r))).
  pose proof (occ_match x o (String.concat (String x o) (q :: r))).
  simpl List.length in *. simpl Nat.pred in *. lia.
Qed.

(** Text in which no occurrence begins is copied. *)
Lemma replaceFrom_prefix (old new a s : string) :
  occ old (a ++ s) = occ old s ->
  strings.replaceFrom old new 0 (a ++ s) = a ++ strings.replaceFrom old new 0 s.
Proof.
  induction a as [|c a IH]; intros H; [reflexivity|].
  change (occ old (String c a ++ s))
    with ((if starts old (String c a ++ s) then 1 else 0) + occ old (a ++ s)) in H.
  pose proof (occ_suffix_le old a s) as Hle.
  destruct (starts old (String c a ++ s)) eqn:Hst; [lia|].
  simpl in Hst |- *. rewrite Hst. rewrite IH by lia. reflexivity.
Qed.

(** An occurrence at the beginning is replaced, and the replacement goes
    on after it. *)
Lemma replaceFrom_match (x : ascii) (o new s : string) :
  strings.replaceFrom (String x o) new 0 (String x o ++ s) =
  new ++ strings.replaceFrom (String x o) new 0 s.
Proof.
  change (String x o ++ s) with (String x (o ++ s)).
  cbn [strings.replaceFrom].
  change (String x (o ++ s)) with (String x o ++ s). rewrite starts_app_self.
  change (Nat.pred (String.length (String x o))) with (String.length o).
  now rewrite replaceFrom_skip.
Qed.

Lemma replaceFrom_concat (x : ascii) (o new : string) (pieces : list string) :
  occ (String x o) (String.concat (String x o) pieces) = Nat.pred (List.length pieces) ->
  strings.replaceFrom (String x o) new 0 (String.concat (String x o) pieces) =
  String.concat new pieces.
Proof.
  induction pieces as [|p [|q r] IH]; intros H.
  - reflexivity.
  - simpl in H |- *. now apply replaceFrom_none.
  - change (String.concat (String x o) (p :: q :: r))
      with (p ++ String x o ++ String.concat (String x o) (q :: r)) in H |- *.
    change (String.concat new (p :: q :: r)) with (p ++ new ++ String.concat new (q :: r)).
    pose proof (occ_suffix_le (String x o) p
                  (String x o ++ String.concat (String x o) (q :: r))) as H1.
    pose proof (occ_match x o (String.concat (String x o) (q :: r))) as H2.
    pose proof (occ_concat_ge x o (q :: r)) as H3.
    simpl List.length in *. simpl Nat.pred in *.
    rewrite (replaceFrom_prefix (String x o) new p) by lia.
    rewrite replaceFrom_match. rewrite IH by lia. reflexivity.
Qed.

(** X7.  [replaceTikvStartScriptDnsAwaitPart] replaces every placeholder
    of the script it is given, not the first one only: a script made of
    pieces joined by the placeholder, with no other occurrence of it,
    becomes the pieces joined by the DNS fragment of the flag (the empty
    text without the flag); a script without placeholder is returned as it
    is. *)
Theorem replace_every_placeholder (E : Externals) (pieces : list string)
  (withLocalIpMatch : bool) :
  dnsAwaitPart E <> "" ->
  occ (dnsAwaitPart E) (String.concat (dnsAwaitPart E) pieces) =
    Nat.pred (List.length pieces) ->
  replaceTikvStartScriptDnsAwaitPart E (String.concat (dnsAwaitPart E) pieces)
    withLocalIpMatch =
  String.concat
    (if withLocalIpMatch then tikvWaitForDnsIpMatchSubScript E
     else tikvWaitForDnsOnlySubScript)
    pieces.
Proof.
  intros Hne H. unfold replaceTikvStartScriptDnsAwaitPart, strings.ReplaceAll.
  destruct (dnsAwaitPart E) as [|x o]; [contradiction|].
  destruct withLocalIpMatch; now apply replaceFrom_concat.
Qed.

(** *** The data directory *)

Lemma occ_slash_app (a b : string) : occ "/" (a ++ b) = occ "/" a + occ "/" b.
Proof.
  induction a as [|c a IH]; [reflexivity|].
  change (occ "/" (String c a ++ b))
    with ((if starts "/" (String c (a ++ b)) then 1 else 0) + occ "/" (a ++ b)).
  change (occ "/" (String c a))
    with ((if starts "/" (String c a) then 1 else 0) + occ "/" a).
  rewrite IH. cbn [starts]. lia.
Qed.

(** The elements of a path hold no separator. *)
Lemma splitOn_no_slash (s cur : string) :
  occ "/" cur = 0 ->
  Forall (fun e => occ "/" e = 0) (strings.splitOn "/" cur s).
Proof.
  revert cur. induction s as [|c s IH]; intros cur H.
  - constructor; [exact H | constructor].
  - cbn [strings.splitOn]. destruct (Ascii.eqb c "/") eqn:Hc.
    + constructor; [exact H | now apply IH].
    + apply IH. rewrite occ_slash_app, H. cbn [occ starts].
      rewrite Ascii.eqb_sym, Hc. reflexivity.
Qed.

(** Below the root, [Clean] keeps clean elements only. *)
Lemma cleanStep_clean (out : list string) (e : string) :
  Forall cleanElement out -> occ "/" e = 0 ->
  Forall cleanElement (filepath.cleanStep true out e).
Proof.
  intros Hout He. unfold filepath.cleanStep.
  destruct (String.eqb e "") eqn:H1; [exact Hout|].
  destruct (String.eqb e ".") eqn:H2; [exact Hout|].
  cbn [orb]. destruct (String.eqb e "..") eqn:H3.
  - destruct out as [|top below]; [constructor|].
    inversion Hout as [|? ? Htop Hbelow]; subst.
    destruct (String.eqb top "..") eqn:H4; [|exact Hbelow].
    apply String.eqb_eq in H4. destruct Htop as (_ & _ & Htop & _). contradiction.
  - constructor; [|exact Hout].
    apply String.eqb_neq in H1, H2, H3. repeat split; assumption.
Qed.

Lemma fold_cleanStep_clean (l out : list string) :
  Forall (fun e => occ "/" e = 0) l -> Forall cleanElement out ->
  Forall cleanElement (fold_left (filepath.cleanStep true) l out).
Proof.
  revert out. induction l as [|e l IH]; intros out Hl Hout; [exact Hout|].
  inversion Hl; subst. cbn [fold_left]. apply IH; [assumption|].
  now apply cleanStep_clean.
Qed.

Lemma Clean_rooted (p : string) :
  exists kept : list string,
    filepath.Clean (String "/" p) = "/" ++ String.concat "/" kept
    /\ Forall cleanElement kept.
Proof.
  exists (rev (fold_left (filepath.cleanStep true)
                 (strings.splitOn "/" EmptyString (String "/" p)) [])).
  split; [reflexivity|].
  apply Forall_rev. apply fold_cleanStep_clean; [|constructor].
  now apply splitOn_no_slash.
Qed.

Lemma occ_slash_cons (c : ascii) (a : string) :
  occ "/" (String c a) = 0 -> Ascii.eqb c "/" = false /\ occ "/" a = 0.
Proof.
  change (occ "/" (String c a)) with ((if starts "/" (String c a) then 1 else 0) + occ "/" a).
  cbn [starts]. rewrite (Ascii.eqb_sym c). destruct (Ascii.eqb "/" c); cbn [andb]; lia.
Qed.

Lemma splitOn_app (a cur s : string) :
  occ "/" a = 0 ->
  strings.splitOn "/" cur (a ++ s) = strings.splitOn "/" (cur ++ a) s.
Proof.
  revert cur. induction a as [|c a IH]; intros cur H.
  - now rewrite append_nil_r.
  - apply occ_slash_cons in H. destruct H as [Hc Ha].
    change (String c a ++ s) with (String c (a ++ s)).
    cbn [strings.splitOn]. rewrite Hc, (IH _ Ha), append_assoc. reflexivity.
Qed.

(** Splitting a joined path gives its elements back. *)
Lemma splitOn_concat (ks : list string) (k cur : string) :
  Forall (fun e => occ "/" e = 0) (k :: ks) ->
  strings.splitOn "/" cur (String.concat "/" (k :: ks)) = (cur ++ k) :: ks.
Proof.
  revert k cur. induction ks as [|k2 ks IH]; intros k cur H; inversion H as [|? ? Hk Hks]; subst.
  - cbn [String.concat]. rewrite <- (append_nil_r k) at 1.
    now rewrite (splitOn_app _ _ _ Hk).
  - change (String.concat "/" (k :: k2 :: ks))
      with (k ++ String "/" (String.concat "/" (k2 :: ks))).
    rewrite (splitOn_app _ _ _ Hk). cbn [strings.splitOn]. rewrite Ascii.eqb_refl.
    now rewrite (IH _ _ Hks).
Qed.

Lemma fold_cleanStep_id (l out : list string) :
  Forall cleanElement l ->
  fold_left (filepath.cleanStep true) l out = (rev l ++ out)%list.
Proof.
  revert out. induction l as [|e l IH]; intros out H; [reflexivity|].
  inversion H as [|? ? He Hl]; subst. destruct He as (H1 & H2 & H3 & _).
  apply String.eqb_neq in H1, H2, H3.
  cbn [fold_left rev]. unfold filepath.cleanStep at 2. rewrite H1, H2, H3. cbn [orb].
  rewrite (IH _ Hl), <- app_assoc. reflexivity.
Qed.

(** A cleaned absolute path is left as it is by [Clean]. *)
Lemma Clean_cleaned (kept : list string) :
  Forall cleanElement kept ->
  filepath.Clean ("/" ++ String.concat "/" kept) = "/" ++ String.concat "/" kept.
Proof.
  intros H. destruct kept as [|k ks]; [reflexivity|].
  assert (Hs : Forall (fun e => occ "/" e = 0) (k :: ks)).
  { eapply Forall_impl; [|exact H]. intros e He. apply He. }
  change ("/" ++ String.concat "/" (k :: ks))
    with (String "/" (String.concat "/" (k :: ks))).
  unfold filepath.Clean. cbn [Ascii.eqb Bool.eqb andb strings.splitOn].
  rewrite (splitOn_concat _ _ _ Hs).
  change (EmptyString ++ k) with k.
  change (fold_left (filepath.cleanStep true) (EmptyString :: k :: ks) [])
    with (fold_left (filepath.cleanStep true) (k :: ks) []).
  rewrite (fold_cleanStep_id _ _ H), app_nil_r, rev_involutive. reflexivity.
Qed.

Lemma Join_rooted (mount sub : string) :
  exists p : string, filepath.Join [String "/" mount; sub] = filepath.Clean (String "/" p).
Proof.
  unfold filepath.Join. cbn [filter String.eqb negb].
  destruct (String.eqb sub ""); cbn [negb].
  - now exists mount.
  - now exists (mount ++ "/" ++ sub).
Qed.

(** X8.  When the mount path is absolute the data directory is an absolute
    path in canonical form, whatever the subdirectory of the cluster: a
    slash followed by elements joined by single slashes, none of them
    empty, [.] or [..], so that [filepath.Clean] leaves it as it is. *)
Theorem data_dir_clean_absolute (E : Externals) (tc : v1alpha1.TidbCluster) :
  starts "/" (TiKVDataVolumeMountPath E) = true ->
  let dir := TiKVStartScriptModel.DataDir (tikvStartScriptModel E tc) in
  (exists kept : list string,
     dir = "/" ++ String.concat "/" kept /\ Forall cleanElement kept)
  /\ filepath.Clean dir = dir.
Proof.
  intros H. cbv zeta. rewrite model_DataDir.
  destruct (TiKVDataVolumeMountPath E) as [|c mount]; [discriminate H|].
  cbn [starts] in H. apply andb_true_iff in H. destruct H as [H _].
  apply Ascii.eqb_eq in H. subst c.
  destruct (Join_rooted mount (v1alpha1.DataSubDir (v1alpha1.TiKV (v1alpha1.Spec tc))))
    as [p Hp].
  rewrite Hp. destruct (Clean_rooted p) as (kept & Hk & Hc).
  split; [now exists kept|].
  rewrite Hk. now apply Clean_cleaned.
Qed.

(** *** The DNS-wait fragment without the flag *)

(** X9.  Without the feature flag the shared DNS-wait fragment is not
    used at all: whatever it holds, text that does not parse included,
    the result is the same, so that a defect of that fragment cannot reach
    the clusters that do not ask for the wait. *)
Theorem wait_fragment_unused_without_flag (E : Externals) (tc : v1alpha1.TidbCluster)
  (fragment : string) :
  ~ In (StartScriptV2FeatureFlagWaitForDnsNameIpMatch E)
      (v1alpha1.StartScriptV2FeatureFlags (v1alpha1.Spec tc)) ->
  RenderTiKVStartScript (withComponentCommonWaitForDnsIpMatchScript fragment E) tc =
  RenderTiKVStartScript E tc.
Proof.
  intros Hn. rewrite <- Contains_In in Hn. apply not_true_is_false in Hn.
  unfold RenderTiKVStartScript, replaceTikvStartScriptDnsAwaitPart.
  change (StartScriptV2FeatureFlagWaitForDnsNameIpMatch
            (withComponentCommonWaitForDnsIpMatchScript fragment E))
    with (StartScriptV2FeatureFlagWaitForDnsNameIpMatch E).
  rewrite Hn. reflexivity.
Qed.

(** ** The properties on the sample declarations *)

Lemma render_fragments_in_order_witness :
  wellFormed sampleExternals = true
  /\ RenderTiKVStartScript sampleExternals acrossCluster =
       returns (scriptOf sampleExternals acrossCluster, None).
Proof.
  assert (H : wellFormed sampleExternals = true) by (vm_compute; reflexivity).
  split; [exact H | exact (render_fragments_in_order sampleExternals acrossCluster H)].
Defined.

Lemma discovery_subscript_iff_across_witness :
  wellFormed sampleExternals = true
  /\ inputsAvoid pollMarker sampleExternals menuCluster = true
  /\ inputsAvoid pollMarker sampleExternals heterogeneousCluster = true
  /\ (exists script : string,
        RenderTiKVStartScript sampleExternals menuCluster = returns (script, None)
        /\ occ pollMarker script = 1)
  /\ (exists script : string,
        RenderTiKVStartScript sampleExternals heterogeneousCluster = returns (script, None)
        /\ occ pollMarker script = 0).
Proof.
  assert (H1 : wellFormed sampleExternals = true) by (vm_compute; reflexivity).
  assert (H2 : inputsAvoid pollMarker sampleExternals menuCluster = true)
    by (vm_compute; reflexivity).
  assert (H3 : inputsAvoid pollMarker sampleExternals heterogeneousCluster = true)
    by (vm_compute; reflexivity).
  do 3 (split; [assumption|]). split.
  - destruct (discovery_subscript_iff_across sampleExternals menuCluster H1 H2)
      as (_ & script & Hr & Hc & _).
    exists script. split; [exact Hr | exact Hc].
  - destruct (discovery_subscript_iff_across sampleExternals heterogeneousCluster H1 H3)
      as (_ & script & Hr & Hc & _).
    exists script. split; [exact Hr | exact Hc].
Defined.

Lemma feature_flags_by_membership_witness :
  (In "WaitForDnsNameIpMatch" ["other"; "WaitForDnsNameIpMatch"; "WaitForDnsNameIpMatch"]
   <-> In "WaitForDnsNameIpMatch"
         (v1alpha1.StartScriptV2FeatureFlags (v1alpha1.Spec acrossCluster)))
  /\ RenderTiKVStartScript sampleExternals
       (withStartScriptV2FeatureFlags
          ["other"; "WaitForDnsNameIpMatch"; "WaitForDnsNameIpMatch"] acrossCluster) =
     RenderTiKVStartScript sampleExternals acrossCluster.
Proof.
  assert (H : In "WaitForDnsNameIpMatch"
                ["other"; "WaitForDnsNameIpMatch"; "WaitForDnsNameIpMatch"]
              <-> In "WaitForDnsNameIpMatch"
                    (v1alpha1.StartScriptV2FeatureFlags (v1alpha1.Spec acrossCluster))).
  { split; intros _; simpl; auto. }
  split; [exact H|].
  exact (feature_flags_by_membership sampleExternals acrossCluster
           ["other"; "WaitForDnsNameIpMatch"; "WaitForDnsNameIpMatch"] H).
Defined.

Lemma referenced_cluster_frame_witness :
  (v1alpha1.AcrossK8s basicCluster = true
   \/ v1alpha1.Heterogeneous basicCluster && v1alpha1.WithoutLocalPD basicCluster = false)
  /\ RenderTiKVStartScript sampleExternals
       (withCluster (v1alpha1.TidbClusterRef.mk "main") basicCluster) =
     RenderTiKVStartScript sampleExternals basicCluster.
Proof.
  assert (H : v1alpha1.AcrossK8s basicCluster = true
              \/ v1alpha1.Heterogeneous basicCluster && v1alpha1.WithoutLocalPD basicCluster
                 = false) by (right; reflexivity).
  split; [exact H|].
  exact (referenced_cluster_frame sampleExternals basicCluster
           (v1alpha1.TidbClusterRef.mk "main") H).
Defined.

Lemma timeout_matters_iff_dns_wait_witness :
  wellFormed sampleExternals = true
  /\ 30%Z <> 60%Z
  /\ RenderTiKVStartScript sampleExternals (withPDStartTimeout 30 basicCluster) =
     RenderTiKVStartScript sampleExternals (withPDStartTimeout 60 basicCluster)
  /\ RenderTiKVStartScript sampleExternals (withPDStartTimeout 30 acrossCluster) <>
     RenderTiKVStartScript sampleExternals (withPDStartTimeout 60 acrossCluster).
Proof.
  assert (H1 : wellFormed sampleExternals = true) by (vm_compute; reflexivity).
  assert (H2 : 30%Z <> 60%Z) by lia.
  do 2 (split; [assumption|]). split.
  - apply (timeout_matters_iff_dns_wait sampleExternals basicCluster 30 60 H1 H2).
    simpl. tauto.
  - intros H.
    apply (timeout_matters_iff_dns_wait sampleExternals acrossCluster 30 60 H1 H2) in H.
    apply H. simpl. auto.
Defined.

Lemma advertise_status_host_matches_witness :
  dynamicConfiguration acrossCluster = true
  /\ TiKVStartScriptModel.ExtraArgs (tikvStartScriptModel sampleExternals acrossCluster) =
       "--advertise-status-addr=${TIKV_POD_NAME}.basic-tikv-peer.ns.svc.cluster.local:20180"
  /\ TiKVStartScriptModel.AdvertiseAddr (tikvStartScriptModel sampleExternals acrossCluster) =
       "${TIKV_POD_NAME}.basic-tikv-peer.ns.svc.cluster.local:20160".
Proof.
  assert (H : dynamicConfiguration acrossCluster = true) by reflexivity.
  split; [exact H|].
  destruct (advertise_status_host_matches sampleExternals acrossCluster H)
    as (H1 & H2 & _ & H4).
  assert (Hd : v1alpha1.ClusterDomain (v1alpha1.Spec acrossCluster) <> "") by discriminate.
  specialize (H4 Hd). rewrite H4 in H1, H2.
  split; [exact H1 | exact H2].
Defined.

Lemma replace_every_placeholder_witness :
  dnsAwaitPart sampleExternals <> ""
  /\ occ (dnsAwaitPart sampleExternals)
       (String.concat (dnsAwaitPart sampleExternals) ["a"; "b"; "c"]) = 2
  /\ replaceTikvStartScriptDnsAwaitPart sampleExternals
       "a<<dns-await-part>>b<<dns-await-part>>c" false = "abc".
Proof.
  assert (H1 : dnsAwaitPart sampleExternals <> "") by discriminate.
  assert (H2 : occ (dnsAwaitPart sampleExternals)
                 (String.concat (dnsAwaitPart sampleExternals) ["a"; "b"; "c"]) =
               Nat.pred (List.length ["a"; "b"; "c"])) by (vm_compute; reflexivity).
  split; [exact H1|]. split; [exact H2|].
  exact (replace_every_placeholder sampleExternals ["a"; "b"; "c"] false H1 H2).
Defined.

Lemma data_dir_clean_absolute_witness :
  starts "/" (TiKVDataVolumeMountPath sampleExternals) = true
  /\ filepath.Clean
       (TiKVStartScriptModel.DataDir (tikvStartScriptModel sampleExternals acrossCluster)) =
     TiKVStartScriptModel.DataDir (tikvStartScriptModel sampleExternals acrossCluster).
Proof.
  assert (H : starts "/" (TiKVDataVolumeMountPath sampleExternals) = true) by reflexivity.
  split; [exact H|].
  exact (proj2 (data_dir_clean_absolute sampleExternals acrossCluster H)).
Defined.

Lemma wait_fragment_unused_without_flag_witness :
  ~ In (StartScriptV2FeatureFlagWaitForDnsNameIpMatch sampleExternals)
      (v1alpha1.StartScriptV2FeatureFlags (v1alpha1.Spec basicCluster))
  /\ RenderTiKVStartScript
       (withComponentCommonWaitForDnsIpMatchScript "{{ end }}" sampleExternals) basicCluster =
     RenderTiKVStartScript sampleExternals basicCluster.
Proof.
  assert (H : ~ In (StartScriptV2FeatureFlagWaitForDnsNameIpMatch sampleExternals)
                (v1alpha1.StartScriptV2FeatureFlags (v1alpha1.Spec basicCluster)))
    by (simpl; tauto).
  split; [exact H|].
  exact (wait_fragment_unused_without_flag sampleExternals basicCluster "{{ end }}" H).
Defined.
